(** * Trading simulator: the broker core and the replay quote provider

    A shallow embedding of [backend/server/core/BrokerService.js] and of
    [backend/server/market/ReplayMarketDataService.js], with the properties
    the specification states about them.

    Modelling conventions.
    - A JavaScript number is an exact rational ([Q]).  The binary rounding
      of IEEE doubles, [NaN] and the infinities are outside the model; a
      missing or non-numeric order quantity (for which [Number(..)] gives
      [NaN]) is [None].  The concrete inputs used below are chosen so that
      the computation in doubles takes the same branches.
    - [Number(value.toFixed(6))] is the nearest multiple of 10^-6, a tie
      going away from zero (from 10^21 on [toFixed] prints the double
      itself, which is an integer there).  [roundMoney] returns it with
      denominator 10^6, so that two rounded amounts are equal as numbers
      exactly when they are equal as terms.
    - A JavaScript object used as a dictionary whose iteration order is
      observed ([account.positions]) is an association list in insertion
      order (symbols are not array indices); the [Map]s of the broker and
      of the quote provider, which are only looked up by key, are [gmap]s.
    - Mutation and [await] are explicit state passing over the broker
      state, for one caller at a time; an exception is a [Throw] outcome
      that keeps the mutated state.  [placeOrder] and the account refresh
      call each other, so the model takes fuel, the depth of these calls,
      and [Diverge] is its running out.
    - What is not in the sources at hand is a parameter: the seeded
      generator of [utils/rng.js] and the clock are streams of the
      [Runtime], the configuration of [config.js] and the dataset of
      [data/replay-quotes.json] are arguments. *)

From Stdlib Require Import ZArith QArith Qround Qabs Lia Lqa List Bool Ascii String.
From stdpp Require Import base option strings gmap.
Import ListNotations.

#[local] Open Scope Z_scope.
#[local] Open Scope Q_scope.

(** ** Numbers *)

Module Num.

(** The integer [n] with [value.toFixed(6)] the decimal notation of
    [n / 10^6]: the nearest one, the larger in magnitude on a tie. *)
Definition toFixed6 (value : Q) : Z :=
  if Qle_bool 0 value
  then Qfloor (value * 1000000 + (1 # 2))
  else (- Qfloor (- value * 1000000 + (1 # 2)))%Z.

(** [roundMoney], BrokerService.js line 21. *)
Definition roundMoney (value : Q) : Q := toFixed6 value # 1000000.

(** [x] lies exactly halfway between two neighbouring multiples of
    10^-6. *)
Definition tie (x : Q) : Prop := exists k : Z, x * 2000000 == inject_Z (2 * k + 1).

(** [Math.sign]. *)
Definition sign (x : Q) : Z := Z.sgn (Qnum x).

(** [x === y] on numbers. *)
Definition num_eqb (x y : Q) : bool := Qeq_bool x y.

(** [x < y], [x <= y] and [x > 0] on numbers. *)
Definition num_ltb (x y : Q) : bool := negb (Qle_bool y x).
Definition num_leb (x y : Q) : bool := Qle_bool x y.

(** [Math.max]. *)
Definition num_max (x y : Q) : Q := if Qle_bool x y then y else x.

End Num.
Export Num.

(** ** Data model *)

(** [ORDER_STATUS], line 3. *)
Inductive OrderStatus := OPEN | FILLED | REJECTED | CANCELED.

(** The results of [#evaluateTrigger], lines 373-383, and the state
    [PENDING_LIMIT] that [placeOrder] tests for. *)
Inductive TriggerState :=
  NOT_REQUIRED | PENDING_TRIGGER | PENDING_LIMIT | TRIGGERED_TO_MARKET | TRIGGERED_TO_LIMIT.

Inductive Direction := DEBIT | CREDIT.

(** The identifiers built by the template strings [ORD-<ms>-<n>],
    [FIL-<ms>-<n>] and [ORD-<ms>-MARGINCALL]. *)
Inductive Ident :=
| OrdId (ms : Z) (n : Z)
| FilId (ms : Z) (n : Z)
| MarginCallId (ms : Z).

(** Instants are milliseconds since the epoch, calendar dates are days
    since the epoch (the [YYYY-MM-DD] prefix of [toISOString]). *)
Definition Time := Z.
Definition IsoDate := Z.

Record Position := {
  p_symbol : string;
  p_quantity : Q;
  p_avgPrice : Q
}.

(** The result of [updateSignedPosition]: [{ quantity, avgPrice }]. *)
Record SignedPosition := {
  quantity : Q;
  avgPrice : Q
}.

Record Settlement := {
  s_amount : Q;
  s_direction : Direction;
  s_settleAt : Time;
  s_symbol : string
}.

(** The normalized order of [normalizeOrderInput].  [n_quantity] is [None]
    when [Number(input.quantity)] is not a number; a price is [None] when
    it is absent ([null]). *)
Record OrderInput := {
  n_type : string;
  n_side : string;
  n_tif : string;
  n_quantity : option Q;
  n_limitPrice : option Q;
  n_stopPrice : option Q;
  n_symbol : string
}.

(** The raw order handed to [placeOrder]. *)
Record RawOrder := {
  r_symbol : string;
  r_type : string;
  r_side : string;
  r_tif : option string;
  r_quantity : option Q;
  r_limitPrice : option Q;
  r_stopPrice : option Q;
  r_bypassMarginCheck : bool
}.

Record Order := {
  o_id : Ident;
  o_accountId : string;
  o_symbol : string;
  o_type : string;
  o_side : string;
  o_tif : string;
  o_quantity : option Q;
  o_limitPrice : option Q;
  o_stopPrice : option Q;
  o_status : OrderStatus;
  o_reason : option string;
  o_createdAt : Time;
  o_filledAt : option Time;
  o_fillPrice : option Q;
  o_fees : Q;
  o_triggerState : option TriggerState;
  o_effectiveType : option string
}.

Record Fill := {
  f_id : Ident;
  f_orderId : Ident;
  f_accountId : string;
  f_symbol : string;
  f_side : string;
  f_quantity : Q;
  f_price : Q;
  f_notional : Q;
  f_fees : Q;
  f_timestamp : Time
}.

(** The account object of [createAccount], lines 168-180.  [positions] is
    the object [symbol -> position] in insertion order. *)
Record Account := {
  id : string;
  createdAt : Time;
  settledCash : Q;
  unsettledCash : Q;
  reservedCash : Q;
  feesDue : Q;
  positions : list (string * Position);
  orders : list Order;
  fills : list Fill;
  pendingSettlements : list Settlement;
  lastBorrowFeeDate : IsoDate
}.

Record BrokerConfig := {
  executionDelayMs : Q;
  enforceMarketHours : bool;
  marketOpenHour : Z;
  marketOpenMinute : Z;
  marketCloseHour : Z;
  marketCloseMinute : Z;
  commissionPerTrade : Q;
  feeRateBps : Q;
  baseSlippageBps : Q;
  sizeImpactBps : Q;
  randomSlippageBps : Q;
  initialMarginLong : Q;
  initialMarginShort : Q;
  maintenanceMarginLong : Q;
  maintenanceMarginShort : Q;
  settlementDaysEquities : Q;
  shortBorrowDailyRate : Q;
  forceLiquidationEnabled : bool
}.

(** Assignments to the fields of an account. *)
Definition set_settledCash (v : Q) (a : Account) : Account :=
  {| id := id a; createdAt := createdAt a; settledCash := v;
     unsettledCash := unsettledCash a; reservedCash := reservedCash a;
     feesDue := feesDue a; positions := positions a; orders := orders a;
     fills := fills a; pendingSettlements := pendingSettlements a;
     lastBorrowFeeDate := lastBorrowFeeDate a |}.

Definition set_unsettledCash (v : Q) (a : Account) : Account :=
  {| id := id a; createdAt := createdAt a; settledCash := settledCash a;
     unsettledCash := v; reservedCash := reservedCash a;
     feesDue := feesDue a; positions := positions a; orders := orders a;
     fills := fills a; pendingSettlements := pendingSettlements a;
     lastBorrowFeeDate := lastBorrowFeeDate a |}.

Definition set_reservedCash (v : Q) (a : Account) : Account :=
  {| id := id a; createdAt := createdAt a; settledCash := settledCash a;
     unsettledCash := unsettledCash a; reservedCash := v;
     feesDue := feesDue a; positions := positions a; orders := orders a;
     fills := fills a; pendingSettlements := pendingSettlements a;
     lastBorrowFeeDate := lastBorrowFeeDate a |}.

Definition set_feesDue (v : Q) (a : Account) : Account :=
  {| id := id a; createdAt := createdAt a; settledCash := settledCash a;
     unsettledCash := unsettledCash a; reservedCash := reservedCash a;
     feesDue := v; positions := positions a; orders := orders a;
     fills := fills a; pendingSettlements := pendingSettlements a;
     lastBorrowFeeDate := lastBorrowFeeDate a |}.

Definition set_positions (v : list (string * Position)) (a : Account) : Account :=
  {| id := id a; createdAt := createdAt a; settledCash := settledCash a;
     unsettledCash := unsettledCash a; reservedCash := reservedCash a;
     feesDue := feesDue a; positions := v; orders := orders a;
     fills := fills a; pendingSettlements := pendingSettlements a;
     lastBorrowFeeDate := lastBorrowFeeDate a |}.

Definition set_orders (v : list Order) (a : Account) : Account :=
  {| id := id a; createdAt := createdAt a; settledCash := settledCash a;
     unsettledCash := unsettledCash a; reservedCash := reservedCash a;
     feesDue := feesDue a; positions := positions a; orders := v;
     fills := fills a; pendingSettlements := pendingSettlements a;
     lastBorrowFeeDate := lastBorrowFeeDate a |}.

Definition set_fills (v : list Fill) (a : Account) : Account :=
  {| id := id a; createdAt := createdAt a; settledCash := settledCash a;
     unsettledCash := unsettledCash a; reservedCash := reservedCash a;
     feesDue := feesDue a; positions := positions a; orders := orders a;
     fills := v; pendingSettlements := pendingSettlements a;
     lastBorrowFeeDate := lastBorrowFeeDate a |}.

Definition set_pendingSettlements (v : list Settlement) (a : Account) : Account :=
  {| id := id a; createdAt := createdAt a; settledCash := settledCash a;
     unsettledCash := unsettledCash a; reservedCash := reservedCash a;
     feesDue := feesDue a; positions := positions a; orders := orders a;
     fills := fills a; pendingSettlements := v;
     lastBorrowFeeDate := lastBorrowFeeDate a |}.

Definition set_lastBorrowFeeDate (v : IsoDate) (a : Account) : Account :=
  {| id := id a; createdAt := createdAt a; settledCash := settledCash a;
     unsettledCash := unsettledCash a; reservedCash := reservedCash a;
     feesDue := feesDue a; positions := positions a; orders := orders a;
     fills := fills a; pendingSettlements := pendingSettlements a;
     lastBorrowFeeDate := v |}.

(** ** The positions object *)

(** [positions[symbol]]. *)
Fixpoint pos_get (symbol : string) (ps : list (string * Position)) : option Position :=
  match ps with
  | [] => None
  | (k, p) :: rest => if String.eqb k symbol then Some p else pos_get symbol rest
  end.

(** [positions[symbol] = p]: an existing key keeps its place, a new key
    goes last. *)
Fixpoint pos_set (symbol : string) (p : Position) (ps : list (string * Position))
  : list (string * Position) :=
  match ps with
  | [] => [(symbol, p)]
  | (k, p0) :: rest =>
      if String.eqb k symbol then (k, p) :: rest else (k, p0) :: pos_set symbol p rest
  end.

(** [delete positions[symbol]]: no entry is left under the key. *)
Definition pos_delete (symbol : string) (ps : list (string * Position))
  : list (string * Position) :=
  List.filter (fun kv => negb (String.eqb (fst kv) symbol)) ps.

(** [Object.values(positions)]. *)
Definition pos_values (ps : list (string * Position)) : list Position := map snd ps.

(** ** Pure helpers of BrokerService.js *)

(** [sideIsBuy], line 85. *)
Definition sideIsBuy (side : string) : bool :=
  String.eqb side "BUY" || String.eqb side "BUY_TO_COVER".

(** [updateSignedPosition], lines 89-109. *)
Definition updateSignedPosition (existing : option Position) (deltaQty fillPrice : Q)
  : SignedPosition :=
  let currentQty := match existing with Some e => p_quantity e | None => 0 end in
  let currentAvg := match existing with Some e => p_avgPrice e | None => fillPrice end in
  let nextQty := currentQty + deltaQty in
  if num_eqb currentQty 0 || Z.eqb (sign currentQty) (sign deltaQty) then
    let newQty := currentQty + deltaQty in
    let weighted :=
      (Qabs currentQty * currentAvg + Qabs deltaQty * fillPrice) / Qabs newQty in
    {| quantity := roundMoney newQty; avgPrice := roundMoney weighted |}
  else if num_eqb nextQty 0 then
    {| quantity := 0; avgPrice := 0 |}
  else if Z.eqb (sign currentQty) (sign nextQty) then
    {| quantity := roundMoney nextQty; avgPrice := roundMoney currentAvg |}
  else
    {| quantity := roundMoney nextQty; avgPrice := roundMoney fillPrice |}.

(** [calcFees], line 67. *)
Definition calcFees (config : BrokerConfig) (notional : Q) : Q :=
  let rateFee := notional * (feeRateBps config / 10000) in
  roundMoney (commissionPerTrade config + rateFee).

(** [applyPriceImpact], line 79. *)
Definition applyPriceImpact (basePrice : Q) (isBuy : bool) (slippageBps : Q) : Q :=
  let direction := if isBuy then 1 else -1 in
  let impacted := basePrice * (1 + (direction * slippageBps) / 10000) in
  roundMoney impacted.

(** [calculateMarginRequirements], line 139. *)
Definition calculateMarginRequirements (config : BrokerConfig) (longValue shortValue : Q)
  : Q * Q :=
  (initialMarginLong config * longValue + initialMarginShort config * shortValue,
   maintenanceMarginLong config * longValue + maintenanceMarginShort config * shortValue).

(** ** The runtime

    What the program reads from its environment: the wall clock (the
    [k]-th evaluation of [new Date()] or [Date.now()] gives [rt_clock k]),
    the stream of the seeded generator of [utils/rng.js] (the [k]-th call
    of [rng()] gives [rt_random k]), and the two library functions with
    irrational values. *)
Record Runtime := {
  rt_clock : nat -> Time;
  rt_random : nat -> Q;
  rt_log10 : Q -> Q;
  rt_sqrt : Q -> Q
}.

Inductive Error :=
| UnknownSymbol (symbol : string)
| TypeError
| LiveDisabled (symbol : string)
| LivePlaceholder
| AccountNotFound (accountId : string).

(** ** The replay quote provider, ReplayMarketDataService.js *)

Record Quote := {
  q_symbol : string;
  q_bid : Q;
  q_ask : Q;
  q_mid : Q;
  q_timestamp : Time;
  q_spreadBps : Q;
  q_volatilityProxy : Q
}.

(** An entry of the [symbols] map: [{ spreadBps, series, index }]. *)
Record SymbolEntry := {
  e_spreadBps : option Q;
  e_series : list Q;
  e_index : nat
}.

(** An entry of the dataset: [{ series, spreadBps? }]. *)
Record DatasetEntry := {
  d_series : list Q;
  d_spreadBps : option Q
}.

Record ReplayMarketDataService := {
  defaultSpreadBps : Q;
  symbols : gmap string SymbolEntry
}.

(** The constructor, lines 17-30: every cursor starts at 0. *)
Definition Replay_new (dataset : list (string * DatasetEntry)) (defaultSpread : Q)
  : ReplayMarketDataService :=
  {| defaultSpreadBps := defaultSpread;
     symbols :=
       fold_left
         (fun m '(symbol, config) =>
            <[symbol :=
                {| e_spreadBps :=
                     Some (match d_spreadBps config with
                           | Some s => s
                           | None => defaultSpread
                           end);
                   e_series := d_series config;
                   e_index := 0 |}]> m)
         dataset ∅ |}.

(** [computeVolatilityProxy], lines 3-15. *)
Definition computeVolatilityProxy (rt : Runtime) (series : list Q) (index : nat) : Q :=
  let start := Nat.max 0 (index - 4) in
  let window := map (fun i => nth i series 0) (seq start (index + 1 - start)) in
  if (length window <? 2)%nat then 1 # 1000
  else
    let len := inject_Z (Z.of_nat (length window)) in
    let mean := fold_left (fun sum value => sum + value) window 0 / len in
    let variance :=
      fold_left (fun sum value => sum + (value - mean) * (value - mean)) window 0 / len in
    num_max (rt_sqrt rt variance / mean) (1 # 1000).

(** [#quote], lines 44-69.  [now] is the instant [new Date()] gives when
    the quote object is built; nothing is read from the clock when the
    method throws. *)
Definition Replay_quote (rt : Runtime) (svc : ReplayMarketDataService)
    (symbol : string) (advance : bool) (now : Time)
  : (Error + Quote) * ReplayMarketDataService :=
  match symbols svc !! symbol with
  | None => (inl (UnknownSymbol symbol), svc)
  | Some entry =>
      match nth_error (e_series entry) (e_index entry) with
      | None => (inl TypeError, svc)
      | Some mid =>
          let spreadBps :=
            match e_spreadBps entry with
            | Some s => s
            | None => defaultSpreadBps svc
            end in
          let halfSpread := (mid * spreadBps) / 10000 / 2 in
          let bid := roundMoney (mid - halfSpread) in
          let ask := roundMoney (mid + halfSpread) in
          let quote :=
            {| q_symbol := symbol;
               q_bid := bid;
               q_ask := ask;
               q_mid := roundMoney mid;
               q_timestamp := now;
               q_spreadBps := spreadBps;
               q_volatilityProxy :=
                 computeVolatilityProxy rt (e_series entry) (e_index entry) |} in
          if advance then
            (inr quote,
             {| defaultSpreadBps := defaultSpreadBps svc;
                symbols :=
                  <[symbol :=
                      {| e_spreadBps := e_spreadBps entry;
                         e_series := e_series entry;
                         e_index := (e_index entry + 1) mod length (e_series entry) |}]>
                    (symbols svc) |})
          else (inr quote, svc)
      end
  end.

(** [getQuote] and [peekQuote], lines 36-42. *)
Definition Replay_getQuote rt svc symbol now := Replay_quote rt svc symbol true now.
Definition Replay_peekQuote rt svc symbol now := Replay_quote rt svc symbol false now.

(** Every cursor of a non-empty series points into it. *)
Definition cursors_ok (svc : ReplayMarketDataService) : Prop :=
  forall symbol entry,
    symbols svc !! symbol = Some entry ->
    e_series entry <> [] ->
    (e_index entry < length (e_series entry))%nat.

(** The quote provider of a broker: the replay service, or the live
    placeholder of LiveMarketDataService.js with its [enabled] flag. *)
Inductive MarketDataService :=
| Replay (svc : ReplayMarketDataService)
| Live (enabled : bool).

(** ** The broker and its effects *)

(** The [BrokerService] object: [config], [marketDataService], [accounts],
    and how often the generator and the clock have been read. *)
Record Broker := {
  config : BrokerConfig;
  marketDataService : MarketDataService;
  accounts : gmap string Account;
  rngDraws : nat;
  clockReads : nat
}.

Definition set_marketDataService (v : MarketDataService) (b : Broker) : Broker :=
  {| config := config b; marketDataService := v; accounts := accounts b;
     rngDraws := rngDraws b; clockReads := clockReads b |}.

Definition set_accounts (v : gmap string Account) (b : Broker) : Broker :=
  {| config := config b; marketDataService := marketDataService b; accounts := v;
     rngDraws := rngDraws b; clockReads := clockReads b |}.

Definition set_rngDraws (v : nat) (b : Broker) : Broker :=
  {| config := config b; marketDataService := marketDataService b;
     accounts := accounts b; rngDraws := v; clockReads := clockReads b |}.

Definition set_clockReads (v : nat) (b : Broker) : Broker :=
  {| config := config b; marketDataService := marketDataService b;
     accounts := accounts b; rngDraws := rngDraws b; clockReads := v |}.

(** The outcome of running a method on a broker. *)
Inductive Outcome (A : Type) :=
| Ret (a : A) (b : Broker)
| Throw (e : Error) (b : Broker)
| Diverge.
Arguments Ret {A} a b.
Arguments Throw {A} e b.
Arguments Diverge {A}.

Definition M (A : Type) := Broker -> Outcome A.

Definition ret {A} (a : A) : M A := fun b => Ret a b.

Definition bind {A B} (m : M A) (k : A -> M B) : M B :=
  fun b =>
    match m b with
    | Ret a b' => k a b'
    | Throw e b' => Throw e b'
    | Diverge => Diverge
    end.

Definition throw {A} (e : Error) : M A := fun b => Throw e b.

(** [try { m } catch { .. }]: the exception becomes a value. *)
Definition attempt {A} (m : M A) : M (Error + A) :=
  fun b =>
    match m b with
    | Ret a b' => Ret (inr a) b'
    | Throw e b' => Ret (inl e) b'
    | Diverge => Diverge
    end.

#[global] Instance M_ret : MRet M := @ret.
#[global] Instance M_bind : MBind M := fun A B k m => bind m k.

(** [new Date()] and [Date.now()]. *)
Definition now (rt : Runtime) : M Time :=
  fun b => Ret (rt_clock rt (clockReads b)) (set_clockReads (S (clockReads b)) b).

(** [this.rng()]. *)
Definition rng (rt : Runtime) : M Q :=
  fun b => Ret (rt_random rt (rngDraws b)) (set_rngDraws (S (rngDraws b)) b).

Definition getConfig : M BrokerConfig := fun b => Ret (config b) b.

(** Reading and writing the account object behind a reference. *)
Definition readAccount (ref : string) : M Account :=
  fun b =>
    match accounts b !! ref with
    | Some account => Ret account b
    | None => Throw (AccountNotFound ref) b
    end.

Definition writeAccount (ref : string) (f : Account -> Account) : M unit :=
  fun b =>
    match accounts b !! ref with
    | Some account => Ret tt (set_accounts (<[ref := f account]> (accounts b)) b)
    | None => Throw (AccountNotFound ref) b
    end.

(** [#requireAccount], lines 581-587: the reference is the key. *)
Definition requireAccount (accountId : string) : M string :=
  fun b =>
    match accounts b !! accountId with
    | Some _ => Ret accountId b
    | None => Throw (AccountNotFound accountId) b
    end.

(** [marketDataService.getQuote] and [.peekQuote] on either provider. *)
Definition quoteOf (rt : Runtime) (symbol : string) (advance : bool) : M Quote :=
  fun b =>
    match marketDataService b with
    | Replay svc =>
        match Replay_quote rt svc symbol advance (rt_clock rt (clockReads b)) with
        | (inr quote, svc') =>
            Ret quote
              (set_clockReads (S (clockReads b)) (set_marketDataService (Replay svc') b))
        | (inl e, _) => Throw e b
        end
    | Live enabled =>
        if enabled then Throw LivePlaceholder b else Throw (LiveDisabled symbol) b
    end.

Definition getQuote (rt : Runtime) (symbol : string) : M Quote := quoteOf rt symbol true.
Definition peekQuote (rt : Runtime) (symbol : string) : M Quote := quoteOf rt symbol false.

(** ** Dates

    The server's local time zone is taken to be UTC, so that a local
    calendar day is 86 400 000 ms and [setDate(getDate() + 1)] adds one. *)
Definition msPerDay : Z := 86400000.

(** [toIsoDate], line 38. *)
Definition toIsoDate (value : Time) : IsoDate := (value / msPerDay)%Z.

(** [getDay()]: 0 is Sunday; 1 January 1970 was a Thursday. *)
Definition getDay (t : Time) : Z := ((t / msPerDay + 4) mod 7)%Z.

Definition getHours (t : Time) : Z := ((t mod msPerDay) / 3600000)%Z.
Definition getMinutes (t : Time) : Z := ((t mod 3600000) / 60000)%Z.

(** The loop of [nextBusinessDay], lines 28-34. *)
Fixpoint nextBusinessDay_loop (fuel : nat) (next : Time) (remaining : Q) : Time :=
  match fuel with
  | O => next
  | S fuel' =>
      if num_ltb 0 remaining then
        let next' := (next + msPerDay)%Z in
        let day := getDay next' in
        if negb (day =? 0)%Z && negb (day =? 6)%Z
        then nextBusinessDay_loop fuel' next' (remaining - 1)
        else nextBusinessDay_loop fuel' next' remaining
      else next
  end.

(** [nextBusinessDay], line 25.  Seven consecutive days hold five business
    days, which bounds the number of rounds of the loop. *)
Definition nextBusinessDay (date : Time) (addDays : Q) : Time :=
  nextBusinessDay_loop (Z.to_nat (7 * Qceiling addDays + 7)) date addDays.

(** [isMarketOpen], line 42. *)
Definition isMarketOpen (config : BrokerConfig) (now : Time) : bool :=
  if negb (enforceMarketHours config) then true
  else
    let day := getDay now in
    if (day =? 0)%Z || (day =? 6)%Z then false
    else
      let openMinutes := (marketOpenHour config * 60 + marketOpenMinute config)%Z in
      let closeMinutes := (marketCloseHour config * 60 + marketCloseMinute config)%Z in
      let currentMinutes := (getHours now * 60 + getMinutes now)%Z in
      (openMinutes <=? currentMinutes)%Z && (currentMinutes <=? closeMinutes)%Z.

(** ** Order intake *)

(** [toUpperCase] on the ASCII letters. *)
Definition upper_ascii (c : ascii) : ascii :=
  let n := nat_of_ascii c in
  if (97 <=? n)%nat && (n <=? 122)%nat then ascii_of_nat (n - 32) else c.

Fixpoint toUpperCase (s : string) : string :=
  match s with
  | EmptyString => EmptyString
  | String c rest => String (upper_ascii c) (toUpperCase rest)
  end.

(** [normalizeOrderInput], line 56. *)
Definition normalizeOrderInput (input : RawOrder) : OrderInput :=
  {| n_type := toUpperCase (r_type input);
     n_side := toUpperCase (r_side input);
     n_tif :=
       toUpperCase
         (match r_tif input with
          | Some t => if String.eqb t "" then "DAY" else t
          | None => "DAY"
          end);
     n_quantity := r_quantity input;
     n_limitPrice := r_limitPrice input;
     n_stopPrice := r_stopPrice input;
     n_symbol := toUpperCase (r_symbol input) |}.

Definition VALID_TYPES : list string := ["MARKET"; "LIMIT"; "STOP"; "STOP_LIMIT"].
Definition VALID_SIDES : list string := ["BUY"; "SELL"; "SELL_SHORT"; "BUY_TO_COVER"].
Definition VALID_TIFS : list string := ["DAY"; "GTC"; "IOC"].

(** [set.has(x)]. *)
Definition has (set : list string) (x : string) : bool := existsb (String.eqb x) set.

(** [x > 0] on a quantity or price that may be absent or not a number. *)
Definition positive (x : option Q) : bool :=
  match x with
  | Some v => num_ltb 0 v
  | None => false
  end.

(** [validateOrderByType], line 111: the reason, or [None] for [null]. *)
Definition validateOrderByType (order : OrderInput) : option string :=
  if negb (has VALID_TYPES (n_type order)) then Some "unsupported order type"
  else if negb (has VALID_SIDES (n_side order)) then Some "unsupported side"
  else if negb (has VALID_TIFS (n_tif order)) then Some "unsupported tif"
  else if negb (positive (n_quantity order)) then Some "invalid quantity"
  else if String.eqb (n_type order) "LIMIT" && negb (positive (n_limitPrice order))
  then Some "invalid limit price"
  else if String.eqb (n_type order) "STOP" && negb (positive (n_stopPrice order))
  then Some "invalid stop price"
  else if String.eqb (n_type order) "STOP_LIMIT"
          && (negb (positive (n_stopPrice order)) || negb (positive (n_limitPrice order)))
  then Some "invalid stop/limit prices"
  else if String.eqb (n_type order) "MARKET" && String.eqb (n_tif order) "GTC"
  then Some "unsupported order type/tif combination"
  else None.

(** [order.quantity] as a number; it is one once the order is validated. *)
Definition orderQuantity (order : OrderInput) : Q :=
  match n_quantity order with
  | Some q => q
  | None => 0
  end.

(** A price in a comparison: [null] counts as 0. *)
Definition priceOrZero (x : option Q) : Q :=
  match x with
  | Some v => v
  | None => 0
  end.

(** The slippage of [calcSlippageBps], lines 74-76, for the draw [random]. *)
Definition slippageBpsOf (rt : Runtime) (config : BrokerConfig)
    (quantity volatilityProxy random : Q) : Q :=
  let sizeTerm := rt_log10 rt (1 + quantity) * sizeImpactBps config in
  let volTerm := volatilityProxy * 10000 * (5 # 100) in
  baseSlippageBps config + sizeTerm + volTerm + random * randomSlippageBps config.

(** [calcSlippageBps], line 72. *)
Definition calcSlippageBps (rt : Runtime) (config : BrokerConfig)
    (quantity volatilityProxy : Q) : M Q :=
  random ← rng rt;
  mret (slippageBpsOf rt config quantity volatilityProxy random).

(** [#evaluateTrigger], line 373. *)
Definition evaluateTrigger (order : OrderInput) (quote : Quote) : TriggerState :=
  if String.eqb (n_type order) "MARKET" || String.eqb (n_type order) "LIMIT"
  then NOT_REQUIRED
  else
    let isBuy := sideIsBuy (n_side order) in
    let triggered :=
      if isBuy then num_leb (priceOrZero (n_stopPrice order)) (q_mid quote)
      else num_leb (q_mid quote) (priceOrZero (n_stopPrice order)) in
    if negb triggered then PENDING_TRIGGER
    else if String.eqb (n_type order) "STOP" then TRIGGERED_TO_MARKET
    else TRIGGERED_TO_LIMIT.

(** [#evaluateFillCondition], line 385: the [fillable] flag. *)
Definition evaluateFillCondition (effectiveType : string) (order : OrderInput)
    (quote : Quote) : bool :=
  if String.eqb effectiveType "MARKET" then true
  else
    let isBuy := sideIsBuy (n_side order) in
    if isBuy then num_leb (q_ask quote) (priceOrZero (n_limitPrice order))
    else num_leb (priceOrZero (n_limitPrice order)) (q_bid quote).

(** ** Position and cash application *)

(** [#applyTrade], lines 349-371; [now] is its [new Date()]. *)
Definition applyTrade (config : BrokerConfig) (account : Account) (order : OrderInput)
    (fillPrice notional fees : Q) (now : Time) : Account :=
  let isBuy := sideIsBuy (n_side order) in
  let deltaQty := if isBuy then orderQuantity order else - orderQuantity order in
  let current :=
    match pos_get (n_symbol order) (positions account) with
    | Some p => p
    | None => {| p_symbol := n_symbol order; p_quantity := 0; p_avgPrice := 0 |}
    end in
  let updated := updateSignedPosition (Some current) deltaQty fillPrice in
  let account1 :=
    if num_eqb (quantity updated) 0
    then set_positions (pos_delete (n_symbol order) (positions account)) account
    else
      set_positions
        (pos_set (n_symbol order)
           {| p_symbol := n_symbol order;
              p_quantity := quantity updated;
              p_avgPrice := avgPrice updated |}
           (positions account))
        account in
  let settleAt := nextBusinessDay now (settlementDaysEquities config) in
  let account2 :=
    if isBuy then
      set_pendingSettlements
        (pendingSettlements account1 ++
           [{| s_amount := notional; s_direction := DEBIT;
               s_settleAt := settleAt; s_symbol := n_symbol order |}])
        (set_reservedCash (roundMoney (reservedCash account1 + notional)) account1)
    else
      set_pendingSettlements
        (pendingSettlements account1 ++
           [{| s_amount := notional; s_direction := CREDIT;
               s_settleAt := settleAt; s_symbol := n_symbol order |}])
        (set_unsettledCash (roundMoney (unsettledCash account1 + notional)) account1) in
  set_feesDue (roundMoney (feesDue account2 + fees)) account2.

(** ** Metrics *)

Record Metrics := {
  m_longValue : Q;
  m_shortValue : Q;
  m_marketValue : Q;
  m_equity : Q;
  m_initialRequired : Q;
  m_maintenanceRequired : Q;
  m_marginExcess : Q;
  m_availableCash : Q
}.

(** [#availableCash], line 402. *)
Definition availableCash (account : Account) : Q :=
  roundMoney (settledCash account - reservedCash account - feesDue account).

(** The loop of [#computeMetrics], lines 411-420, over
    [Object.values(account.positions)]; the accumulator is
    [(longValue, shortValue, marketValue)]. *)
Fixpoint computeMetrics_loop (rt : Runtime) (values : list Position) (acc : Q * Q * Q)
  : M (Q * Q * Q) :=
  match values with
  | [] => mret acc
  | position :: rest =>
      quote ← peekQuote rt (p_symbol position);
      let '(longValue, shortValue, marketValue) := acc in
      let posValue := p_quantity position * q_mid quote in
      let marketValue' := marketValue + posValue in
      if num_ltb 0 (p_quantity position) then
        computeMetrics_loop rt rest
          (longValue + p_quantity position * q_mid quote, shortValue, marketValue')
      else if num_ltb (p_quantity position) 0 then
        computeMetrics_loop rt rest
          (longValue, shortValue + Qabs (p_quantity position) * q_mid quote, marketValue')
      else computeMetrics_loop rt rest (longValue, shortValue, marketValue')
  end.

(** [#computeMetrics], line 406. *)
Definition computeMetrics (rt : Runtime) (account : Account) : M Metrics :=
  '(longValue, shortValue, marketValue) ←
     computeMetrics_loop rt (pos_values (positions account)) (0, 0, 0);
  config ← getConfig;
  let '(initialRequired, maintenanceRequired) :=
    calculateMarginRequirements config longValue shortValue in
  let cash := settledCash account + unsettledCash account in
  let equity := roundMoney (cash + marketValue - feesDue account) in
  mret {| m_longValue := roundMoney longValue;
          m_shortValue := roundMoney shortValue;
          m_marketValue := roundMoney marketValue;
          m_equity := equity;
          m_initialRequired := roundMoney initialRequired;
          m_maintenanceRequired := roundMoney maintenanceRequired;
          m_marginExcess := roundMoney (equity - maintenanceRequired);
          m_availableCash := availableCash account |}.

(** [#hasMaintenanceDeficiency], line 437. *)
Definition hasMaintenanceDeficiency (metrics : Metrics) : bool :=
  num_ltb (m_equity metrics) (m_maintenanceRequired metrics).

(** The mid a peek gives for a symbol, when it gives a quote. *)
Definition midOf (rt : Runtime) (md : MarketDataService) (symbol : string) : option Q :=
  match md with
  | Replay svc =>
      match Replay_quote rt svc symbol false 0%Z with
      | (inr quote, _) => Some (q_mid quote)
      | (inl _, _) => None
      end
  | Live _ => None
  end.

Definition midOr0 (rt : Runtime) (md : MarketDataService) (symbol : string) : Q :=
  match midOf rt md symbol with
  | Some mid => mid
  | None => 0
  end.

(** The sums of section 4.5 of the specification over the positions:
    the signed market value, the value of the long positions and the
    value of the short ones. *)
Definition marketValueOf (rt : Runtime) (md : MarketDataService) (values : list Position)
  : Q :=
  fold_right (fun p sum => p_quantity p * midOr0 rt md (p_symbol p) + sum) 0 values.

Definition longValueOf (rt : Runtime) (md : MarketDataService) (values : list Position)
  : Q :=
  fold_right
    (fun p sum =>
       (if num_ltb 0 (p_quantity p) then p_quantity p * midOr0 rt md (p_symbol p) else 0)
       + sum)
    0 values.

Definition shortValueOf (rt : Runtime) (md : MarketDataService) (values : list Position)
  : Q :=
  fold_right
    (fun p sum =>
       (if num_ltb (p_quantity p) 0
        then Qabs (p_quantity p) * midOr0 rt md (p_symbol p) else 0)
       + sum)
    0 values.

(** Two brokers that differ at most in how often the clock was read. *)
Definition quiet (b b' : Broker) : Prop :=
  config b' = config b
  /\ marketDataService b' = marketDataService b
  /\ accounts b' = accounts b
  /\ rngDraws b' = rngDraws b.

(** Two brokers with the same configuration, provider and accounts. *)
Definition unchanged (b b' : Broker) : Prop :=
  config b' = config b
  /\ marketDataService b' = marketDataService b
  /\ accounts b' = accounts b.

(** The provider after a [getQuote] that returns. *)
Definition advanceCursor (rt : Runtime) (symbol : string) (md : MarketDataService)
  : MarketDataService :=
  match md with
  | Replay svc => Replay (snd (Replay_quote rt svc symbol true 0%Z))
  | Live enabled => Live enabled
  end.

(** Two accounts with the same balances, positions, fills and pending
    settlements. *)
Definition same_holdings (a a' : Account) : Prop :=
  settledCash a' = settledCash a
  /\ unsettledCash a' = unsettledCash a
  /\ reservedCash a' = reservedCash a
  /\ feesDue a' = feesDue a
  /\ positions a' = positions a
  /\ fills a' = fills a
  /\ pendingSettlements a' = pendingSettlements a.

(** An amount of at most six decimals. *)
Definition micro (x : Q) : Prop := exists n : Z, x == n # 1000000.

(** ** Lifecycle maintenance *)

(** The first loop of [#settleDueEntries], lines 458-464: the entries
    pushed on [due] and on [pending]. *)
Definition splitDue (now : Time) (entries : list Settlement)
  : list Settlement * list Settlement :=
  fold_left
    (fun '(due, pending) entry =>
       if (s_settleAt entry <=? now)%Z
       then (due ++ [entry], pending)
       else (due, pending ++ [entry]))
    entries ([], []).

(** The body of its second loop, lines 468-474. *)
Definition settleEntry (account : Account) (entry : Settlement) : Account :=
  match s_direction entry with
  | DEBIT =>
      let account1 :=
        set_settledCash (roundMoney (settledCash account - s_amount entry)) account in
      set_reservedCash
        (roundMoney (num_max 0 (reservedCash account1 - s_amount entry))) account1
  | CREDIT =>
      let account1 :=
        set_settledCash (roundMoney (settledCash account + s_amount entry)) account in
      set_unsettledCash (roundMoney (unsettledCash account1 - s_amount entry)) account1
  end.

(** [#settleDueEntries], lines 453-481; [now] is its [new Date()]. *)
Definition settleDueEntries (now : Time) (account : Account) : Account :=
  let '(due, pending) := splitDue now (pendingSettlements account) in
  let account1 := set_pendingSettlements pending account in
  let account2 := fold_left settleEntry due account1 in
  if num_ltb 0 (feesDue account2) then
    set_feesDue 0
      (set_settledCash (roundMoney (settledCash account2 - feesDue account2)) account2)
  else account2.

(** The day-counting loop of [#applyBorrowFeesIfNeeded], lines 491-494,
    from one midnight to the next. *)
Fixpoint countDays (fuel : nat) (d to : IsoDate) (days : Z) : Z :=
  match fuel with
  | O => days
  | S fuel' => if (d <? to)%Z then countDays fuel' (d + 1)%Z to (days + 1)%Z else days
  end.

(** Its loop over the short positions, lines 501-507. *)
Fixpoint shortValue_loop (rt : Runtime) (values : list Position) (shortValue : Q) : M Q :=
  match values with
  | [] => mret shortValue
  | position :: rest =>
      if num_leb 0 (p_quantity position) then shortValue_loop rt rest shortValue
      else
        quote ← peekQuote rt (p_symbol position);
        shortValue_loop rt rest (shortValue + Qabs (p_quantity position) * q_mid quote)
  end.

(** [#applyBorrowFeesIfNeeded], line 483. *)
Definition applyBorrowFeesIfNeeded (rt : Runtime) (ref : string) : M unit :=
  t ← now rt;
  let today := toIsoDate t in
  account ← readAccount ref;
  if (lastBorrowFeeDate account =? today)%Z then mret tt
  else
    let from := lastBorrowFeeDate account in
    let days := countDays (Z.to_nat (today - from)) from today 0 in
    if (days <=? 0)%Z then writeAccount ref (set_lastBorrowFeeDate today)
    else
      shortValue ← shortValue_loop rt (pos_values (positions account)) 0;
      config ← getConfig;
      let borrowFee :=
        roundMoney (shortValue * shortBorrowDailyRate config * inject_Z days) in
      (if num_ltb 0 borrowFee
       then writeAccount ref (fun a => set_feesDue (roundMoney (feesDue a + borrowFee)) a)
       else mret tt);;
      writeAccount ref (set_lastBorrowFeeDate today).

(** The loop of [#forceLiquidateLargestPosition], lines 522-525. *)
Fixpoint withValue_loop (rt : Runtime) (values : list Position) : M (list (Position * Q)) :=
  match values with
  | [] => mret []
  | position :: rest =>
      quote ← peekQuote rt (p_symbol position);
      others ← withValue_loop rt rest;
      mret ((position, Qabs (p_quantity position * q_mid quote)) :: others)
  end.

(** [withValue.sort((a, b) => b.absValue - a.absValue)]: the sort is
    stable, so an element stays ahead of the later ones of the same value. *)
Fixpoint insertByValue (x : Position * Q) (sorted : list (Position * Q))
  : list (Position * Q) :=
  match sorted with
  | [] => [x]
  | y :: rest =>
      if num_leb (snd y) (snd x) then x :: y :: rest else y :: insertByValue x rest
  end.

Definition sortByValue (l : list (Position * Q)) : list (Position * Q) :=
  fold_right insertByValue [] l.

(** The order the forced liquidation places, lines 530-537. *)
Definition forcedOrder (target : Position) : RawOrder :=
  {| r_symbol := p_symbol target;
     r_type := "MARKET";
     r_side := if num_ltb 0 (p_quantity target) then "SELL" else "BUY_TO_COVER";
     r_tif := Some "IOC";
     r_quantity := Some (Qabs (p_quantity target));
     r_limitPrice := None;
     r_stopPrice := None;
     r_bypassMarginCheck := true |}.

(** The marker order of lines 540-551. *)
Definition markerOrder (account : Account) (target : Position) (ms createdAt : Time)
  : Order :=
  {| o_id := MarginCallId ms;
     o_accountId := id account;
     o_symbol := p_symbol target;
     o_type := "MARKET";
     o_side := if num_ltb 0 (p_quantity target) then "SELL" else "BUY_TO_COVER";
     o_tif := "IOC";
     o_quantity := Some (Qabs (p_quantity target));
     o_limitPrice := None;
     o_stopPrice := None;
     o_status := REJECTED;
     o_reason := Some "margin_call_forced_liquidation_failed";
     o_createdAt := createdAt;
     o_filledAt := None;
     o_fillPrice := None;
     o_fees := 0;
     o_triggerState := None;
     o_effectiveType := None |}.

(** [account.orders.unshift(order)]. *)
Definition unshiftOrder (order : Order) (account : Account) : Account :=
  set_orders (order :: orders account) account.

(** [#forceLiquidateLargestPosition], line 515; [placeOrder] is
    [this.placeOrder]. *)
Definition forceLiquidateLargestPosition (rt : Runtime)
    (placeOrder : string -> RawOrder -> M Order) (ref : string) : M unit :=
  account ← readAccount ref;
  let values := pos_values (positions account) in
  if (length values =? 0)%nat then mret tt
  else
    withValue ← withValue_loop rt values;
    match sortByValue withValue with
    | [] => throw TypeError
    | (target, _) :: _ =>
        forced ← placeOrder (id account) (forcedOrder target);
        match o_status forced with
        | REJECTED =>
            ms ← now rt;
            createdAt ← now rt;
            writeAccount ref (unshiftOrder (markerOrder account target ms createdAt))
        | _ => mret tt
        end
    end.

(** [#refreshAccount], line 441. *)
Definition refreshAccount (rt : Runtime)
    (placeOrder : string -> RawOrder -> M Order) (ref : string) : M unit :=
  t ← now rt;
  writeAccount ref (settleDueEntries t);;
  applyBorrowFeesIfNeeded rt ref;;
  config ← getConfig;
  if forceLiquidationEnabled config then
    account ← readAccount ref;
    metrics ← computeMetrics rt account;
    if hasMaintenanceDeficiency metrics
    then forceLiquidateLargestPosition rt placeOrder ref
    else mret tt
  else mret tt.

(** An account with the identifier [ref], the positions [ps], the
    unsettled cash [unsettled], no pending settlement, and rounded
    [settledCash] and [feesDue] with [settledCash - feesDue] at most
    [net]. *)
Definition holding_account (ref : string) (ps : list (string * Position))
    (unsettled net : Q) (account : Account) : Prop :=
  id account = ref
  /\ pendingSettlements account = []
  /\ positions account = ps
  /\ unsettledCash account = unsettled
  /\ micro (settledCash account)
  /\ micro (feesDue account)
  /\ settledCash account - feesDue account <= net.

(** The states of a broker with the configuration [config0] and the
    provider [md0], which quotes every position of [ps], in which the
    account behind [ref] is such an account. *)
Definition holding_state (rt : Runtime) (ref : string) (config0 : BrokerConfig)
    (md0 : MarketDataService) (ps : list (string * Position)) (unsettled net : Q)
    (b : Broker) : Prop :=
  config b = config0
  /\ marketDataService b = md0
  /\ (forall p, In p (pos_values ps) -> is_Some (midOf rt md0 (p_symbol p)))
  /\ exists account,
       accounts b !! ref = Some account
       /\ holding_account ref ps unsettled net account.

(** ** The execution engine *)

(** [baseOrder], lines 236-252. *)
Definition baseOrderOf (account : Account) (order : OrderInput) (ms : Time) (n : Z)
    (createdAt : Time) : Order :=
  {| o_id := OrdId ms n;
     o_accountId := id account;
     o_symbol := n_symbol order;
     o_type := n_type order;
     o_side := n_side order;
     o_tif := n_tif order;
     o_quantity := n_quantity order;
     o_limitPrice := n_limitPrice order;
     o_stopPrice := n_stopPrice order;
     o_status := OPEN;
     o_reason := None;
     o_createdAt := createdAt;
     o_filledAt := None;
     o_fillPrice := None;
     o_fees := 0;
     o_triggerState := None;
     o_effectiveType := None |}.

(** [{ ...baseOrder, status: REJECTED, reason }]. *)
Definition rejected (baseOrder : Order) (reason : string) : Order :=
  {| o_id := o_id baseOrder;
     o_accountId := o_accountId baseOrder;
     o_symbol := o_symbol baseOrder;
     o_type := o_type baseOrder;
     o_side := o_side baseOrder;
     o_tif := o_tif baseOrder;
     o_quantity := o_quantity baseOrder;
     o_limitPrice := o_limitPrice baseOrder;
     o_stopPrice := o_stopPrice baseOrder;
     o_status := REJECTED;
     o_reason := Some reason;
     o_createdAt := o_createdAt baseOrder;
     o_filledAt := o_filledAt baseOrder;
     o_fillPrice := o_fillPrice baseOrder;
     o_fees := o_fees baseOrder;
     o_triggerState := o_triggerState baseOrder;
     o_effectiveType := o_effectiveType baseOrder |}.

(** [filledOrder], lines 308-316. *)
Definition filled (baseOrder : Order) (filledAt : Time) (fillPrice fees : Q)
    (triggerState : TriggerState) (effectiveType : string) : Order :=
  {| o_id := o_id baseOrder;
     o_accountId := o_accountId baseOrder;
     o_symbol := o_symbol baseOrder;
     o_type := o_type baseOrder;
     o_side := o_side baseOrder;
     o_tif := o_tif baseOrder;
     o_quantity := o_quantity baseOrder;
     o_limitPrice := o_limitPrice baseOrder;
     o_stopPrice := o_stopPrice baseOrder;
     o_status := FILLED;
     o_reason := o_reason baseOrder;
     o_createdAt := o_createdAt baseOrder;
     o_filledAt := Some filledAt;
     o_fillPrice := Some fillPrice;
     o_fees := fees;
     o_triggerState := Some triggerState;
     o_effectiveType := Some effectiveType |}.

(** [#rejectOrder], line 396. *)
Definition rejectOrder (ref : string) (baseOrder : Order) (reason : string) : M Order :=
  let order := rejected baseOrder reason in
  writeAccount ref (unshiftOrder order);;
  mret order.

(** [account.orders.unshift(baseOrder); return baseOrder]. *)
Definition parkOrder (ref : string) (baseOrder : Order) : M Order :=
  writeAccount ref (unshiftOrder baseOrder);;
  mret baseOrder.

(** The result of [#simulatePostTrade]: [{ ok, reason }]. *)
Record Simulation := {
  sim_ok : bool;
  sim_reason : option string
}.

Definition insufficient : string := "insufficient available buying power / margin".

(** [#simulatePostTrade], line 335; the draft is the clone of the account
    with the trade applied. *)
Definition simulatePostTrade (rt : Runtime) (ref : string) (order : OrderInput)
    (fillPrice notional fees : Q) : M Simulation :=
  account ← readAccount ref;
  config ← getConfig;
  t ← now rt;
  let draft := applyTrade config account order fillPrice notional fees t in
  metrics ← computeMetrics rt draft;
  if num_ltb (availableCash draft) 0
  then mret {| sim_ok := false; sim_reason := Some insufficient |}
  else if num_ltb (m_equity metrics) (m_initialRequired metrics)
  then mret {| sim_ok := false; sim_reason := Some insufficient |}
  else mret {| sim_ok := true; sim_reason := None |}.

(** [this.#applyTrade(account, ..)] on the account behind [ref]. *)
Definition applyTradeTo (rt : Runtime) (ref : string) (order : OrderInput)
    (fillPrice notional fees : Q) : M unit :=
  config ← getConfig;
  t ← now rt;
  writeAccount ref (fun account => applyTrade config account order fillPrice notional fees t).

(** What [placeOrder] has established when it reaches line 283. *)
Record Intake := {
  i_ref : string;
  i_order : OrderInput;
  i_bypassMarginCheck : bool;
  i_baseOrder : Order;
  i_triggerState : TriggerState
}.

(** What it has established when it reaches line 292. *)
Record Matched := {
  x_executionQuote : Quote;
  x_effectiveType : string
}.

Definition returned {A} (m : M Order) : M (Order + A) := order ← m; mret (inl order).

(** [placeOrder], lines 231-281: refresh, validation, first quote, margin
    guard and trigger.  The result is the order returned early, or the
    state in which the method goes on. *)
Definition placeOrder_intake (rt : Runtime) (placeOrder : string -> RawOrder -> M Order)
    (accountId : string) (rawOrder : RawOrder) : M (Order + Intake) :=
  ref ← requireAccount accountId;
  refreshAccount rt placeOrder ref;;
  let order := normalizeOrderInput rawOrder in
  let bypassMarginCheck := r_bypassMarginCheck rawOrder in
  account ← readAccount ref;
  ms ← now rt;
  r ← rng rt;
  createdAt ← now rt;
  let baseOrder := baseOrderOf account order ms (Qfloor (r * 10000)) createdAt in
  match validateOrderByType order with
  | Some validationError => returned (rejectOrder ref baseOrder validationError)
  | None =>
      config ← getConfig;
      t ← now rt;
      if negb (isMarketOpen config t) then returned (rejectOrder ref baseOrder "market closed")
      else
        quoted ← attempt (getQuote rt (n_symbol order));
        match quoted with
        | inl _ => returned (rejectOrder ref baseOrder "unknown symbol")
        | inr quote =>
            deficient ←
              ((if bypassMarginCheck then mret false
                else
                  account ← readAccount ref;
                  metrics ← computeMetrics rt account;
                  mret (hasMaintenanceDeficiency metrics)) : M bool);
            if (deficient : bool)
            then returned
                   (rejectOrder ref baseOrder "margin deficiency: account below maintenance")
            else
              let triggerState := evaluateTrigger order quote in
              match triggerState with
              | PENDING_TRIGGER => returned (parkOrder ref baseOrder)
              | PENDING_LIMIT => returned (parkOrder ref baseOrder)
              | _ =>
                  mret (inr {| i_ref := ref;
                               i_order := order;
                               i_bypassMarginCheck := bypassMarginCheck;
                               i_baseOrder := baseOrder;
                               i_triggerState := triggerState |})
              end
        end
  end.

(** [effectiveType], line 285. *)
Definition effectiveTypeOf (triggerState : TriggerState) (type : string) : string :=
  match triggerState with
  | TRIGGERED_TO_MARKET => "MARKET"
  | TRIGGERED_TO_LIMIT => "LIMIT"
  | _ => type
  end.

(** [placeOrder], lines 283-290: the execution quote taken after the
    delay [sleep(executionDelayMs)], and the fill check. *)
Definition placeOrder_match (rt : Runtime) (ctx : Intake) : M (Order + Matched) :=
  executionQuote ← getQuote rt (n_symbol (i_order ctx));
  let effectiveType := effectiveTypeOf (i_triggerState ctx) (n_type (i_order ctx)) in
  let fillable := evaluateFillCondition effectiveType (i_order ctx) executionQuote in
  if negb fillable then returned (parkOrder (i_ref ctx) (i_baseOrder ctx))
  else mret (inr {| x_executionQuote := executionQuote; x_effectiveType := effectiveType |}).

(** The prices of lines 292-297 for a slippage of [slippageBps]. *)
Definition fillPriceOf (ctx : Intake) (matched : Matched) (slippageBps : Q) : Q :=
  let isBuy := sideIsBuy (n_side (i_order ctx)) in
  let basePrice :=
    if isBuy then q_ask (x_executionQuote matched) else q_bid (x_executionQuote matched) in
  applyPriceImpact basePrice isBuy slippageBps.

Definition notionalOf (ctx : Intake) (fillPrice : Q) : Q :=
  roundMoney (fillPrice * orderQuantity (i_order ctx)).

(** [placeOrder], lines 308-332: the filled order and the fill are put in
    front of their histories, and the account is refreshed. *)
Definition placeOrder_record (rt : Runtime) (placeOrder : string -> RawOrder -> M Order)
    (ctx : Intake) (matched : Matched) (fillPrice notional fees : Q) : M Order :=
  let ref := i_ref ctx in
  let order := i_order ctx in
  let baseOrder := i_baseOrder ctx in
  filledAt ← now rt;
  let filledOrder :=
    filled baseOrder filledAt fillPrice fees (i_triggerState ctx) (x_effectiveType matched) in
  writeAccount ref (unshiftOrder filledOrder);;
  ms ← now rt;
  r ← rng rt;
  timestamp ← now rt;
  account ← readAccount ref;
  writeAccount ref
    (fun a =>
       set_fills
         ({| f_id := FilId ms (Qfloor (r * 10000));
             f_orderId := o_id filledOrder;
             f_accountId := id account;
             f_symbol := n_symbol order;
             f_side := n_side order;
             f_quantity := orderQuantity order;
             f_price := fillPrice;
             f_notional := notional;
             f_fees := fees;
             f_timestamp := timestamp |} :: fills a) a);;
  refreshAccount rt placeOrder ref;;
  mret filledOrder.

(** [placeOrder], lines 299-332, once the prices are known: the simulation
    unless the margin check is bypassed, the rejection or the trade, and
    the records. *)
Definition placeOrder_settle (rt : Runtime) (placeOrder : string -> RawOrder -> M Order)
    (ctx : Intake) (matched : Matched) (fillPrice notional fees : Q) : M Order :=
  let ref := i_ref ctx in
  let order := i_order ctx in
  let baseOrder := i_baseOrder ctx in
  simulation ←
    ((if i_bypassMarginCheck ctx
      then mret {| sim_ok := true; sim_reason := None |}
      else simulatePostTrade rt ref order fillPrice notional fees) : M Simulation);
  if negb (sim_ok simulation)
  then rejectOrder ref baseOrder
         (match sim_reason simulation with Some reason => reason | None => "" end)
  else
    applyTradeTo rt ref order fillPrice notional fees;;
    placeOrder_record rt placeOrder ctx matched fillPrice notional fees.

(** [placeOrder], lines 292-332. *)
Definition placeOrder_fill (rt : Runtime) (placeOrder : string -> RawOrder -> M Order)
    (ctx : Intake) (matched : Matched) : M Order :=
  config ← getConfig;
  slippageBps ←
    calcSlippageBps rt config (orderQuantity (i_order ctx))
      (q_volatilityProxy (x_executionQuote matched));
  let fillPrice := fillPriceOf ctx matched slippageBps in
  let notional := notionalOf ctx fillPrice in
  let fees := calcFees config notional in
  placeOrder_settle rt placeOrder ctx matched fillPrice notional fees.

(** [placeOrder], line 230, with [this.placeOrder] for the call the
    forced liquidation makes. *)
Definition placeOrder_body (rt : Runtime) (placeOrder : string -> RawOrder -> M Order)
    (accountId : string) (rawOrder : RawOrder) : M Order :=
  intake ← placeOrder_intake rt placeOrder accountId rawOrder;
  match intake with
  | inl order => mret order
  | inr ctx =>
      matching ← placeOrder_match rt ctx;
      match matching with
      | inl order => mret order
      | inr matched => placeOrder_fill rt placeOrder ctx matched
      end
  end.

(** [placeOrder] with a bound on the depth of its calls to itself. *)
Fixpoint placeOrder (rt : Runtime) (fuel : nat) (accountId : string) (rawOrder : RawOrder)
  : M Order :=
  match fuel with
  | O => fun _ => Diverge
  | S fuel' => placeOrder_body rt (placeOrder rt fuel') accountId rawOrder
  end.

(** ** Account projection *)

Record AccountView := {
  v_id : string;
  v_createdAt : Time;
  v_settledCash : Q;
  v_unsettledCash : Q;
  v_availableCash : Q;
  v_reservedCash : Q;
  v_equity : Q;
  v_longValue : Q;
  v_shortValue : Q;
  v_initialRequired : Q;
  v_maintenanceRequired : Q;
  v_marginExcess : Q;
  v_feesDue : Q;
  v_openPositions : nat;
  v_openOrders : nat
}.

Definition isOpen (order : Order) : bool :=
  match o_status order with
  | OPEN => true
  | _ => false
  end.

(** [#toAccountView], line 556. *)
Definition toAccountView (rt : Runtime) (account : Account) : M AccountView :=
  metrics ← computeMetrics rt account;
  mret {| v_id := id account;
          v_createdAt := createdAt account;
          v_settledCash := roundMoney (settledCash account);
          v_unsettledCash := roundMoney (unsettledCash account);
          v_availableCash := roundMoney (m_availableCash metrics);
          v_reservedCash := roundMoney (reservedCash account);
          v_equity := m_equity metrics;
          v_longValue := m_longValue metrics;
          v_shortValue := m_shortValue metrics;
          v_initialRequired := m_initialRequired metrics;
          v_maintenanceRequired := m_maintenanceRequired metrics;
          v_marginExcess := m_marginExcess metrics;
          v_feesDue := roundMoney (feesDue account);
          v_openPositions := length (positions account);
          v_openOrders := length (filter (fun o => isOpen o = true) (orders account)) |}.

(** [getAccount], line 185. *)
Definition getAccount (rt : Runtime) (fuel : nat) (accountId : string) : M AccountView :=
  ref ← requireAccount accountId;
  refreshAccount rt (placeOrder rt fuel) ref;;
  account ← readAccount ref;
  toAccountView rt account.

(** ** Sample data

    A runtime, a configuration, a replay dataset and a broker with one
    funded account, on which the properties below are run.  The
    configuration has no size impact and the series are constant, so that
    [rt_log10] is only multiplied by 0 and [rt_sqrt] only taken of the
    variance 0. *)
Definition sample_rt : Runtime :=
  {| rt_clock := fun k => (1700000000000 + Z.of_nat k)%Z;
     rt_random := fun _ => 1 # 2;
     rt_log10 := fun _ => 0;
     rt_sqrt := fun _ => 0 |}.

Definition sample_config : BrokerConfig :=
  {| executionDelayMs := 0;
     enforceMarketHours := false;
     marketOpenHour := 9;
     marketOpenMinute := 30;
     marketCloseHour := 16;
     marketCloseMinute := 0;
     commissionPerTrade := 1;
     feeRateBps := 1;
     baseSlippageBps := 0;
     sizeImpactBps := 0;
     randomSlippageBps := 0;
     initialMarginLong := 1 # 2;
     initialMarginShort := 3 # 2;
     maintenanceMarginLong := 1 # 4;
     maintenanceMarginShort := 3 # 10;
     settlementDaysEquities := 2;
     shortBorrowDailyRate := 1 # 10000;
     forceLiquidationEnabled := false |}.

Definition sample_dataset : list (string * DatasetEntry) :=
  [("AAPL", {| d_series := [100; 100; 100]; d_spreadBps := None |});
   ("TSLA", {| d_series := [200; 200]; d_spreadBps := Some 10 |})].

Definition sample_replay : ReplayMarketDataService := Replay_new sample_dataset 8.

(** A new account, as [createAccount] builds it. *)
Definition newAccount (accountId : string) (createdAt : Time) (initialCapital : Q)
  : Account :=
  {| id := accountId;
     createdAt := createdAt;
     settledCash := roundMoney initialCapital;
     unsettledCash := 0;
     reservedCash := 0;
     feesDue := 0;
     positions := [];
     orders := [];
     fills := [];
     pendingSettlements := [];
     lastBorrowFeeDate := toIsoDate createdAt |}.

Definition sample_account : Account := newAccount "ACC-1" 1700000000000%Z 100000.

Definition sample_broker : Broker :=
  {| config := sample_config;
     marketDataService := Replay sample_replay;
     accounts := {[ "ACC-1" := sample_account ]};
     rngDraws := 0;
     clockReads := 0 |}.

(** A market order, in the normalized form and as it is handed in. *)
Definition marketOrder (side symbol : string) (quantity : Q) : OrderInput :=
  {| n_type := "MARKET"; n_side := side; n_tif := "DAY";
     n_quantity := Some quantity; n_limitPrice := None; n_stopPrice := None;
     n_symbol := symbol |}.

Definition rawMarketOrder (side symbol : string) (quantity : Q) (bypass : bool)
  : RawOrder :=
  {| r_symbol := symbol; r_type := "MARKET"; r_side := side; r_tif := Some "DAY";
     r_quantity := Some quantity; r_limitPrice := None; r_stopPrice := None;
     r_bypassMarginCheck := bypass |}.

(** A configuration that pays a rebate per trade instead of charging a
    commission. *)
Definition rebate_config : BrokerConfig :=
  {| executionDelayMs := 0;
     enforceMarketHours := false;
     marketOpenHour := 9;
     marketOpenMinute := 30;
     marketCloseHour := 16;
     marketCloseMinute := 0;
     commissionPerTrade := -2;
     feeRateBps := 1;
     baseSlippageBps := 0;
     sizeImpactBps := 0;
     randomSlippageBps := 0;
     initialMarginLong := 1 # 2;
     initialMarginShort := 3 # 2;
     maintenanceMarginLong := 1 # 4;
     maintenanceMarginShort := 3 # 10;
     settlementDaysEquities := 2;
     shortBorrowDailyRate := 1 # 10000;
     forceLiquidationEnabled := false |}.


(** A replay service with a symbol whose series is empty. *)
Definition hollow_replay : ReplayMarketDataService :=
  Replay_new [("NONE", {| d_series := []; d_spreadBps := None |})] 8.

(** The sample account after a buy of 10 AAPL at 100, and a broker that
    holds it. *)
Definition long_account : Account :=
  applyTrade sample_config sample_account (marketOrder "BUY" "AAPL" 10)
    100 1000 (11 # 10) 1700000000000%Z.

Definition long_broker : Broker :=
  {| config := sample_config;
     marketDataService := Replay sample_replay;
     accounts := {[ "ACC-1" := long_account ]};
     rngDraws := 0;
     clockReads := 0 |}.


(** A broker whose account is funded with 500, and a market order to buy
    10000 AAPL, with and without the flag of the forced liquidation. *)
Definition poor_broker : Broker :=
  {| config := sample_config;
     marketDataService := Replay sample_replay;
     accounts := {[ "ACC-1" := newAccount "ACC-1" 1700000000000%Z 500 ]};
     rngDraws := 0;
     clockReads := 0 |}.

Definition largeOrder (bypass : bool) : RawOrder := rawMarketOrder "BUY" "AAPL" 10000 bypass.

(** The sample configuration with the forced liquidation enabled, and a
    broker under it whose account is short 10 TSLA, sold at 100 and
    settled, with 2500 of settled cash, while TSLA is quoted at 200: the
    equity is 500 and the maintenance requirement 600. *)
Definition liquidating_config : BrokerConfig :=
  {| executionDelayMs := 0;
     enforceMarketHours := false;
     marketOpenHour := 9;
     marketOpenMinute := 30;
     marketCloseHour := 16;
     marketCloseMinute := 0;
     commissionPerTrade := 1;
     feeRateBps := 1;
     baseSlippageBps := 0;
     sizeImpactBps := 0;
     randomSlippageBps := 0;
     initialMarginLong := 1 # 2;
     initialMarginShort := 3 # 2;
     maintenanceMarginLong := 1 # 4;
     maintenanceMarginShort := 3 # 10;
     settlementDaysEquities := 2;
     shortBorrowDailyRate := 1 # 10000;
     forceLiquidationEnabled := true |}.

Definition short_positions : list (string * Position) :=
  [("TSLA", {| p_symbol := "TSLA"; p_quantity := -10; p_avgPrice := 100 |})].

Definition short_account : Account :=
  {| id := "ACC-1";
     createdAt := 1700000000000%Z;
     settledCash := 2500;
     unsettledCash := 0;
     reservedCash := 0;
     feesDue := 0;
     positions := short_positions;
     orders := [];
     fills := [];
     pendingSettlements := [];
     lastBorrowFeeDate := toIsoDate 1700000000000%Z |}.

Definition short_broker : Broker :=
  {| config := liquidating_config;
     marketDataService := Replay sample_replay;
     accounts := {[ "ACC-1" := short_account ]};
     rngDraws := 0;
     clockReads := 0 |}.

(** * The other methods of the broker *)

From Stdlib Require Import DecimalString.

(** ** Valuation of one position *)

(** The result of [calculatePositionPnl]: [{ marketValue, unrealizedPnl }]. *)
Record PositionPnl := {
  pnl_marketValue : Q;
  pnl_unrealizedPnl : Q
}.

(** [calculatePositionPnl], line 146; [None] is a missing position. *)
Definition calculatePositionPnl (position : option Position) (quoteMid : Q) : PositionPnl :=
  match position with
  | None => {| pnl_marketValue := 0; pnl_unrealizedPnl := 0 |}
  | Some position =>
      if num_eqb (p_quantity position) 0
      then {| pnl_marketValue := 0; pnl_unrealizedPnl := 0 |}
      else
        let marketValue := quoteMid * p_quantity position in
        let pnl :=
          if num_ltb 0 (p_quantity position)
          then (quoteMid - p_avgPrice position) * p_quantity position
          else (p_avgPrice position - quoteMid) * Qabs (p_quantity position) in
        {| pnl_marketValue := roundMoney marketValue; pnl_unrealizedPnl := roundMoney pnl |}
  end.

(** ** Business days *)

(** Whether the day of [t] is one from Monday to Friday, the test of
    line 31. *)
Definition isWeekday (t : Time) : bool :=
  negb (getDay t =? 0)%Z && negb (getDay t =? 6)%Z.

(** The number of weekdays among the [k] days that follow the day of [t]. *)
Fixpoint weekdaysAfter (t : Time) (k : nat) : nat :=
  match k with
  | O => O
  | S k' =>
      ((if isWeekday (t + msPerDay)%Z then 1 else 0)
       + weekdaysAfter (t + msPerDay)%Z k')%nat
  end.

(** The rounds the loop of [nextBusinessDay] takes from a day of the week
    to the next weekday. *)
Definition roundsToWeekday (day : Z) : Z :=
  if (day =? 5)%Z then 3 else if (day =? 6)%Z then 2 else 1.

(** ** The positions a trade leaves *)

(** A positions object in which every key occurs once and holds a position
    of that symbol, with a quantity other than 0, and quantity and average
    price of at most six decimals. *)
Definition tidy_positions (ps : list (string * Position)) : Prop :=
  NoDup (map fst ps)
  /\ forall k p, In (k, p) ps ->
       p_symbol p = k
       /\ ~ p_quantity p == 0
       /\ micro (p_quantity p)
       /\ micro (p_avgPrice p).

(** ** Successive quotes *)

(** One [getQuote(symbol)] on the replay provider at each of the instants
    [times], in turn: the results and the provider left behind. *)
Fixpoint Replay_getQuotes (rt : Runtime) (svc : ReplayMarketDataService)
    (symbol : string) (times : list Time)
  : list (Error + Quote) * ReplayMarketDataService :=
  match times with
  | [] => ([], svc)
  | t :: rest =>
      let '(result, svc1) := Replay_getQuote rt svc symbol t in
      let '(results, svc2) := Replay_getQuotes rt svc1 symbol rest in
      (result :: results, svc2)
  end.

(** The mid of a result, when it is a quote. *)
Definition resultMid (result : Error + Quote) : option Q :=
  match result with
  | inr quote => Some (q_mid quote)
  | inl _ => None
  end.

(** ** More sample data *)

(** The sample broker on the live provider, which is a placeholder. *)
Definition live_broker : Broker :=
  {| config := sample_config;
     marketDataService := Live true;
     accounts := {[ "ACC-1" := sample_account ]};
     rngDraws := 0;
     clockReads := 0 |}.

(** The sample broker with market hours enforced; the sample clock stands
    at 22:13 UTC. *)
Definition hours_config : BrokerConfig :=
  {| executionDelayMs := 0;
     enforceMarketHours := true;
     marketOpenHour := 9;
     marketOpenMinute := 30;
     marketCloseHour := 16;
     marketCloseMinute := 0;
     commissionPerTrade := 1;
     feeRateBps := 1;
     baseSlippageBps := 0;
     sizeImpactBps := 0;
     randomSlippageBps := 0;
     initialMarginLong := 1 # 2;
     initialMarginShort := 3 # 2;
     maintenanceMarginLong := 1 # 4;
     maintenanceMarginShort := 3 # 10;
     settlementDaysEquities := 2;
     shortBorrowDailyRate := 1 # 10000;
     forceLiquidationEnabled := false |}.

Definition hours_broker : Broker :=
  {| config := hours_config;
     marketDataService := Replay sample_replay;
     accounts := {[ "ACC-1" := sample_account ]};
     rngDraws := 0;
     clockReads := 0 |}.

(** The account short 10 TSLA under the sample configuration, which does
    not liquidate: its equity of 500 is below the maintenance requirement
    of 600. *)
Definition deficient_broker : Broker :=
  {| config := sample_config;
     marketDataService := Replay sample_replay;
     accounts := {[ "ACC-1" := short_account ]};
     rngDraws := 0;
     clockReads := 0 |}.

(** ** What a method may change *)

(** Two accounts with the same identifier, time of creation, positions,
    orders and fills. *)
Definition same_book (a a' : Account) : Prop :=
  id a' = id a
  /\ createdAt a' = createdAt a
  /\ positions a' = positions a
  /\ orders a' = orders a
  /\ fills a' = fills a.

(** A broker in which every account is stored under its identifier, as
    [createAccount] stores it. *)
Definition keyed (b : Broker) : Prop :=
  forall k a, accounts b !! k = Some a -> id a = k.

(** Two states of a broker with the same configuration that differ at
    most in the account stored under [ref], which has kept its identifier
    and its time of creation. *)
Definition touches_only (ref : string) (b b' : Broker) : Prop :=
  config b' = config b
  /\ (forall other, other <> ref -> accounts b' !! other = accounts b !! other)
  /\ match accounts b !! ref, accounts b' !! ref with
     | Some a, Some a' => id a' = id a /\ createdAt a' = createdAt a
     | None, None => True
     | _, _ => False
     end.



(** ** Accounts and their reports *)

(** A whole number in a template literal: its decimal numeral. *)
Definition showZ (z : Z) : string := NilZero.string_of_int (Z.to_int z).

(** [createAccount], lines 165-183; [None] is a call without argument.
    The result is the account object, which is also stored under its
    identifier. *)
Definition createAccount (rt : Runtime) (initialCapital : option Q) : M Account :=
  let initialCapital :=
    match initialCapital with
    | Some capital => capital
    | None => 100000
    end in
  ms ← now rt;
  r ← rng rt;
  t ← now rt;
  let accountId :=
    String.append "ACC-"
      (String.append (showZ ms) (String.append "-" (showZ (Qfloor (r * 10000))))) in
  let account := newAccount accountId t initialCapital in
  ((fun b => Ret account (set_accounts (<[accountId := account]> (accounts b)) b))
   : M Account).

(** A row of [getPositions]. *)
Record PositionView := {
  pv_symbol : string;
  pv_quantity : Q;
  pv_avgPrice : Q;
  pv_mid : Q;
  pv_marketValue : Q;
  pv_unrealizedPnl : Q
}.

(** The loop of [getPositions], lines 196-207. *)
Fixpoint getPositions_loop (rt : Runtime) (values : list Position) : M (list PositionView) :=
  match values with
  | [] => mret []
  | position :: rest =>
      quote ← peekQuote rt (p_symbol position);
      let pnl := calculatePositionPnl (Some position) (q_mid quote) in
      others ← getPositions_loop rt rest;
      mret ({| pv_symbol := p_symbol position;
               pv_quantity := p_quantity position;
               pv_avgPrice := p_avgPrice position;
               pv_mid := q_mid quote;
               pv_marketValue := pnl_marketValue pnl;
               pv_unrealizedPnl := pnl_unrealizedPnl pnl |} :: others)
  end.

(** [getPositions], line 191. *)
Definition getPositions (rt : Runtime) (fuel : nat) (accountId : string)
  : M (list PositionView) :=
  ref ← requireAccount accountId;
  refreshAccount rt (placeOrder rt fuel) ref;;
  account ← readAccount ref;
  getPositions_loop rt (pos_values (positions account)).

(** The string of a status, as [ORDER_STATUS] has it. *)
Definition statusName (status : OrderStatus) : string :=
  match status with
  | OPEN => "OPEN"
  | FILLED => "FILLED"
  | REJECTED => "REJECTED"
  | CANCELED => "CANCELED"
  end.

(** [getOrders], line 211; [None] is a call without a status, and an
    empty string counts as none. *)
Definition getOrders (rt : Runtime) (fuel : nat) (accountId : string)
    (status : option string) : M (list Order) :=
  ref ← requireAccount accountId;
  refreshAccount rt (placeOrder rt fuel) ref;;
  account ← readAccount ref;
  match status with
  | None => mret (orders account)
  | Some status =>
      if String.eqb status "" then mret (orders account)
      else
        mret (List.filter
                (fun order => String.eqb (statusName (o_status order)) (toUpperCase status))
                (orders account))
  end.

(** [getFills], line 220. *)
Definition getFills (rt : Runtime) (fuel : nat) (accountId : string) : M (list Fill) :=
  ref ← requireAccount accountId;
  refreshAccount rt (placeOrder rt fuel) ref;;
  account ← readAccount ref;
  mret (fills account).


(** The reasons [placeOrder] gives for a rejection: those of
    [validateOrderByType] and those of lines 259-270 and 341-344. *)
Definition REJECT_REASONS : list string :=
  ["unsupported order type"; "unsupported side"; "unsupported tif"; "invalid quantity";
   "invalid limit price"; "invalid stop price"; "invalid stop/limit prices";
   "unsupported order type/tif combination";
   "market closed"; "unknown symbol"; "margin deficiency: account below maintenance";
   insufficient].

(** The sample broker with a second account. *)
Definition twin_broker : Broker :=
  {| config := sample_config;
     marketDataService := Replay sample_replay;
     accounts :=
       <[ "ACC-2" := newAccount "ACC-2" 1700000000000%Z 500 ]>
         {[ "ACC-1" := sample_account ]};
     rngDraws := 0;
     clockReads := 0 |}.

(** * The HTTP interface, app.js *)

(** What a route answers: [res.status(status).json(body)] with a result,
    with [{ error: "<text>" }] for a fixed text, or with
    [{ error: error.message }] for an error that was caught. *)
Inductive Reply (A : Type) :=
| Json (status : Z) (body : A)
| Refusal (status : Z) (error : string)
| Failure (status : Z) (error : Error).
Arguments Json {A} status body.
Arguments Refusal {A} status error.
Arguments Failure {A} status error.

(** [error.message.startsWith("account_not_found")]: of the errors of the
    broker and of the providers, the one of [#requireAccount]. *)
Definition isAccountNotFound (error : Error) : bool :=
  match error with
  | AccountNotFound _ => true
  | _ => false
  end.

(** The [try { .. } catch (error) { .. }] of the account routes. *)
Definition answer {A} (m : M A) (status : A -> Z) : M (Reply A) :=
  r ← attempt m;
  match r with
  | inr a => mret (Json (status a) a)
  | inl e => mret (Failure (if isAccountNotFound e then 404 else 500)%Z e)
  end.

(** [GET /accounts/:id] and the three reports below it. *)
Definition getAccountRoute (rt : Runtime) (fuel : nat) (accountId : string)
  : M (Reply AccountView) :=
  answer (getAccount rt fuel accountId) (fun _ => 200%Z).

Definition getPositionsRoute (rt : Runtime) (fuel : nat) (accountId : string)
  : M (Reply (list PositionView)) :=
  answer (getPositions rt fuel accountId) (fun _ => 200%Z).

Definition getOrdersRoute (rt : Runtime) (fuel : nat) (accountId : string)
    (status : option string) : M (Reply (list Order)) :=
  answer (getOrders rt fuel accountId status) (fun _ => 200%Z).

Definition getFillsRoute (rt : Runtime) (fuel : nat) (accountId : string)
  : M (Reply (list Fill)) :=
  answer (getFills rt fuel accountId) (fun _ => 200%Z).

(** [POST /accounts/:id/orders]. *)
Definition postOrdersRoute (rt : Runtime) (fuel : nat) (accountId : string)
    (rawOrder : RawOrder) : M (Reply Order) :=
  answer (placeOrder rt fuel accountId rawOrder)
    (fun order =>
       match o_status order with
       | REJECTED => 400%Z
       | _ => 201%Z
       end).


(** The status of a reply. *)
Definition statusOf {A} (reply : Reply A) : Z :=
  match reply with
  | Json status _ => status
  | Refusal status _ => status
  | Failure status _ => status
  end.

(** A method that keeps the account behind [ref]: run on a broker whose
    accounts are stored under their identifiers, [ref] among them, it
    leaves such a broker and a result with [post] when it returns, and
    throws no other error than those of the quote provider. *)
Definition keeps (ref : string) {A} (m : M A) (post : A -> Prop) : Prop :=
  forall b,
    keyed b -> is_Some (accounts b !! ref) ->
    match m b with
    | Ret a b' => keyed b' /\ is_Some (accounts b' !! ref) /\ post a
    | Throw e _ => isAccountNotFound e = false
    | Diverge => True
    end.

(** The early return of [placeOrder], or its going on with the account
    behind [ref]. *)
Definition goes_on (ref : string) (intake : Order + Intake) : Prop :=
  match intake with
  | inl _ => True
  | inr ctx => i_ref ctx = ref
  end.

(** What a route of an account answers on the broker [b], by the account
    being stored or not: 404 with the error of [#requireAccount] and the
    broker left as it was when it is not, and one of the other [statuses]
    when it is. *)
Definition answersFor {A} (accountId : string) (statuses : list Z)
    (route : M (Reply A)) (b : Broker) : Prop :=
  match accounts b !! accountId with
  | None => route b = Ret (Failure 404 (AccountNotFound accountId)) b
  | Some _ =>
      match route b with
      | Ret reply _ => In (statusOf reply) statuses
      | Throw _ _ => False
      | Diverge => True
      end
  end.

(** * Properties *)

(** ** Running methods *)

Section Monad.

Context {A B : Type}.

Lemma bind_unfold (m : M A) (k : A -> M B) (b : Broker) :
  (m ≫= k) b =
  match m b with
  | Ret a b' => k a b'
  | Throw e b' => Throw e b'
  | Diverge => Diverge
  end.
Proof. reflexivity. Qed.

Lemma bind_Ret_inv (m : M A) (k : A -> M B) (b b' : Broker) (r : B) :
  (m ≫= k) b = Ret r b' -> exists a b1, m b = Ret a b1 /\ k a b1 = Ret r b'.
Proof.
  rewrite bind_unfold. destruct (m b) as [a b1| |]; try discriminate.
  intros H. exists a, b1. split; [reflexivity | exact H].
Qed.

Lemma bind_Ret (m : M A) (k : A -> M B) (b b1 : Broker) (a : A) :
  m b = Ret a b1 -> (m ≫= k) b = k a b1.
Proof. intros H. rewrite bind_unfold, H. reflexivity. Qed.

End Monad.

(** ** Rounding to six places *)

Section Rounding.

Lemma Qfloor_unique (n : Z) (x : Q) :
  inject_Z n <= x -> x < inject_Z (n + 1) -> Qfloor x = n.
Proof.
  intros Hlo Hhi.
  pose proof (Qfloor_le x) as Hf.
  pose proof (Qlt_floor x) as Hc.
  assert (Qfloor x < n + 1)%Z by (rewrite Zlt_Qlt; lra).
  assert (n < Qfloor x + 1)%Z by (rewrite Zlt_Qlt; lra).
  lia.
Qed.

Lemma Qfloor_half (n : Z) : Qfloor (inject_Z n + (1 # 2)) = n.
Proof.
  apply Qfloor_unique.
  - lra.
  - rewrite inject_Z_plus. change (inject_Z 1) with 1. lra.
Qed.

Lemma toFixed6_comp (x y : Q) : x == y -> toFixed6 x = toFixed6 y.
Proof.
  intros E. unfold toFixed6.
  rewrite (Qleb_comp 0 0 (Qeq_refl 0) x y E).
  rewrite (Qfloor_comp (x * 1000000 + (1 # 2)) (y * 1000000 + (1 # 2))) by (rewrite E; reflexivity).
  rewrite (Qfloor_comp (- x * 1000000 + (1 # 2)) (- y * 1000000 + (1 # 2)))
    by (rewrite E; reflexivity).
  reflexivity.
Qed.

(** Two equal numbers round to the same term. *)
Lemma roundMoney_comp (x y : Q) : x == y -> roundMoney x = roundMoney y.
Proof.
  intros E. unfold roundMoney. rewrite (toFixed6_comp x y E). reflexivity.
Qed.

#[global] Instance roundMoney_proper : Proper (Qeq ==> eq) roundMoney.
Proof. intros x y E. apply roundMoney_comp, E. Qed.

Lemma micro_scale (n : Z) : (n # 1000000) * 1000000 == inject_Z n.
Proof.
  unfold Qeq, Qmult, inject_Z. simpl. lia.
Qed.

Lemma toFixed6_micro (n : Z) : toFixed6 (n # 1000000) = n.
Proof.
  unfold toFixed6.
  destruct (Qle_bool 0 (n # 1000000)) eqn:E.
  - rewrite micro_scale. apply Qfloor_half.
  - assert (H : - (n # 1000000) * 1000000 == inject_Z (- n)).
    { rewrite inject_Z_opp, <- micro_scale. ring. }
    rewrite H, Qfloor_half. lia.
Qed.

(** Rounding a rounded amount changes nothing. *)
Lemma roundMoney_idem (x : Q) : roundMoney (roundMoney x) = roundMoney x.
Proof.
  change (toFixed6 (toFixed6 x # 1000000) # 1000000 = roundMoney x).
  rewrite toFixed6_micro. reflexivity.
Qed.

Lemma roundMoney_0 : roundMoney 0 == 0.
Proof. reflexivity. Qed.




End Rounding.

(** ** The positions object *)

Section Positions.

Lemma pos_get_delete (symbol : string) (ps : list (string * Position)) :
  pos_get symbol (pos_delete symbol ps) = None.
Proof.
  induction ps as [|[k p] rest IH]; simpl; [reflexivity|].
  destruct (String.eqb k symbol) eqn:E; simpl; [exact IH|].
  rewrite E. exact IH.
Qed.

Lemma pos_get_set (symbol : string) (p : Position) (ps : list (string * Position)) :
  pos_get symbol (pos_set symbol p ps) = Some p.
Proof.
  induction ps as [|[k p0] rest IH]; simpl.
  - rewrite String.eqb_refl. reflexivity.
  - destruct (String.eqb k symbol) eqn:E; simpl; rewrite E; [reflexivity | exact IH].
Qed.

Lemma pos_delete_absent (symbol : string) (ps : list (string * Position)) :
  pos_get symbol ps = None -> pos_delete symbol ps = ps.
Proof.
  induction ps as [|[k p0] rest IH]; simpl; [reflexivity|].
  destruct (String.eqb k symbol) eqn:E; simpl; [discriminate|].
  intros H. rewrite (IH H). reflexivity.
Qed.

(** The positions [#applyTrade] leaves behind. *)
Lemma applyTrade_positions config account order fillPrice notional fees now :
  positions (applyTrade config account order fillPrice notional fees now) =
  let deltaQty :=
    if sideIsBuy (n_side order) then orderQuantity order else - orderQuantity order in
  let current :=
    match pos_get (n_symbol order) (positions account) with
    | Some p => p
    | None => {| p_symbol := n_symbol order; p_quantity := 0; p_avgPrice := 0 |}
    end in
  let updated := updateSignedPosition (Some current) deltaQty fillPrice in
  if num_eqb (quantity updated) 0
  then pos_delete (n_symbol order) (positions account)
  else pos_set (n_symbol order)
         {| p_symbol := n_symbol order;
            p_quantity := quantity updated;
            p_avgPrice := avgPrice updated |}
         (positions account).
Proof.
  unfold applyTrade. cbv zeta.
  destruct (sideIsBuy (n_side order));
    destruct (num_eqb _ 0); reflexivity.
Qed.

End Positions.

(** ** The signed-position update *)

Section SignedPosition.

Variables (q a d p : Q) (symbol : string).

Let existing := Some {| p_symbol := symbol; p_quantity := q; p_avgPrice := a |}.



End SignedPosition.



(** ** Round trips *)

Section RoundTrip.




Lemma roundMoney_nonneg (x : Q) : 0 <= x -> 0 <= roundMoney x.
Proof.
  intros H. unfold roundMoney, toFixed6.
  rewrite (proj2 (Qle_bool_iff 0 x) H).
  assert (0 <= Qfloor (x * 1000000 + (1 # 2)))%Z.
  { change 0%Z with (Qfloor 0). apply Qfloor_resp_le. lra. }
  unfold Qle. cbn [Qnum Qden]. lia.
Qed.







End RoundTrip.

(** Amounts of at most six decimals are never ties. *)
Lemma micro_not_tie (m : Z) : ~ tie (m # 1000000).
Proof.
  intros [k Hk]. unfold Qeq in Hk. cbn [Qnum Qden Qmult inject_Z] in Hk. lia.
Qed.




(** ** Settlement *)

Section Settlement.

Lemma splitDue_from (now : Time) (entries due0 pending0 : list Settlement) :
  fold_left
    (fun '(due, pending) entry =>
       if (s_settleAt entry <=? now)%Z
       then (due ++ [entry], pending)
       else (due, pending ++ [entry]))
    entries (due0, pending0)
  = (due0 ++ List.filter (fun e => (s_settleAt e <=? now)%Z) entries,
     pending0 ++ List.filter (fun e => negb (s_settleAt e <=? now)%Z) entries).
Proof.
  revert due0 pending0.
  induction entries as [|e rest IH]; intros due0 pending0; simpl.
  - rewrite !app_nil_r. reflexivity.
  - destruct (s_settleAt e <=? now)%Z; simpl; rewrite IH, <- app_assoc; reflexivity.
Qed.

(** The two lists of the first loop: the due entries and the others, each
    in the order of [pendingSettlements]. *)
Lemma splitDue_filter (now : Time) (entries : list Settlement) :
  splitDue now entries =
  (List.filter (fun e => (s_settleAt e <=? now)%Z) entries,
   List.filter (fun e => negb (s_settleAt e <=? now)%Z) entries).
Proof. unfold splitDue. rewrite splitDue_from. reflexivity. Qed.

Lemma settleEntry_frame (account : Account) (entry : Settlement) :
  pendingSettlements (settleEntry account entry) = pendingSettlements account
  /\ feesDue (settleEntry account entry) = feesDue account
  /\ positions (settleEntry account entry) = positions account
  /\ orders (settleEntry account entry) = orders account
  /\ fills (settleEntry account entry) = fills account.
Proof. unfold settleEntry. destruct (s_direction entry); repeat split. Qed.

Lemma settleEntries_frame (due : list Settlement) (account : Account) :
  pendingSettlements (fold_left settleEntry due account) = pendingSettlements account
  /\ feesDue (fold_left settleEntry due account) = feesDue account
  /\ positions (fold_left settleEntry due account) = positions account
  /\ orders (fold_left settleEntry due account) = orders account
  /\ fills (fold_left settleEntry due account) = fills account.
Proof.
  revert account. induction due as [|e rest IH]; intros account; simpl.
  - repeat split.
  - destruct (IH (settleEntry account e)) as (H1 & H2 & H3 & H4 & H5).
    destruct (settleEntry_frame account e) as (F1 & F2 & F3 & F4 & F5).
    repeat split; congruence.
Qed.

End Settlement.

(** C3 (as amended).  [#settleDueEntries] at the instant [instant] keeps in
    [pendingSettlements] exactly the entries with [settleAt > instant], as they
    are and in their order, and applies the entries with [settleAt <= instant]
    in their order: a DEBIT entry takes its amount from [settledCash] and
    leaves [reservedCash] at [max(0, reservedCash - amount)], a CREDIT entry
    adds its amount to [settledCash] and takes it from [unsettledCash],
    every new value rounded to six places.  Afterwards, when [feesDue] is
    positive it is taken from [settledCash] and set to 0; when it is not
    positive, both stay as they are.  The refresh of an account starts
    with this settlement at the instant it reads from the clock. *)
Theorem settlement_of_due_entries (instant : Time) (account : Account) :
  let due :=
    List.filter (fun e => (s_settleAt e <=? instant)%Z) (pendingSettlements account) in
  let kept :=
    List.filter (fun e => negb (s_settleAt e <=? instant)%Z) (pendingSettlements account) in
  let applied := fold_left settleEntry due (set_pendingSettlements kept account) in
  let result := settleDueEntries instant account in
  (forall rt placeOrder ref b,
      accounts b !! ref = Some account ->
      instant = rt_clock rt (clockReads b) ->
      refreshAccount rt placeOrder ref b =
      (applyBorrowFeesIfNeeded rt ref;;
       config ← getConfig;
       if forceLiquidationEnabled config then
         account ← readAccount ref;
         metrics ← computeMetrics rt account;
         if hasMaintenanceDeficiency metrics
         then forceLiquidateLargestPosition rt placeOrder ref
         else mret tt
       else mret tt)
        (set_accounts (<[ref := result]> (accounts b))
           (set_clockReads (S (clockReads b)) b)))
  /\ pendingSettlements result = kept
  /\ (forall acc e, s_direction e = DEBIT ->
        settledCash (settleEntry acc e) = roundMoney (settledCash acc - s_amount e)
        /\ reservedCash (settleEntry acc e)
           = roundMoney (num_max 0 (reservedCash acc - s_amount e))
        /\ unsettledCash (settleEntry acc e) = unsettledCash acc)
  /\ (forall acc e, s_direction e = CREDIT ->
        settledCash (settleEntry acc e) = roundMoney (settledCash acc + s_amount e)
        /\ unsettledCash (settleEntry acc e) = roundMoney (unsettledCash acc - s_amount e)
        /\ reservedCash (settleEntry acc e) = reservedCash acc)
  /\ unsettledCash result = unsettledCash applied
  /\ reservedCash result = reservedCash applied
  /\ (0 < feesDue account ->
      settledCash result = roundMoney (settledCash applied - feesDue account)
      /\ feesDue result = 0)
  /\ (feesDue account <= 0 ->
      settledCash result = settledCash applied /\ feesDue result = feesDue account).
Proof.
  intros due kept applied result.
  assert (E : result =
              if num_ltb 0 (feesDue applied)
              then set_feesDue 0
                     (set_settledCash
                        (roundMoney (settledCash applied - feesDue applied)) applied)
              else applied).
  { subst result. unfold settleDueEntries. rewrite splitDue_filter. reflexivity. }
  destruct (settleEntries_frame due (set_pendingSettlements kept account))
    as (F1 & F2 & _).
  fold applied in F1, F2. simpl in F1, F2.
  assert (Hlt : num_ltb 0 (feesDue applied) = true <-> 0 < feesDue account).
  { rewrite F2. unfold num_ltb. rewrite negb_true_iff.
    split; intros H.
    - destruct (Qlt_le_dec 0 (feesDue account)) as [L|L]; [exact L|].
      apply Qle_bool_iff in L. congruence.
    - destruct (Qle_bool (feesDue account) 0) eqn:B; [|reflexivity].
      apply Qle_bool_iff in B. lra. }
  split.
  { intros rt placeOrder ref b Ha Hnow. subst result. rewrite Hnow.
    unfold refreshAccount. rewrite bind_unfold.
    change (now rt b) with
      (Ret (rt_clock rt (clockReads b)) (set_clockReads (S (clockReads b)) b)).
    cbv iota beta. rewrite bind_unfold.
    unfold writeAccount at 1. cbn [accounts set_clockReads]. rewrite Ha. reflexivity. }
  repeat split.
  - rewrite E. destruct (num_ltb 0 (feesDue applied)); exact F1.
  - unfold settleEntry. rewrite H. reflexivity.
  - unfold settleEntry. rewrite H. reflexivity.
  - unfold settleEntry. rewrite H. reflexivity.
  - unfold settleEntry. rewrite H. reflexivity.
  - unfold settleEntry. rewrite H. reflexivity.
  - unfold settleEntry. rewrite H. reflexivity.
  - rewrite E. destruct (num_ltb 0 (feesDue applied)); reflexivity.
  - rewrite E. destruct (num_ltb 0 (feesDue applied)); reflexivity.
  - rewrite E, (proj2 Hlt H), F2. reflexivity.
  - rewrite E, (proj2 Hlt H). reflexivity.
  - rewrite E. destruct (num_ltb 0 (feesDue applied)); [|reflexivity].
    pose proof (proj1 Hlt eq_refl). lra.
  - rewrite E. destruct (num_ltb 0 (feesDue applied)); [|exact F2].
    pose proof (proj1 Hlt eq_refl). lra.
Qed.

(** C3, as the claim states it, fails where [feesDue] is negative, as it
    is after a buy under a configuration that pays a rebate of 2 per
    trade: the fees of the trade are -1.9, and the next settlement leaves
    [feesDue] at -1.9 and [settledCash] at 100000, where an unconditional
    drain gives 0 and 100001.9. *)
Lemma settlement_keeps_negative_fees :
  let traded :=
    applyTrade rebate_config sample_account (marketOrder "BUY" "AAPL" 10)
      100 1000 (calcFees rebate_config 1000) 1700000000000%Z in
  let result := settleDueEntries 1700000000001%Z traded in
  feesDue traded == - (19 # 10)
  /\ feesDue result == - (19 # 10)
  /\ ~ feesDue result == 0
  /\ settledCash result == 100000
  /\ ~ settledCash result == settledCash traded - feesDue traded.
Proof.
  cbv zeta. repeat split; try (intros H; vm_compute in H; discriminate).
Qed.

(** ** The replay quote provider *)

Section Quotes.

Lemma toFixed6_mono (x y : Q) : x <= y -> (toFixed6 x <= toFixed6 y)%Z.
Proof.
  intros H. unfold toFixed6.
  destruct (Qle_bool 0 x) eqn:Ex; destruct (Qle_bool 0 y) eqn:Ey.
  - apply Qfloor_resp_le. lra.
  - apply Qle_bool_iff in Ex.
    assert (0 <= y) by lra. apply Qle_bool_iff in H0. congruence.
  - assert (Hx : x < 0).
    { destruct (Qlt_le_dec x 0) as [L|L]; [exact L|].
      apply Qle_bool_iff in L. congruence. }
    apply Qle_bool_iff in Ey.
    assert (0 <= Qfloor (- x * 1000000 + (1 # 2)))%Z
      by (change 0%Z with (Qfloor 0); apply Qfloor_resp_le; lra).
    assert (0 <= Qfloor (y * 1000000 + (1 # 2)))%Z
      by (change 0%Z with (Qfloor 0); apply Qfloor_resp_le; lra).
    lia.
  - assert (Qfloor (- y * 1000000 + (1 # 2)) <= Qfloor (- x * 1000000 + (1 # 2)))%Z
      by (apply Qfloor_resp_le; lra).
    lia.
Qed.

(** Rounding keeps the order. *)
Lemma roundMoney_mono (x y : Q) : x <= y -> roundMoney x <= roundMoney y.
Proof.
  intros H. pose proof (toFixed6_mono x y H).
  unfold roundMoney, Qle. cbn [Qnum Qden]. lia.
Qed.

End Quotes.




Section Cursors.

Lemma Replay_new_cursors (dataset : list (string * DatasetEntry)) (defaultSpread : Q)
    (symbol : string) (entry : SymbolEntry) :
  symbols (Replay_new dataset defaultSpread) !! symbol = Some entry -> e_index entry = 0%nat.
Proof.
  unfold Replay_new. cbn [symbols].
  assert (G : forall (m : gmap string SymbolEntry),
             (forall s e, m !! s = Some e -> e_index e = 0%nat) ->
             forall s e,
               fold_left
                 (fun m '(symbol, config) =>
                    <[symbol :=
                        {| e_spreadBps :=
                             Some (match d_spreadBps config with
                                   | Some s => s
                                   | None => defaultSpread
                                   end);
                           e_series := d_series config;
                           e_index := 0 |}]> m)
                 dataset m !! s = Some e -> e_index e = 0%nat).
  { induction dataset as [|[k c] rest IH]; intros m Hm s e; simpl.
    - apply Hm.
    - apply IH. intros s' e' H'.
      destruct (decide (k = s')) as [->|Hne].
      + rewrite lookup_insert_eq in H'. injection H' as <-. reflexivity.
      + rewrite lookup_insert_ne in H' by exact Hne. eapply Hm, H'. }
  apply G. intros s e H. rewrite lookup_empty in H. discriminate.
Qed.

(** The constructor establishes [cursors_ok]. *)
Lemma Replay_new_cursors_ok (dataset : list (string * DatasetEntry)) (defaultSpread : Q) :
  cursors_ok (Replay_new dataset defaultSpread).
Proof.
  intros symbol entry H Hne.
  rewrite (Replay_new_cursors _ _ _ _ H).
  destruct (e_series entry); [contradiction | simpl; lia].
Qed.

(** Every quote keeps it. *)
Lemma Replay_quote_cursors_ok (rt : Runtime) (svc : ReplayMarketDataService)
    (symbol : string) (advance : bool) (now : Time) :
  cursors_ok svc -> cursors_ok (snd (Replay_quote rt svc symbol advance now)).
Proof.
  intros Hok. unfold Replay_quote.
  destruct (symbols svc !! symbol) as [entry|] eqn:E; [|exact Hok].
  destruct (nth_error (e_series entry) (e_index entry)) as [mid|] eqn:Em; [|exact Hok].
  destruct advance; [|exact Hok].
  intros s e H Hne. cbn [snd symbols] in H.
  destruct (decide (symbol = s)) as [->|Hs].
  - rewrite lookup_insert_eq in H. injection H as <-. cbn [e_index e_series] in *.
    apply Nat.mod_upper_bound. destruct (e_series entry); [contradiction | discriminate].
  - rewrite lookup_insert_ne in H by exact Hs. apply (Hok s e H Hne).
Qed.

End Cursors.

(** C8 (as amended).  On a replay provider whose cursors point into their
    series, as they do from the constructor on, and for a configured
    symbol with a non-empty series: [peekQuote] returns the quote that a
    directly following [getQuote] returns, in every field but the
    timestamp, and leaves the provider as it is; [getQuote] moves the
    cursor of that symbol by one, modulo the length of its series, and
    leaves every other symbol as it is.  For a symbol that is not
    configured both fail with [UnknownSymbol] and leave the provider as it
    is. *)
Theorem peek_then_get
    (rt : Runtime) (svc : ReplayMarketDataService) (symbol : string) (t1 t2 : Time)
    (Hok : cursors_ok svc) :
  (forall entry,
      symbols svc !! symbol = Some entry ->
      e_series entry <> [] ->
      exists peeked got svc',
        Replay_peekQuote rt svc symbol t1 = (inr peeked, svc)
        /\ Replay_getQuote rt svc symbol t2 = (inr got, svc')
        /\ q_symbol got = q_symbol peeked
        /\ q_bid got = q_bid peeked
        /\ q_ask got = q_ask peeked
        /\ q_mid got = q_mid peeked
        /\ q_spreadBps got = q_spreadBps peeked
        /\ q_volatilityProxy got = q_volatilityProxy peeked
        /\ q_timestamp peeked = t1
        /\ q_timestamp got = t2
        /\ defaultSpreadBps svc' = defaultSpreadBps svc
        /\ symbols svc' !! symbol =
           Some {| e_spreadBps := e_spreadBps entry;
                   e_series := e_series entry;
                   e_index := (e_index entry + 1) mod length (e_series entry) |}
        /\ (forall other, other <> symbol -> symbols svc' !! other = symbols svc !! other))
  /\ (symbols svc !! symbol = None ->
      Replay_peekQuote rt svc symbol t1 = (inl (UnknownSymbol symbol), svc)
      /\ Replay_getQuote rt svc symbol t2 = (inl (UnknownSymbol symbol), svc)).
Proof.
  split.
  - intros entry Hentry Hne.
    pose proof (Hok symbol entry Hentry Hne) as Hlt.
    destruct (nth_error (e_series entry) (e_index entry)) as [mid|] eqn:Em;
      [|apply nth_error_None in Em; lia].
    unfold Replay_peekQuote, Replay_getQuote, Replay_quote.
    rewrite Hentry, Em.
    eexists. eexists. eexists.
    split; [reflexivity|]. split; [reflexivity|].
    cbn [q_symbol q_bid q_ask q_mid q_spreadBps q_volatilityProxy q_timestamp
         defaultSpreadBps symbols].
    repeat split.
    + apply lookup_insert_eq.
    + intros other Hother. apply lookup_insert_ne. congruence.
  - intros Hnone. unfold Replay_peekQuote, Replay_getQuote, Replay_quote.
    rewrite Hnone. split; reflexivity.
Qed.

Lemma peek_then_get_witness :
  (forall entry,
      symbols sample_replay !! "AAPL" = Some entry ->
      e_series entry <> [] ->
      exists peeked got svc',
        Replay_peekQuote sample_rt sample_replay "AAPL" 1%Z = (inr peeked, sample_replay)
        /\ Replay_getQuote sample_rt sample_replay "AAPL" 2%Z = (inr got, svc')
        /\ q_symbol got = q_symbol peeked
        /\ q_bid got = q_bid peeked
        /\ q_ask got = q_ask peeked
        /\ q_mid got = q_mid peeked
        /\ q_spreadBps got = q_spreadBps peeked
        /\ q_volatilityProxy got = q_volatilityProxy peeked
        /\ q_timestamp peeked = 1%Z
        /\ q_timestamp got = 2%Z
        /\ defaultSpreadBps svc' = defaultSpreadBps sample_replay
        /\ symbols svc' !! "AAPL" =
           Some {| e_spreadBps := e_spreadBps entry;
                   e_series := e_series entry;
                   e_index := (e_index entry + 1) mod length (e_series entry) |}
        /\ (forall other, other <> "AAPL" ->
            symbols svc' !! other = symbols sample_replay !! other))
  /\ (symbols sample_replay !! "AAPL" = None ->
      Replay_peekQuote sample_rt sample_replay "AAPL" 1%Z
      = (inl (UnknownSymbol "AAPL"), sample_replay)
      /\ Replay_getQuote sample_rt sample_replay "AAPL" 2%Z
         = (inl (UnknownSymbol "AAPL"), sample_replay)).
Proof.
  apply (peek_then_get sample_rt sample_replay "AAPL" 1%Z 2%Z).
  apply Replay_new_cursors_ok.
Defined.

(** C8, as the claim states it, fails for a configured symbol whose series
    is empty: [series[0]] is undefined, so [peekQuote] and [getQuote] both
    throw a [TypeError] where the claim has them return a quote, and
    [getQuote] leaves the cursor where it was. *)
Lemma get_on_empty_series :
  symbols hollow_replay !! "NONE"
  = Some {| e_spreadBps := Some 8; e_series := []; e_index := 0 |}
  /\ Replay_peekQuote sample_rt hollow_replay "NONE" 1%Z = (inl TypeError, hollow_replay)
  /\ Replay_getQuote sample_rt hollow_replay "NONE" 2%Z = (inl TypeError, hollow_replay).
Proof.
  repeat split.
Qed.

(** ** What a peek leaves unchanged *)

(** One step back through a bind that returned. *)
Ltac bind_inv H :=
  let a := fresh "x" in
  let b1 := fresh "b" in
  let Hs := fresh "Hstep" in
  apply bind_Ret_inv in H as (a & b1 & Hs & H).

Section Quiet.

Lemma quiet_refl (b : Broker) : quiet b b.
Proof. repeat split. Qed.

Lemma quiet_trans (b1 b2 b3 : Broker) : quiet b1 b2 -> quiet b2 b3 -> quiet b1 b3.
Proof. unfold quiet. intros (?&?&?&?) (?&?&?&?). repeat split; congruence. Qed.

Lemma now_quiet (rt : Runtime) (b : Broker) :
  exists t b', now rt b = Ret t b' /\ quiet b b'.
Proof. eexists. eexists. split; [reflexivity|]. repeat split. Qed.

Lemma Replay_peek_now (rt : Runtime) (svc : ReplayMarketDataService) (symbol : string)
    (t : Time) :
  match Replay_quote rt svc symbol false 0%Z with
  | (inr quote0, _) =>
      exists quote, Replay_quote rt svc symbol false t = (inr quote, svc)
                    /\ q_mid quote = q_mid quote0
  | (inl e, _) => Replay_quote rt svc symbol false t = (inl e, svc)
  end.
Proof.
  unfold Replay_quote.
  destruct (symbols svc !! symbol) as [entry|]; [|reflexivity].
  destruct (nth_error (e_series entry) (e_index entry)) as [mid|]; [|reflexivity].
  eexists. split; reflexivity.
Qed.

Lemma set_marketDataService_same (b : Broker) :
  set_marketDataService (marketDataService b) b = b.
Proof. destruct b. reflexivity. Qed.

(** A peek returns the mid [midOf] names and only reads the clock. *)
Lemma peekQuote_Some (rt : Runtime) (symbol : string) (b : Broker) (mid : Q) :
  midOf rt (marketDataService b) symbol = Some mid ->
  exists quote b', peekQuote rt symbol b = Ret quote b' /\ q_mid quote = mid /\ quiet b b'.
Proof.
  unfold midOf, peekQuote, quoteOf.
  destruct (marketDataService b) as [svc|enabled] eqn:Emd; [|discriminate].
  pose proof (Replay_peek_now rt svc symbol (rt_clock rt (clockReads b))) as H.
  destruct (Replay_quote rt svc symbol false 0%Z) as [[e|quote0] svc0]; [discriminate|].
  destruct H as (quote & Hq & Hmid).
  intros [= <-]. rewrite Hq.
  eexists. eexists. split; [reflexivity|]. split; [exact Hmid|].
  repeat split. cbn. symmetry. exact Emd.
Qed.

End Quiet.

(** ** Metrics *)

Section MetricsFacts.

Variable rt : Runtime.

Lemma computeMetrics_loop_sums (values : list Position) :
  forall (longValue shortValue marketValue : Q) (b : Broker),
    (forall p, In p values -> is_Some (midOf rt (marketDataService b) (p_symbol p))) ->
    exists l s m b',
      computeMetrics_loop rt values (longValue, shortValue, marketValue) b = Ret (l, s, m) b'
      /\ quiet b b'
      /\ l == longValue + longValueOf rt (marketDataService b) values
      /\ s == shortValue + shortValueOf rt (marketDataService b) values
      /\ m == marketValue + marketValueOf rt (marketDataService b) values.
Proof.
  induction values as [|p rest IH]; intros longValue shortValue marketValue b Hq.
  - exists longValue, shortValue, marketValue, b.
    split; [reflexivity|]. split; [apply quiet_refl|].
    simpl. repeat split; ring.
  - destruct (Hq p (or_introl eq_refl)) as [mid Hmid].
    destruct (peekQuote_Some rt _ b mid Hmid) as (quote & b1 & Hpeek & Hqm & Hquiet).
    assert (Hmd : marketDataService b1 = marketDataService b) by apply Hquiet.
    assert (Hq1 : forall p0, In p0 rest ->
                    is_Some (midOf rt (marketDataService b1) (p_symbol p0))).
    { intros p0 Hin. rewrite Hmd. apply Hq. right. exact Hin. }
    cbn [computeMetrics_loop]. rewrite (bind_Ret _ _ _ _ _ Hpeek).
    cbn [longValueOf shortValueOf marketValueOf fold_right].
    fold (longValueOf rt (marketDataService b) rest).
    fold (shortValueOf rt (marketDataService b) rest).
    fold (marketValueOf rt (marketDataService b) rest).
    unfold midOr0 at 1 2 3. rewrite Hmid, Hqm.
    destruct (num_ltb 0 (p_quantity p)) eqn:Elong.
    + assert (Eshort : num_ltb (p_quantity p) 0 = false).
      { unfold num_ltb in *. apply negb_true_iff in Elong. apply negb_false_iff.
        apply Qle_bool_iff.
        destruct (Qlt_le_dec 0 (p_quantity p)) as [L|L]; [lra|].
        apply Qle_bool_iff in L. congruence. }
      rewrite Eshort.
      destruct (IH (longValue + p_quantity p * mid) shortValue
                  (marketValue + p_quantity p * mid) b1 Hq1)
        as (l & s & m & b' & Hrun & Hquiet' & Hl & Hs & Hm).
      exists l, s, m, b'. split; [exact Hrun|].
      split; [eapply quiet_trans; eassumption|].
      rewrite Hmd in Hl, Hs, Hm. repeat split; lra.
    + destruct (num_ltb (p_quantity p) 0) eqn:Eshort.
      * destruct (IH longValue (shortValue + Qabs (p_quantity p) * mid)
                    (marketValue + p_quantity p * mid) b1 Hq1)
          as (l & s & m & b' & Hrun & Hquiet' & Hl & Hs & Hm).
        exists l, s, m, b'. split; [exact Hrun|].
        split; [eapply quiet_trans; eassumption|].
        rewrite Hmd in Hl, Hs, Hm. repeat split; lra.
      * destruct (IH longValue shortValue (marketValue + p_quantity p * mid) b1 Hq1)
          as (l & s & m & b' & Hrun & Hquiet' & Hl & Hs & Hm).
        exists l, s, m, b'. split; [exact Hrun|].
        split; [eapply quiet_trans; eassumption|].
        rewrite Hmd in Hl, Hs, Hm. repeat split; lra.
Qed.

(** [#computeMetrics] returns when every position can be quoted, reads
    nothing but the clock, and its fields are the roundings of the sums. *)
Lemma computeMetrics_value (account : Account) (b : Broker) :
  (forall p, In p (pos_values (positions account)) ->
             is_Some (midOf rt (marketDataService b) (p_symbol p))) ->
  let values := pos_values (positions account) in
  let md := marketDataService b in
  exists metrics b',
    computeMetrics rt account b = Ret metrics b'
    /\ quiet b b'
    /\ m_longValue metrics = roundMoney (longValueOf rt md values)
    /\ m_shortValue metrics = roundMoney (shortValueOf rt md values)
    /\ m_marketValue metrics = roundMoney (marketValueOf rt md values)
    /\ m_equity metrics
       = roundMoney (settledCash account + unsettledCash account
                     + marketValueOf rt md values - feesDue account)
    /\ m_initialRequired metrics
       = roundMoney (initialMarginLong (config b) * longValueOf rt md values
                     + initialMarginShort (config b) * shortValueOf rt md values)
    /\ m_maintenanceRequired metrics
       = roundMoney (maintenanceMarginLong (config b) * longValueOf rt md values
                     + maintenanceMarginShort (config b) * shortValueOf rt md values)
    /\ m_availableCash metrics = availableCash account.
Proof.
  intros Hq values md.
  destruct (computeMetrics_loop_sums values 0 0 0 b Hq)
    as (l & s & m & b' & Hrun & Hquiet & Hl & Hs & Hm).
  fold values md in Hl, Hs, Hm.
  unfold computeMetrics. fold values.
  rewrite (bind_Ret _ _ _ _ _ Hrun).
  assert (Hc : config b' = config b) by apply Hquiet.
  eexists. exists b'. split; [reflexivity|]. split; [exact Hquiet|].
  cbn [m_longValue m_shortValue m_marketValue m_equity m_initialRequired
       m_maintenanceRequired m_availableCash].
  rewrite Hc.
  repeat split; try reflexivity; apply roundMoney_comp; rewrite ?Hl, ?Hs, ?Hm; ring.
Qed.

End MetricsFacts.



(** ** What the steps of a method leave unchanged *)

Section Steps.

Variable rt : Runtime.

Lemma unchanged_refl (b : Broker) : unchanged b b.
Proof. repeat split. Qed.

Lemma unchanged_trans (b1 b2 b3 : Broker) :
  unchanged b1 b2 -> unchanged b2 b3 -> unchanged b1 b3.
Proof. unfold unchanged. intros (?&?&?) (?&?&?). repeat split; congruence. Qed.

Lemma quiet_unchanged (b b' : Broker) : quiet b b' -> unchanged b b'.
Proof. intros (?&?&?&?). repeat split; assumption. Qed.

Lemma now_inv (b b' : Broker) (t : Time) :
  now rt b = Ret t b' -> t = rt_clock rt (clockReads b) /\ unchanged b b'.
Proof. intros [= <- <-]. repeat split. Qed.

Lemma rng_inv (b b' : Broker) (r : Q) :
  rng rt b = Ret r b' -> r = rt_random rt (rngDraws b) /\ unchanged b b'.
Proof. intros [= <- <-]. repeat split. Qed.

Lemma getConfig_inv (b b' : Broker) (c : BrokerConfig) :
  getConfig b = Ret c b' -> c = config b /\ b' = b.
Proof. intros [= <- <-]. split; reflexivity. Qed.

Lemma readAccount_inv (ref : string) (b b' : Broker) (account : Account) :
  readAccount ref b = Ret account b' -> accounts b !! ref = Some account /\ b' = b.
Proof.
  unfold readAccount. destruct (accounts b !! ref); [|discriminate].
  intros [= <- <-]. split; reflexivity.
Qed.

Lemma requireAccount_inv (accountId ref : string) (b b' : Broker) :
  requireAccount accountId b = Ret ref b' ->
  ref = accountId /\ b' = b /\ is_Some (accounts b !! accountId).
Proof.
  unfold requireAccount. destruct (accounts b !! accountId) eqn:E; [|discriminate].
  intros [= <- <-]. repeat split. eauto.
Qed.

Lemma writeAccount_inv (ref : string) (f : Account -> Account) (b b' : Broker) (u : unit) :
  writeAccount ref f b = Ret u b' ->
  exists account,
    accounts b !! ref = Some account
    /\ b' = set_accounts (<[ref := f account]> (accounts b)) b.
Proof.
  unfold writeAccount. destruct (accounts b !! ref) as [account|]; [|discriminate].
  intros [= ?]. subst b'. exists account. split; reflexivity.
Qed.

Lemma Replay_quote_state (svc : ReplayMarketDataService) (symbol : string)
    (advance : bool) (t : Time) :
  snd (Replay_quote rt svc symbol advance t) = snd (Replay_quote rt svc symbol advance 0%Z).
Proof.
  unfold Replay_quote.
  destruct (symbols svc !! symbol) as [entry|]; [|reflexivity].
  destruct (nth_error (e_series entry) (e_index entry)); [|reflexivity].
  destruct advance; reflexivity.
Qed.

Lemma getQuote_inv (symbol : string) (b b' : Broker) (quote : Quote) :
  getQuote rt symbol b = Ret quote b' ->
  config b' = config b
  /\ accounts b' = accounts b
  /\ marketDataService b' = advanceCursor rt symbol (marketDataService b).
Proof.
  unfold getQuote, quoteOf, advanceCursor.
  destruct (marketDataService b) as [svc|enabled]; [|destruct enabled; discriminate].
  rewrite <- (Replay_quote_state svc symbol true (rt_clock rt (clockReads b))).
  destruct (Replay_quote rt svc symbol true (rt_clock rt (clockReads b))) as [[e|q] svc'];
    [discriminate|].
  intros [= <- <-]. repeat split.
Qed.

Lemma getQuote_throw (symbol : string) (b b' : Broker) (e : Error) :
  getQuote rt symbol b = Throw e b' -> b' = b.
Proof.
  unfold getQuote, quoteOf.
  destruct (marketDataService b) as [svc|enabled].
  - destruct (Replay_quote rt svc symbol true (rt_clock rt (clockReads b))) as [[e'|q] svc'];
      [|discriminate].
    intros [= _ <-]. reflexivity.
  - destruct enabled; intros [= _ <-]; reflexivity.
Qed.

Lemma peekQuote_inv (symbol : string) (b b' : Broker) (quote : Quote) :
  peekQuote rt symbol b = Ret quote b' ->
  quiet b b' /\ midOf rt (marketDataService b) symbol = Some (q_mid quote).
Proof.
  unfold peekQuote, quoteOf, midOf.
  destruct (marketDataService b) as [svc|enabled] eqn:Emd; [|destruct enabled; discriminate].
  pose proof (Replay_peek_now rt svc symbol (rt_clock rt (clockReads b))) as H.
  destruct (Replay_quote rt svc symbol false 0%Z) as [[e|quote0] svc0].
  - rewrite H. discriminate.
  - destruct H as (q & Hq & Hmid). rewrite Hq. intros [= <- <-].
    split; [|congruence]. repeat split. cbn. symmetry. exact Emd.
Qed.

Lemma computeMetrics_loop_quiet (values : list Position) :
  forall acc b r b', computeMetrics_loop rt values acc b = Ret r b' -> quiet b b'.
Proof.
  induction values as [|p rest IH]; intros acc b r b' H.
  - injection H as _ <-. apply quiet_refl.
  - cbn [computeMetrics_loop] in H.
    apply bind_Ret_inv in H as (quote & b1 & Hpeek & H).
    apply peekQuote_inv in Hpeek as [Hq _].
    destruct acc as [[l s] m].
    destruct (num_ltb 0 (p_quantity p)); [|destruct (num_ltb (p_quantity p) 0)];
      apply IH in H; eapply quiet_trans; eassumption.
Qed.

Lemma computeMetrics_inv (account : Account) (b b' : Broker) (metrics : Metrics) :
  computeMetrics rt account b = Ret metrics b' -> quiet b b'.
Proof.
  unfold computeMetrics. intros H.
  apply bind_Ret_inv in H as ([[l s] m] & b1 & Hloop & H).
  apply computeMetrics_loop_quiet in Hloop.
  apply bind_Ret_inv in H as (c & b2 & Hc & H).
  apply getConfig_inv in Hc as [-> ->].
  destruct (calculateMarginRequirements _ _ _). injection H as _ <-. exact Hloop.
Qed.

End Steps.

(** ** The phases of [placeOrder] *)

Section Phases.

Variable rt : Runtime.
Variable rec : string -> RawOrder -> M Order.

Lemma rejectOrder_inv (ref : string) (base : Order) (reason : string)
    (b b' : Broker) (o : Order) :
  rejectOrder ref base reason b = Ret o b' ->
  o = rejected base reason
  /\ exists account,
       accounts b !! ref = Some account
       /\ b' = set_accounts (<[ref := unshiftOrder o account]> (accounts b)) b.
Proof.
  unfold rejectOrder. intros H. bind_inv H.
  apply writeAccount_inv in Hstep as (account & Ha & ->).
  injection H as <- <-. split; [reflexivity|]. exists account. split; [exact Ha | reflexivity].
Qed.

Lemma parkOrder_inv (ref : string) (base : Order) (b b' : Broker) (o : Order) :
  parkOrder ref base b = Ret o b' ->
  o = base
  /\ exists account,
       accounts b !! ref = Some account
       /\ b' = set_accounts (<[ref := unshiftOrder o account]> (accounts b)) b.
Proof.
  unfold parkOrder. intros H. bind_inv H.
  apply writeAccount_inv in Hstep as (account & Ha & ->).
  injection H as <- <-. split; [reflexivity|]. exists account. split; [exact Ha | reflexivity].
Qed.

Lemma returned_inv {A : Type} (m : M Order) (b b' : Broker) (r : Order + A) :
  returned m b = Ret r b' -> exists o, r = inl o /\ m b = Ret o b'.
Proof.
  unfold returned. intros H. bind_inv H. injection H as <- <-.
  exists x. split; [reflexivity | exact Hstep].
Qed.

Lemma attempt_inv {A : Type} (m : M A) (b b' : Broker) (r : Error + A) :
  attempt m b = Ret r b' ->
  match r with
  | inr a => m b = Ret a b'
  | inl e => m b = Throw e b'
  end.
Proof.
  unfold attempt. destruct (m b); intros H; try discriminate; injection H as <- <-; reflexivity.
Qed.

(** What [placeOrder] has done when lines 231-281 end: the refresh, and
    then either one order put in front of the order history, rejected or
    parked as it was built, or nothing at all on the accounts. *)
Lemma placeOrder_intake_inv (accountId : string) (rawOrder : RawOrder)
    (b b' : Broker) (r : Order + Intake) :
  placeOrder_intake rt rec accountId rawOrder b = Ret r b' ->
  let symbol := n_symbol (normalizeOrderInput rawOrder) in
  exists b1 account base,
    refreshAccount rt rec accountId b = Ret tt b1
    /\ accounts b1 !! accountId = Some account
    /\ o_status base = OPEN
    /\ config b' = config b1
    /\ match r with
       | inl o =>
           (o = base \/ exists reason, o = rejected base reason)
           /\ accounts b' = <[accountId := unshiftOrder o account]> (accounts b1)
           /\ (marketDataService b' = marketDataService b1
               \/ marketDataService b' = advanceCursor rt symbol (marketDataService b1))
       | inr ctx =>
           accounts b' = accounts b1
           /\ marketDataService b' = advanceCursor rt symbol (marketDataService b1)
           /\ i_ref ctx = accountId
           /\ i_baseOrder ctx = base
           /\ i_order ctx = normalizeOrderInput rawOrder
           /\ i_bypassMarginCheck ctx = r_bypassMarginCheck rawOrder
           /\ validateOrderByType (i_order ctx) = None
           /\ i_triggerState ctx <> PENDING_TRIGGER
           /\ i_triggerState ctx <> PENDING_LIMIT
           /\ exists quote, i_triggerState ctx = evaluateTrigger (i_order ctx) quote
       end.
Proof.
  intros H symbol. unfold placeOrder_intake in H.
  bind_inv H. apply requireAccount_inv in Hstep as (-> & -> & _).
  bind_inv H. destruct x. rename b0 into b1, Hstep into Hrefresh.
  bind_inv H. apply readAccount_inv in Hstep as (Hacc & ->). rename x into account.
  bind_inv H. apply now_inv in Hstep as (-> & U1).
  bind_inv H. apply rng_inv in Hstep as (-> & U2).
  bind_inv H. apply now_inv in Hstep as (-> & U3).
  assert (U : unchanged b1 b3) by (eauto using unchanged_trans).
  clear U1 U2 U3.
  set (base := baseOrderOf account (normalizeOrderInput rawOrder) _ _ _) in H.
  exists b1, account, base.
  split; [exact Hrefresh|]. split; [exact Hacc|]. split; [reflexivity|].
  destruct U as (Uc & Um & Ua).
  assert (Hrej : forall reason bb o bb',
             config bb = config b1 -> accounts bb = accounts b1 ->
             rejectOrder accountId base reason bb = Ret o bb' ->
             config bb' = config b1
             /\ (o = base \/ exists reason, o = rejected base reason)
             /\ accounts bb' = <[accountId := unshiftOrder o account]> (accounts b1)
             /\ marketDataService bb' = marketDataService bb).
  { intros reason bb o bb' Hc Ha Hr.
    apply rejectOrder_inv in Hr as (-> & a & Hl & ->).
    rewrite Ha, Hacc in Hl. injection Hl as <-.
    cbn. rewrite Ha. repeat split; eauto. }
  assert (Hpark : forall bb o bb',
             config bb = config b1 -> accounts bb = accounts b1 ->
             parkOrder accountId base bb = Ret o bb' ->
             config bb' = config b1
             /\ (o = base \/ exists reason, o = rejected base reason)
             /\ accounts bb' = <[accountId := unshiftOrder o account]> (accounts b1)
             /\ marketDataService bb' = marketDataService bb).
  { intros bb o bb' Hc Ha Hr.
    apply parkOrder_inv in Hr as (-> & a & Hl & ->).
    rewrite Ha, Hacc in Hl. injection Hl as <-.
    cbn. rewrite Ha. repeat split; eauto. }
  destruct (validateOrderByType (normalizeOrderInput rawOrder)) as [err|] eqn:Ev.
  { apply returned_inv in H as (o & -> & H).
    apply Hrej in H as (? & ? & ? & Hm); [|assumption..].
    repeat split; try assumption. left. congruence. }
  bind_inv H. apply getConfig_inv in Hstep as (-> & ->).
  bind_inv H. apply now_inv in Hstep as (-> & (Uc4 & Um4 & Ua4)).
  destruct (negb (isMarketOpen (config b3) _)).
  { apply returned_inv in H as (o & -> & H).
    apply Hrej in H as (? & ? & ? & Hm); [|congruence..].
    repeat split; try assumption. left. congruence. }
  bind_inv H. rename x into quoted. apply attempt_inv in Hstep.
  destruct quoted as [e|quote].
  { apply getQuote_throw in Hstep as ->.
    apply returned_inv in H as (o & -> & H).
    apply Hrej in H as (? & ? & ? & Hm); [|congruence..].
    repeat split; try assumption. left. congruence. }
  apply getQuote_inv in Hstep as (Uc5 & Ua5 & Um5).
  fold symbol in Um5.
  bind_inv H. rename x into deficient.
  assert (U6 : unchanged b5 b6).
  { destruct (r_bypassMarginCheck rawOrder).
    - injection Hstep as _ <-. apply unchanged_refl.
    - bind_inv Hstep. apply readAccount_inv in Hstep0 as (_ & ->).
      bind_inv Hstep. apply computeMetrics_inv in Hstep0.
      injection Hstep as _ <-. apply quiet_unchanged, Hstep0. }
  destruct U6 as (Uc6 & Um6 & Ua6).
  assert (Hmd : marketDataService b6 = advanceCursor rt symbol (marketDataService b1))
    by congruence.
  destruct deficient.
  { apply returned_inv in H as (o & -> & H).
    apply Hrej in H as (? & ? & ? & Hm); [|congruence..].
    repeat split; try assumption. right. rewrite Hm. exact Hmd. }
  destruct (evaluateTrigger (normalizeOrderInput rawOrder) quote) eqn:Et.
  - injection H as <- <-. cbn. repeat split; try congruence; try exact Hmd.
    exists quote. symmetry. exact Et.
  - apply returned_inv in H as (o & -> & H).
    apply Hpark in H as (? & ? & ? & Hm); [|congruence..].
    repeat split; try assumption. right. rewrite Hm. exact Hmd.
  - apply returned_inv in H as (o & -> & H).
    apply Hpark in H as (? & ? & ? & Hm); [|congruence..].
    repeat split; try assumption. right. rewrite Hm. exact Hmd.
  - injection H as <- <-. cbn. repeat split; try congruence; try exact Hmd.
    exists quote. symmetry. exact Et.
  - injection H as <- <-. cbn. repeat split; try congruence; try exact Hmd.
    exists quote. symmetry. exact Et.
Qed.


Lemma validate_types (order : OrderInput) :
  validateOrderByType order = None ->
  n_type order = "MARKET" \/ n_type order = "LIMIT"
  \/ n_type order = "STOP" \/ n_type order = "STOP_LIMIT".
Proof.
  unfold validateOrderByType.
  destruct (has VALID_TYPES (n_type order)) eqn:E; [|discriminate].
  intros _. unfold has, VALID_TYPES in E. cbn [existsb] in E.
  rewrite !orb_true_iff, !String.eqb_eq in E.
  destruct E as [E|[E|[E|[E|E]]]]; try discriminate; rewrite E; tauto.
Qed.



End Phases.




Section Rejection.

Variable rt : Runtime.
Variable rec : string -> RawOrder -> M Order.

(** The order lines 308-332 return is the filled one. *)
Lemma placeOrder_record_status (ctx : Intake) (matched : Matched)
    (fillPrice notional fees : Q) (b b' : Broker) (o : Order) :
  placeOrder_record rt rec ctx matched fillPrice notional fees b = Ret o b' ->
  o_status o = FILLED.
Proof.
  unfold placeOrder_record. intros H.
  do 8 bind_inv H. injection H as <- _. reflexivity.
Qed.

Lemma simulatePostTrade_inv (ref : string) (order : OrderInput)
    (fillPrice notional fees : Q) (b b' : Broker) (simulation : Simulation) :
  simulatePostTrade rt ref order fillPrice notional fees b = Ret simulation b' ->
  unchanged b b'
  /\ (sim_ok simulation = false -> sim_reason simulation = Some insufficient).
Proof.
  unfold simulatePostTrade. intros H.
  apply bind_Ret_inv in H as (account & s1 & Hs & H).
  apply readAccount_inv in Hs as (_ & ->).
  apply bind_Ret_inv in H as (c & s2 & Hs & H).
  apply getConfig_inv in Hs as (-> & ->).
  apply bind_Ret_inv in H as (t & s3 & Hs & H).
  apply now_inv in Hs as (-> & U1).
  apply bind_Ret_inv in H as (metrics & s4 & Hs & H).
  apply computeMetrics_inv, quiet_unchanged in Hs.
  assert (U : unchanged b s4) by (eapply unchanged_trans; eassumption).
  destruct (num_ltb _ 0); [|destruct (num_ltb _ _)];
    injection H as <- <-; (split; [exact U|]); cbn; congruence.
Qed.

(** A rejection in lines 299-332 comes from the simulation and leaves one
    order in front of the order history, nothing else. *)
Lemma placeOrder_settle_rejected (ctx : Intake) (matched : Matched)
    (fillPrice notional fees : Q) (b b' : Broker) (o : Order) (account : Account) :
  placeOrder_settle rt rec ctx matched fillPrice notional fees b = Ret o b' ->
  o_status o = REJECTED ->
  accounts b !! i_ref ctx = Some account ->
  i_bypassMarginCheck ctx = false
  /\ o = rejected (i_baseOrder ctx) insufficient
  /\ accounts b' = <[i_ref ctx := unshiftOrder o account]> (accounts b)
  /\ config b' = config b
  /\ marketDataService b' = marketDataService b.
Proof.
  unfold placeOrder_settle. intros H Hrej Ha.
  bind_inv H. rename x into simulation.
  assert (Hsim : unchanged b b0
                 /\ (sim_ok simulation = false ->
                     i_bypassMarginCheck ctx = false
                     /\ sim_reason simulation = Some insufficient)).
  { destruct (i_bypassMarginCheck ctx).
    - injection Hstep as <- <-. split; [apply unchanged_refl | discriminate].
    - apply simulatePostTrade_inv in Hstep as (U & Hr). split; [exact U|]. auto. }
  destruct Hsim as ((Uc & Um & Ua) & Hbad).
  destruct (sim_ok simulation).
  - cbn [negb] in H. bind_inv H.
    apply placeOrder_record_status in H. congruence.
  - cbn [negb] in H. destruct (Hbad eq_refl) as (Hb & Hr). rewrite Hr in H.
    apply rejectOrder_inv in H as (-> & a & Hl & ->).
    rewrite Ua, Ha in Hl. injection Hl as <-.
    cbn. rewrite Ua. repeat split; assumption.
Qed.

Lemma placeOrder_fill_rejected (ctx : Intake) (matched : Matched)
    (b b' : Broker) (o : Order) (account : Account) :
  placeOrder_fill rt rec ctx matched b = Ret o b' ->
  o_status o = REJECTED ->
  accounts b !! i_ref ctx = Some account ->
  i_bypassMarginCheck ctx = false
  /\ o = rejected (i_baseOrder ctx) insufficient
  /\ accounts b' = <[i_ref ctx := unshiftOrder o account]> (accounts b)
  /\ config b' = config b
  /\ marketDataService b' = marketDataService b.
Proof.
  unfold placeOrder_fill, calcSlippageBps. intros H Hrej Ha.
  bind_inv H. apply getConfig_inv in Hstep as (-> & ->).
  bind_inv H. bind_inv Hstep. apply rng_inv in Hstep0 as (-> & (Uc & Um & Ua)).
  injection Hstep as <- <-.
  rewrite <- Ua in Ha.
  destruct (placeOrder_settle_rejected _ _ _ _ _ _ _ _ _ H Hrej Ha) as (? & ? & ? & ? & ?).
  repeat split; congruence.
Qed.

End Rejection.

(** C10.  A call of [placeOrder] that returns a REJECTED order has, after
    its opening refresh, changed nothing of the broker's accounts but the
    order history of the account, which has the returned order in front:
    balances, positions, fills and pending settlements of the account and
    all other accounts are as the refresh left them.  The cursor of the
    order's symbol stands where the refresh left it, or one or two quotes
    further. *)
Theorem rejection_is_atomic
    (rt : Runtime) (fuel : nat) (accountId : string) (rawOrder : RawOrder)
    (b b' : Broker) (o : Order)
    (Hrun : placeOrder rt (S fuel) accountId rawOrder b = Ret o b')
    (Hrejected : o_status o = REJECTED) :
  let symbol := n_symbol (normalizeOrderInput rawOrder) in
  exists b1 account,
    refreshAccount rt (placeOrder rt fuel) accountId b = Ret tt b1
    /\ accounts b1 !! accountId = Some account
    /\ accounts b' = <[accountId := set_orders (o :: orders account) account]> (accounts b1)
    /\ same_holdings account (set_orders (o :: orders account) account)
    /\ config b' = config b1
    /\ (marketDataService b' = marketDataService b1
        \/ marketDataService b' = advanceCursor rt symbol (marketDataService b1)
        \/ marketDataService b'
           = advanceCursor rt symbol (advanceCursor rt symbol (marketDataService b1))).
Proof.
  intros symbol. cbn [placeOrder] in Hrun. unfold placeOrder_body in Hrun.
  apply bind_Ret_inv in Hrun as (r & b2 & Hintake & Hrun).
  pose proof (placeOrder_intake_inv rt _ accountId rawOrder b b2 r Hintake) as Hinv.
  cbv zeta in Hinv. fold symbol in Hinv.
  destruct Hinv as (b1 & account & base & Hrefresh & Hacc & Hopen & Hcfg & Hr).
  exists b1, account. split; [exact Hrefresh|]. split; [exact Hacc|].
  destruct r as [o'|ctx].
  - injection Hrun as <- <-.
    destruct Hr as ([->|(reason & ->)] & Ha & Hmd); [congruence|].
    split; [exact Ha|]. split; [repeat split|]. split; [exact Hcfg|].
    destruct Hmd; auto.
  - destruct Hr as (Ha & Hmd & Href & Hbase & Horder & _).
    apply bind_Ret_inv in Hrun as (r2 & b3 & Hmatch & Hrun).
    unfold placeOrder_match in Hmatch.
    apply bind_Ret_inv in Hmatch as (quote & b4 & Hquote & Hmatch).
    apply getQuote_inv in Hquote as (Hc4 & Ha4 & Hm4).
    rewrite Horder in Hm4. fold symbol in Hm4.
    destruct (negb _).
    + apply returned_inv in Hmatch as (o' & -> & Hpark).
      apply parkOrder_inv in Hpark as (-> & _).
      injection Hrun as <- _. congruence.
    + injection Hmatch as <- <-.
      assert (Ha3 : accounts b4 !! i_ref ctx = Some account) by congruence.
      destruct (placeOrder_fill_rejected rt _ _ _ _ _ _ _ Hrun Hrejected Ha3)
        as (_ & _ & Hacc' & Hc' & Hm').
      split; [rewrite Hacc', Href, Ha4, Ha; reflexivity|].
      split; [repeat split|]. split; [congruence|].
      right. right. rewrite Hm', Hm4, Hmd. reflexivity.
Qed.

Lemma rejection_is_atomic_witness :
  exists o b',
    placeOrder sample_rt 1 "ACC-1" (largeOrder false) poor_broker = Ret o b'
    /\ o_status o = REJECTED
    /\ o_reason o = Some insufficient
    /\ exists b1 account,
         refreshAccount sample_rt (placeOrder sample_rt 0) "ACC-1" poor_broker = Ret tt b1
         /\ accounts b1 !! "ACC-1" = Some account
         /\ accounts b'
            = <["ACC-1" := set_orders (o :: orders account) account]> (accounts b1)
         /\ same_holdings account (set_orders (o :: orders account) account)
         /\ config b' = config b1
         /\ (marketDataService b' = marketDataService b1
             \/ marketDataService b' = advanceCursor sample_rt "AAPL" (marketDataService b1)
             \/ marketDataService b'
                = advanceCursor sample_rt "AAPL"
                    (advanceCursor sample_rt "AAPL" (marketDataService b1))).
Proof.
  let r := eval vm_compute in
    (placeOrder sample_rt 1 "ACC-1" (largeOrder false) poor_broker) in
  lazymatch r with
  | Ret ?o ?b' =>
      exists o, b';
      assert (H1 : placeOrder sample_rt 1 "ACC-1" (largeOrder false) poor_broker = Ret o b')
        by (vm_compute; reflexivity);
      split; [exact H1|]; split; [reflexivity|]; split; [reflexivity|];
      exact (rejection_is_atomic sample_rt 0 "ACC-1" (largeOrder false) poor_broker b' o
               H1 eq_refl)
  end.
Defined.

(** ** The post-trade simulation *)

Section Simulation.

Variable rt : Runtime.
Variable rec : string -> RawOrder -> M Order.

Lemma num_ltb_lt (x y : Q) : num_ltb x y = true <-> x < y.
Proof.
  unfold num_ltb. rewrite negb_true_iff. split; intros H.
  - destruct (Qlt_le_dec x y) as [L|L]; [exact L|].
    apply Qle_bool_iff in L. congruence.
  - destruct (Qle_bool y x) eqn:E; [|reflexivity]. apply Qle_bool_iff in E. lra.
Qed.

Lemma getConfig_run {A : Type} (k : BrokerConfig -> M A) (b : Broker) :
  (getConfig ≫= k) b = k (config b) b.
Proof. reflexivity. Qed.

Lemma now_run {A : Type} (k : Time -> M A) (b : Broker) :
  (now rt ≫= k) b = k (rt_clock rt (clockReads b)) (set_clockReads (S (clockReads b)) b).
Proof. reflexivity. Qed.

Lemma rng_run {A : Type} (k : Q -> M A) (b : Broker) :
  (rng rt ≫= k) b = k (rt_random rt (rngDraws b)) (set_rngDraws (S (rngDraws b)) b).
Proof. reflexivity. Qed.

Lemma readAccount_run (ref : string) (b : Broker) (account : Account) :
  accounts b !! ref = Some account -> readAccount ref b = Ret account b.
Proof. intros H. unfold readAccount. rewrite H. reflexivity. Qed.

Lemma writeAccount_run (ref : string) (f : Account -> Account) (b : Broker)
    (account : Account) :
  accounts b !! ref = Some account ->
  writeAccount ref f b = Ret tt (set_accounts (<[ref := f account]> (accounts b)) b).
Proof. intros H. unfold writeAccount. rewrite H. reflexivity. Qed.


End Simulation.




(** ** Forced liquidation *)

Section Micro.

Lemma micro_roundMoney (x : Q) : micro (roundMoney x).
Proof. exists (toFixed6 x). reflexivity. Qed.

Lemma micro_0 : micro 0.
Proof. exists 0%Z. reflexivity. Qed.

Lemma micro_plus (x y : Q) : micro x -> micro y -> micro (x + y).
Proof.
  intros [n Hn] [m Hm]. exists (n + m)%Z. rewrite Hn, Hm.
  unfold Qeq, Qplus. cbn [Qnum Qden]. lia.
Qed.

Lemma micro_minus (x y : Q) : micro x -> micro y -> micro (x - y).
Proof.
  intros [n Hn] [m Hm]. exists (n - m)%Z. rewrite Hn, Hm.
  unfold Qeq, Qminus, Qplus, Qopp. cbn [Qnum Qden]. lia.
Qed.

(** Rounding an amount of at most six decimals changes nothing. *)
Lemma roundMoney_micro (x : Q) : micro x -> roundMoney x == x.
Proof.
  intros [n Hn]. rewrite (roundMoney_comp _ _ Hn), Hn.
  unfold roundMoney. rewrite toFixed6_micro. reflexivity.
Qed.

End Micro.

Section ForcedLiquidation.

Variable rt : Runtime.
Variable ref : string.
Variable config0 : BrokerConfig.
Variable md0 : MarketDataService.
Variable ps : list (string * Position).
Variables unsettled net : Q.

Hypothesis Henabled : forceLiquidationEnabled config0 = true.
Hypothesis Hheld : ps <> [].
Hypothesis Hdeficient :
  roundMoney (net + unsettled + marketValueOf rt md0 (pos_values ps))
  < roundMoney
      (maintenanceMarginLong config0 * longValueOf rt md0 (pos_values ps)
       + maintenanceMarginShort config0 * shortValueOf rt md0 (pos_values ps)).

Let holding := holding_state rt ref config0 md0 ps unsettled net.
Let holds := holding_account ref ps unsettled net.

Lemma holding_unchanged (b b' : Broker) : unchanged b b' -> holding b -> holding b'.
Proof.
  intros (Uc & Um & Ua) (Hc & Hm & Hq & account & Ha & Hacc).
  split; [congruence|]. split; [congruence|]. split; [exact Hq|].
  exists account. split; [congruence | exact Hacc].
Qed.

Lemma holding_write (f : Account -> Account) (b : Broker) :
  (forall a, holds a -> holds (f a)) ->
  holding b ->
  exists b', writeAccount ref f b = Ret tt b' /\ holding b'.
Proof.
  intros Hf (Hc & Hm & Hq & account & Ha & Hacc).
  eexists. split; [apply (writeAccount_run ref f b account Ha)|].
  split; [exact Hc|]. split; [exact Hm|]. split; [exact Hq|].
  exists (f account). split; [apply lookup_insert_eq | apply Hf, Hacc].
Qed.

Lemma settle_holds (t : Time) (a : Account) : holds a -> holds (settleDueEntries t a).
Proof.
  intros (Hid & Hp & Hpos & Hu & Hs & Hf & Hnet).
  unfold settleDueEntries. rewrite Hp. cbn [splitDue fold_left].
  destruct (num_ltb 0 (feesDue (set_pendingSettlements [] a))).
  - repeat split; cbn; try assumption.
    + apply micro_roundMoney.
    + apply micro_0.
    + rewrite (roundMoney_micro _ (micro_minus _ _ Hs Hf)). lra.
  - repeat split; cbn; assumption.
Qed.

Lemma borrow_holds (fee : Q) (a : Account) :
  0 < roundMoney fee ->
  holds a -> holds (set_feesDue (roundMoney (feesDue a + roundMoney fee)) a).
Proof.
  intros Hfee (Hid & Hp & Hpos & Hu & Hs & Hf & Hnet).
  repeat split; cbn; try assumption.
  - apply micro_roundMoney.
  - rewrite (roundMoney_micro _ (micro_plus _ _ Hf (micro_roundMoney fee))). lra.
Qed.

Lemma date_holds (today : IsoDate) (a : Account) :
  holds a -> holds (set_lastBorrowFeeDate today a).
Proof. intros H. exact H. Qed.

Lemma shortValue_loop_total (values : list Position) :
  forall (shortValue : Q) (b : Broker),
    (forall p, In p values -> is_Some (midOf rt (marketDataService b) (p_symbol p))) ->
    exists shortValue' b',
      shortValue_loop rt values shortValue b = Ret shortValue' b' /\ quiet b b'.
Proof.
  induction values as [|p rest IH]; intros shortValue b Hq.
  - exists shortValue, b. split; [reflexivity | apply quiet_refl].
  - cbn [shortValue_loop].
    destruct (num_leb 0 (p_quantity p)).
    + apply IH. intros p0 Hin. apply Hq. right. exact Hin.
    + destruct (Hq p (or_introl eq_refl)) as [mid Hmid].
      destruct (peekQuote_Some rt _ b mid Hmid) as (quote & b1 & Hpeek & _ & Hquiet).
      rewrite (bind_Ret _ _ _ _ _ Hpeek).
      destruct (IH (shortValue + Qabs (p_quantity p) * q_mid quote) b1)
        as (sv & b' & Hrun & Hquiet').
      { intros p0 Hin. replace (marketDataService b1) with (marketDataService b)
          by (symmetry; apply Hquiet). apply Hq. right. exact Hin. }
      exists sv, b'. split; [exact Hrun | eapply quiet_trans; eassumption].
Qed.

Lemma withValue_loop_total (values : list Position) :
  forall (b : Broker),
    (forall p, In p values -> is_Some (midOf rt (marketDataService b) (p_symbol p))) ->
    exists withValue b',
      withValue_loop rt values b = Ret withValue b'
      /\ quiet b b'
      /\ length withValue = length values.
Proof.
  induction values as [|p rest IH]; intros b Hq.
  - exists [], b. split; [reflexivity|]. split; [apply quiet_refl | reflexivity].
  - cbn [withValue_loop].
    destruct (Hq p (or_introl eq_refl)) as [mid Hmid].
    destruct (peekQuote_Some rt _ b mid Hmid) as (quote & b1 & Hpeek & _ & Hquiet).
    rewrite (bind_Ret _ _ _ _ _ Hpeek).
    destruct (IH b1) as (others & b' & Hrun & Hquiet' & Hlen).
    { intros p0 Hin. replace (marketDataService b1) with (marketDataService b)
        by (symmetry; apply Hquiet). apply Hq. right. exact Hin. }
    rewrite (bind_Ret _ _ _ _ _ Hrun).
    eexists. exists b'. split; [reflexivity|].
    split; [eapply quiet_trans; eassumption|]. cbn. rewrite Hlen. reflexivity.
Qed.

Lemma insertByValue_length (x : Position * Q) (sorted : list (Position * Q)) :
  length (insertByValue x sorted) = S (length sorted).
Proof.
  induction sorted as [|y rest IH]; [reflexivity|].
  cbn [insertByValue]. destruct (num_leb (snd y) (snd x)); cbn; [|rewrite IH]; reflexivity.
Qed.

Lemma sortByValue_length (l : list (Position * Q)) :
  length (sortByValue l) = length l.
Proof.
  induction l as [|x rest IH]; [reflexivity|].
  cbn [sortByValue fold_right]. fold (sortByValue rest).
  rewrite insertByValue_length, IH. reflexivity.
Qed.


Lemma holding_account_of (b : Broker) :
  holding b ->
  exists account,
    accounts b !! ref = Some account
    /\ holds account
    /\ (forall p, In p (pos_values (positions account)) ->
                  is_Some (midOf rt (marketDataService b) (p_symbol p))).
Proof.
  intros (Hc & Hm & Hq & account & Ha & Hacc).
  exists account. split; [exact Ha|]. split; [exact Hacc|].
  destruct Hacc as (_ & _ & Hpos & _). rewrite Hpos, Hm. exact Hq.
Qed.

Lemma borrow_step (b : Broker) :
  holding b -> exists b', applyBorrowFeesIfNeeded rt ref b = Ret tt b' /\ holding b'.
Proof.
  intros H. unfold applyBorrowFeesIfNeeded. rewrite now_run.
  set (b1 := set_clockReads (S (clockReads b)) b).
  assert (H1 : holding b1) by (apply (holding_unchanged b); [repeat split | exact H]).
  destruct (holding_account_of b1 H1) as (account & Ha & Hacc & Hq).
  rewrite (bind_Ret _ _ _ _ _ (readAccount_run _ _ _ Ha)).
  destruct (lastBorrowFeeDate account =? _)%Z.
  { exists b1. split; [reflexivity | exact H1]. }
  destruct (countDays _ _ _ _ <=? 0)%Z.
  { apply holding_write; [apply date_holds | exact H1]. }
  destruct (shortValue_loop_total (pos_values (positions account)) 0 b1 Hq)
    as (shortValue & b2 & Hloop & Hquiet).
  rewrite (bind_Ret _ _ _ _ _ Hloop), getConfig_run.
  assert (H2 : holding b2) by (apply (holding_unchanged b1); [apply quiet_unchanged|]; assumption).
  destruct (num_ltb 0 (roundMoney _)) eqn:Efee.
  - apply num_ltb_lt in Efee.
    destruct (holding_write _ b2 (fun a => borrow_holds _ a Efee) H2) as (b3 & Hw & H3).
    rewrite (bind_Ret _ _ _ _ _ Hw).
    apply holding_write; [apply date_holds | exact H3].
  - rewrite bind_unfold. cbn [mret M_ret ret].
    apply holding_write; [apply date_holds | exact H2].
Qed.

Lemma metrics_step (b : Broker) (account : Account) :
  holding b ->
  accounts b !! ref = Some account ->
  exists metrics b',
    computeMetrics rt account b = Ret metrics b'
    /\ quiet b b'
    /\ hasMaintenanceDeficiency metrics = true.
Proof.
  intros H Ha.
  destruct (holding_account_of b H) as (account' & Ha' & Hacc & Hq).
  rewrite Ha in Ha'. injection Ha' as <-.
  destruct H as (Hc & Hm & _).
  destruct (computeMetrics_value rt account b Hq)
    as (metrics & b' & Hrun & Hquiet & _ & _ & _ & Heq & _ & Hmr & _).
  exists metrics, b'. split; [exact Hrun|]. split; [exact Hquiet|].
  unfold hasMaintenanceDeficiency. apply num_ltb_lt.
  rewrite Heq, Hmr, Hc, Hm.
  destruct Hacc as (_ & _ & Hpos & Hu & _ & _ & Hnet). rewrite Hpos, Hu.
  eapply Qle_lt_trans; [|exact Hdeficient].
  apply roundMoney_mono. lra.
Qed.

(** With the forced liquidation enabled, the refresh of an account that
    holds a position while its equity is below the maintenance requirement
    does not return: it calls [placeOrder], which starts with the refresh
    of the same account in the same deficiency. *)
Lemma refresh_diverges (fuel : nat) :
  forall b, holding b -> refreshAccount rt (placeOrder rt fuel) ref b = Diverge.
Proof.
  induction fuel as [|fuel IH]; intros b H.
  all: unfold refreshAccount; rewrite now_run.
  all: set (b1 := set_clockReads (S (clockReads b)) b).
  all: assert (H1 : holding b1) by (apply (holding_unchanged b); [repeat split | exact H]).
  all: destruct (holding_write (settleDueEntries (rt_clock rt (clockReads b))) b1
                   (settle_holds _) H1) as (b2 & Hw & H2).
  all: rewrite (bind_Ret _ _ _ _ _ Hw).
  all: destruct (borrow_step b2 H2) as (b3 & Hb & H3).
  all: rewrite (bind_Ret _ _ _ _ _ Hb), getConfig_run.
  all: replace (config b3) with config0 by (symmetry; apply H3).
  all: rewrite Henabled.
  all: destruct (holding_account_of b3 H3) as (account & Ha & Hacc & Hq).
  all: rewrite (bind_Ret _ _ _ _ _ (readAccount_run _ _ _ Ha)).
  all: destruct (metrics_step b3 account H3 Ha) as (metrics & b4 & Hm & Hquiet & Hdef).
  all: rewrite (bind_Ret _ _ _ _ _ Hm), Hdef.
  all: assert (H4 : holding b4)
    by (apply (holding_unchanged b3); [apply quiet_unchanged|]; assumption).
  all: unfold forceLiquidateLargestPosition.
  all: destruct (holding_account_of b4 H4) as (account4 & Ha4 & Hacc4 & Hq4).
  all: rewrite (bind_Ret _ _ _ _ _ (readAccount_run _ _ _ Ha4)).
  all: assert (Hlen : length (pos_values (positions account4)) <> 0%nat)
    by (destruct Hacc4 as (_ & _ & -> & _); unfold pos_values; rewrite length_map;
        destruct ps; [contradiction | discriminate]).
  all: apply Nat.eqb_neq in Hlen; rewrite Hlen.
  all: destruct (withValue_loop_total (pos_values (positions account4)) b4 Hq4)
    as (withValue & b5 & Hwv & Hquiet5 & Hlen5).
  all: rewrite (bind_Ret _ _ _ _ _ Hwv).
  all: assert (H5 : holding b5)
    by (apply (holding_unchanged b4); [apply quiet_unchanged|]; assumption).
  all: pose proof (sortByValue_length withValue) as Hsort.
  all: destruct (sortByValue withValue) as [|[target value] others];
    [apply Nat.eqb_neq in Hlen; cbn in Hsort; congruence|].
  all: replace (id account4) with ref by (symmetry; apply Hacc4).
  all: rewrite bind_unfold.
  - reflexivity.
  - change (placeOrder rt (S fuel)) with (placeOrder_body rt (placeOrder rt fuel)).
    unfold placeOrder_body, placeOrder_intake.
    destruct (holding_account_of b5 H5) as (account5 & Ha5 & _).
    assert (Hreq : requireAccount ref b5 = Ret ref b5)
      by (unfold requireAccount; rewrite Ha5; reflexivity).
    rewrite bind_unfold, (bind_Ret _ _ _ _ _ Hreq), bind_unfold, (IH b5 H5). reflexivity.
Qed.

End ForcedLiquidation.

(** C5 does not hold of the code.  With the forced liquidation enabled,
    on an account that holds at least one position, all of them quoted,
    that has no settlement pending and whose equity is below the
    maintenance requirement, the refresh never gets to an answer of the
    internal order: the [placeOrder] it calls starts with a refresh of the
    same account, which finds the same deficiency and calls [placeOrder]
    again, to any depth.  So the refresh does not return, and neither do
    [getAccount] and [placeOrder] on that account. *)
Theorem forced_liquidation_never_returns
    (rt : Runtime) (ref : string) (b : Broker) (account : Account) (fuel : nat)
    (Henabled : forceLiquidationEnabled (config b) = true)
    (Haccount : accounts b !! ref = Some account)
    (Hid : id account = ref)
    (Hheld : positions account <> [])
    (Hquoted : forall p, In p (pos_values (positions account)) ->
                         is_Some (midOf rt (marketDataService b) (p_symbol p)))
    (Hsettled : pendingSettlements account = [])
    (Hrounded : micro (settledCash account) /\ micro (feesDue account))
    (Hdeficient :
       roundMoney
         (settledCash account + unsettledCash account
          + marketValueOf rt (marketDataService b) (pos_values (positions account))
          - feesDue account)
       < roundMoney
           (maintenanceMarginLong (config b)
            * longValueOf rt (marketDataService b) (pos_values (positions account))
            + maintenanceMarginShort (config b)
              * shortValueOf rt (marketDataService b) (pos_values (positions account)))) :
  refreshAccount rt (placeOrder rt fuel) ref b = Diverge
  /\ getAccount rt fuel ref b = Diverge
  /\ (forall rawOrder, placeOrder rt fuel ref rawOrder b = Diverge).
Proof.
  assert (Hholding : holding_state rt ref (config b) (marketDataService b)
                       (positions account) (unsettledCash account)
                       (settledCash account - feesDue account) b).
  { split; [reflexivity|]. split; [reflexivity|]. split; [exact Hquoted|].
    exists account. split; [exact Haccount|].
    destruct Hrounded as [Hs Hf].
    repeat split; try assumption. apply Qle_refl. }
  assert (Hdef' :
            roundMoney
              (settledCash account - feesDue account + unsettledCash account
               + marketValueOf rt (marketDataService b) (pos_values (positions account)))
            < roundMoney
                (maintenanceMarginLong (config b)
                 * longValueOf rt (marketDataService b) (pos_values (positions account))
                 + maintenanceMarginShort (config b)
                   * shortValueOf rt (marketDataService b)
                       (pos_values (positions account)))).
  { eapply Qle_lt_trans; [|exact Hdeficient]. apply roundMoney_mono. lra. }
  assert (Hloop : forall n, refreshAccount rt (placeOrder rt n) ref b = Diverge).
  { intros n.
    apply (refresh_diverges rt ref (config b) (marketDataService b) (positions account)
             (unsettledCash account) (settledCash account - feesDue account)
             Henabled Hheld Hdef' n b Hholding). }
  assert (Hreq : requireAccount ref b = Ret ref b)
    by (unfold requireAccount; rewrite Haccount; reflexivity).
  split; [apply Hloop|]. split.
  - unfold getAccount. rewrite (bind_Ret _ _ _ _ _ Hreq), bind_unfold, Hloop. reflexivity.
  - intros rawOrder. destruct fuel as [|n]; [reflexivity|].
    change (placeOrder rt (S n)) with (placeOrder_body rt (placeOrder rt n)).
    unfold placeOrder_body, placeOrder_intake.
    rewrite bind_unfold, (bind_Ret _ _ _ _ _ Hreq), bind_unfold, Hloop. reflexivity.
Qed.

Lemma forced_liquidation_never_returns_witness :
  refreshAccount sample_rt (placeOrder sample_rt 1000) "ACC-1" short_broker = Diverge
  /\ getAccount sample_rt 1000 "ACC-1" short_broker = Diverge
  /\ (forall rawOrder, placeOrder sample_rt 1000 "ACC-1" rawOrder short_broker = Diverge).
Proof.
  apply (forced_liquidation_never_returns sample_rt "ACC-1" short_broker short_account 1000).
  - reflexivity.
  - reflexivity.
  - reflexivity.
  - discriminate.
  - intros p [<-|[]]. exists (roundMoney 200). reflexivity.
  - reflexivity.
  - split; [exists 2500000000%Z | exists 0%Z]; reflexivity.
  - reflexivity.
Defined.

(** * Further properties *)

(** ** Order validation *)

Section Validation.

Lemma positive_spec (x : option Q) : positive x = true <-> exists v, x = Some v /\ 0 < v.
Proof.
  destruct x as [v|]; cbn.
  - rewrite num_ltb_lt. split; [eauto|]. intros (w & [= <-] & H). exact H.
  - split; [discriminate|]. intros (w & [=] & _).
Qed.

Lemma has_spec (set : list string) (x : string) : has set x = true <-> In x set.
Proof.
  unfold has. rewrite existsb_exists. split.
  - intros (y & Hin & E). apply String.eqb_eq in E. subst y. exact Hin.
  - intros Hin. exists x. split; [exact Hin | apply String.eqb_refl].
Qed.

End Validation.

(** X1.  [validateOrderByType] accepts an order exactly when its type, side
    and time in force are supported ones, its quantity is a number above 0,
    a LIMIT or STOP_LIMIT order has a limit price above 0, a STOP or
    STOP_LIMIT order has a stop price above 0, and it is not a MARKET
    order good till canceled. *)
Theorem validation_accepts (order : OrderInput) :
  validateOrderByType order = None <->
  In (n_type order) VALID_TYPES
  /\ In (n_side order) VALID_SIDES
  /\ In (n_tif order) VALID_TIFS
  /\ (exists q, n_quantity order = Some q /\ 0 < q)
  /\ (n_type order = "LIMIT" \/ n_type order = "STOP_LIMIT" ->
      exists l, n_limitPrice order = Some l /\ 0 < l)
  /\ (n_type order = "STOP" \/ n_type order = "STOP_LIMIT" ->
      exists s, n_stopPrice order = Some s /\ 0 < s)
  /\ ~ (n_type order = "MARKET" /\ n_tif order = "GTC").
Proof.
  rewrite <- !has_spec, <- !positive_spec.
  unfold validateOrderByType.
  destruct (has VALID_TYPES (n_type order)); cbn [negb]; [|intuition discriminate].
  destruct (has VALID_SIDES (n_side order)); cbn [negb]; [|intuition discriminate].
  destruct (has VALID_TIFS (n_tif order)); cbn [negb]; [|intuition discriminate].
  destruct (positive (n_quantity order)); cbn [negb]; [|intuition discriminate].
  destruct (String.eqb_spec (n_type order) "LIMIT") as [E1|N1];
    destruct (String.eqb_spec (n_type order) "STOP") as [E2|N2];
    destruct (String.eqb_spec (n_type order) "STOP_LIMIT") as [E3|N3];
    destruct (String.eqb_spec (n_type order) "MARKET") as [E4|N4];
    try congruence;
    destruct (positive (n_limitPrice order));
    destruct (positive (n_stopPrice order));
    destruct (String.eqb_spec (n_tif order) "GTC") as [E5|N5];
    cbn [negb andb orb];
    (split; [intros H; try discriminate H; repeat split; try tauto;
             try (intros [?|?]; congruence)
            | intros (_ & _ & _ & _ & Hl & Hs & Hn); try reflexivity; exfalso;
              try (apply Hn; split; assumption);
              try (discriminate Hl; auto);
              try (discriminate Hs; auto)]).
Qed.

(** ** Valuation of a position *)


(** ** Slippage *)

(** X3.  The price impact is never in the trader's favour: for a base
    price of at most six decimals that is not negative and a slippage
    that is not negative, a buy fills at or above the base price and a
    sell at or below it. *)
Theorem price_impact_is_adverse (basePrice slippageBps : Q)
    (Hbase : 0 <= basePrice) (Hmicro : micro basePrice) (Hslip : 0 <= slippageBps) :
  basePrice <= applyPriceImpact basePrice true slippageBps
  /\ applyPriceImpact basePrice false slippageBps <= basePrice.
Proof.
  unfold applyPriceImpact.
  pose proof (roundMoney_micro basePrice Hmicro) as Hr.
  assert (Hprod : 0 <= basePrice * slippageBps) by (apply Qmult_le_0_compat; assumption).
  split.
  - rewrite <- Hr at 1. apply roundMoney_mono.
    assert (E : basePrice * (1 + 1 * slippageBps / 10000)
                == basePrice + basePrice * slippageBps * (1 # 10000)) by field.
    rewrite E. lra.
  - rewrite <- Hr at 2. apply roundMoney_mono.
    assert (E : basePrice * (1 + -1 * slippageBps / 10000)
                == basePrice - basePrice * slippageBps * (1 # 10000)) by field.
    rewrite E. lra.
Qed.

Lemma price_impact_is_adverse_witness :
  100 <= applyPriceImpact 100 true 5 /\ applyPriceImpact 100 false 5 <= 100.
Proof.
  apply (price_impact_is_adverse 100 5).
  - unfold Qle. cbn. lia.
  - exists 100000000%Z. reflexivity.
  - unfold Qle. cbn. lia.
Defined.

(** ** Settlement, again *)

Section SettleTwice.

Lemma set_pendingSettlements_same (a : Account) :
  set_pendingSettlements (pendingSettlements a) a = a.
Proof. destruct a. reflexivity. Qed.

Lemma filter_not_then (A : Type) (f : A -> bool) (l : list A) :
  List.filter f (List.filter (fun x => negb (f x)) l) = [].
Proof.
  induction l as [|x l IH]; [reflexivity|]. cbn.
  destruct (f x) eqn:E; cbn; [exact IH|]. rewrite E. exact IH.
Qed.

Lemma filter_not_twice (A : Type) (f : A -> bool) (l : list A) :
  List.filter (fun x => negb (f x)) (List.filter (fun x => negb (f x)) l)
  = List.filter (fun x => negb (f x)) l.
Proof.
  induction l as [|x l IH]; [reflexivity|]. cbn.
  destruct (f x) eqn:E; cbn; [exact IH|]. rewrite E. cbn. rewrite IH. reflexivity.
Qed.

End SettleTwice.

(** X4.  Settling twice at the same instant is settling once: the second
    [#settleDueEntries] finds no due entry and no positive fee, and leaves
    the account as the first one left it. *)
Theorem settlement_is_idempotent (instant : Time) (account : Account) :
  settleDueEntries instant (settleDueEntries instant account)
  = settleDueEntries instant account.
Proof.
  set (kept := List.filter (fun e => negb (s_settleAt e <=? instant)%Z)
                 (pendingSettlements account)).
  set (due := List.filter (fun e => (s_settleAt e <=? instant)%Z)
                (pendingSettlements account)).
  set (applied := fold_left settleEntry due (set_pendingSettlements kept account)).
  assert (E : settleDueEntries instant account =
              if num_ltb 0 (feesDue applied)
              then set_feesDue 0
                     (set_settledCash
                        (roundMoney (settledCash applied - feesDue applied)) applied)
              else applied).
  { unfold settleDueEntries. rewrite splitDue_filter. reflexivity. }
  assert (Hp : pendingSettlements applied = kept)
    by apply (settleEntries_frame due (set_pendingSettlements kept account)).
  assert (Hstable : forall a, pendingSettlements a = kept -> num_ltb 0 (feesDue a) = false ->
                              settleDueEntries instant a = a).
  { intros a Ha Hf. unfold settleDueEntries. rewrite splitDue_filter, Ha.
    unfold kept. rewrite filter_not_then, filter_not_twice. fold kept.
    cbn [fold_left].
    assert (Es : set_pendingSettlements kept a = a)
      by (rewrite <- Ha; apply set_pendingSettlements_same).
    rewrite Es, Hf. reflexivity. }
  rewrite E. destruct (num_ltb 0 (feesDue applied)) eqn:Ef.
  - apply Hstable; [exact Hp | reflexivity].
  - apply Hstable; [exact Hp | exact Ef].
Qed.

(** ** The order of the forced liquidation *)

Section Sorting.

Lemma num_leb_le (x y : Q) : num_leb x y = true <-> x <= y.
Proof. unfold num_leb. apply Qle_bool_iff. Qed.

Lemma num_leb_gt (x y : Q) : num_leb x y = false <-> y < x.
Proof.
  unfold num_leb. split; intros H.
  - destruct (Qlt_le_dec y x) as [L|L]; [exact L|].
    apply Qle_bool_iff in L. congruence.
  - destruct (Qle_bool x y) eqn:E; [|reflexivity]. apply Qle_bool_iff in E. lra.
Qed.

Lemma sortByValue_nil (l : list (Position * Q)) : sortByValue l = [] -> l = [].
Proof.
  intros H. pose proof (sortByValue_length l) as L. rewrite H in L.
  destruct l; [reflexivity | discriminate].
Qed.

End Sorting.

(** X5.  The position the forced liquidation takes first, the head of the
    sorted list of line 526, is one of largest absolute value, and among
    those of that value the one that comes first in the account: every
    position before it has a smaller value and every one after it a value
    that is not larger.  The sorted list is empty only for no position. *)
Theorem liquidation_target_is_largest (withValue : list (Position * Q)) :
  match sortByValue withValue with
  | [] => withValue = []
  | (target, value) :: _ =>
      exists before after,
        withValue = before ++ (target, value) :: after
        /\ (forall x, In x before -> snd x < value)
        /\ (forall x, In x after -> snd x <= value)
  end.
Proof.
  induction withValue as [|x l IH].
  - reflexivity.
  - change (sortByValue (x :: l)) with (insertByValue x (sortByValue l)).
    destruct (sortByValue l) as [|[target value] rest] eqn:Es.
    + subst l. destruct x as [p v]. cbn.
      exists [], []. repeat split; intros y [].
    + destruct IH as (before & after & -> & Hb & Ha).
      cbn [insertByValue snd].
      destruct (num_leb value (snd x)) eqn:E.
      * apply num_leb_le in E. destruct x as [p v]. cbn [snd] in *.
        exists [], (before ++ (target, value) :: after).
        split; [reflexivity|]. split; [intros y []|].
        intros y Hin. apply in_app_or in Hin as [Hin|[<-|Hin]].
        -- apply Hb in Hin. lra.
        -- exact E.
        -- apply Ha in Hin. lra.
      * apply num_leb_gt in E.
        exists (x :: before), after.
        split; [reflexivity|]. split; [|exact Ha].
        intros y [<-|Hin]; [exact E | apply Hb, Hin].
Qed.

(** ** The volatility of a quote *)

(** X6.  For a series of prices above 0 and a cursor that points into
    it, the volatility proxy of a quote is never below 0.001, whatever
    the square root gives, and it is 0.001 for the first price of the
    series.  (With prices above 0 the mean of the window is above 0, so
    that the quotient of line 14 is a number.) *)
Theorem volatility_floor (rt : Runtime) (series : list Q) (index : nat)
    (Hprices : forall price, In price series -> 0 < price)
    (Hcursor : (index < length series)%nat) :
  1 # 1000 <= computeVolatilityProxy rt series index
  /\ computeVolatilityProxy rt series 0 = 1 # 1000
  /\ 0 < nth index series 0.
Proof.
  split; [|split; [reflexivity | apply Hprices, nth_In, Hcursor]].
  unfold computeVolatilityProxy.
  destruct (_ <? 2)%nat; [apply Qle_refl|].
  unfold num_max.
  match goal with |- _ <= (if Qle_bool ?x ?y then _ else _) => destruct (Qle_bool x y) eqn:E end.
  - apply Qle_refl.
  - match type of E with Qle_bool ?x ?y = false =>
      destruct (Qlt_le_dec y x) as [L|L]; [apply Qlt_le_weak, L|] end.
    apply Qle_bool_iff in L. congruence.
Qed.

Lemma volatility_floor_witness :
  1 # 1000 <= computeVolatilityProxy sample_rt [100; 101; 99] 2
  /\ computeVolatilityProxy sample_rt [100; 101; 99] 0 = 1 # 1000
  /\ 0 < nth 2 [100; 101; 99] 0.
Proof.
  apply (volatility_floor sample_rt [100; 101; 99] 2).
  - intros price [<-|[<-|[<-|[]]]]; reflexivity.
  - cbn. lia.
Defined.

(** ** Business days *)

Section BusinessDays.

Lemma getDay_next (t : Time) : getDay (t + msPerDay)%Z = ((getDay t + 1) mod 7)%Z.
Proof.
  unfold getDay, msPerDay.
  replace (t + 86400000)%Z with (t + 1 * 86400000)%Z by lia.
  rewrite Z.div_add by lia.
  replace (t / 86400000 + 1 + 4)%Z with ((t / 86400000 + 4) + 1)%Z by lia.
  rewrite Z.add_mod by lia. rewrite (Z.mod_small 1 7) by lia. reflexivity.
Qed.

Lemma inject_Z_pred (n : Z) : inject_Z (n - 1) == inject_Z n - 1.
Proof. unfold Z.sub. rewrite inject_Z_plus, inject_Z_opp. reflexivity. Qed.

Lemma getDay_range (t : Time) : (0 <= getDay t < 7)%Z.
Proof. unfold getDay. apply Z.mod_pos_bound. lia. Qed.

Lemma nextBusinessDay_loop_spec (fuel : nat) :
  forall (next : Time) (remaining : Q) (n : Z),
    (1 <= n)%Z ->
    inject_Z n - 1 < remaining -> remaining <= inject_Z n ->
    (3 * (n - 1) + roundsToWeekday (getDay next) <= Z.of_nat fuel)%Z ->
    exists k : nat,
      nextBusinessDay_loop fuel next remaining = (next + Z.of_nat (S k) * msPerDay)%Z
      /\ isWeekday (next + Z.of_nat (S k) * msPerDay)%Z = true
      /\ Z.of_nat (weekdaysAfter next (S k)) = n.
Proof.
  induction fuel as [|fuel IH]; intros next remaining n Hn Hlo Hhi Hfuel.
  - exfalso. unfold roundsToWeekday in Hfuel.
    destruct (getDay next =? 5)%Z; [|destruct (getDay next =? 6)%Z]; lia.
  - cbn [nextBusinessDay_loop].
    assert (Hpos : 0 < remaining).
    { assert (inject_Z 1 <= inject_Z n) by (rewrite <- Zle_Qle; exact Hn).
      change (inject_Z 1) with 1 in H. lra. }
    apply num_ltb_lt in Hpos. rewrite Hpos.
    pose proof (getDay_next next) as Hday.
    pose proof (getDay_range next) as Hr.
    set (next' := (next + msPerDay)%Z) in *.
    fold (isWeekday next').
    assert (Hshift : forall k : nat,
               (next' + Z.of_nat k * msPerDay = next + Z.of_nat (S k) * msPerDay)%Z).
    { intros k. subst next'. lia. }
    destruct (isWeekday next') eqn:Ew.
    + (* a weekday: one day less to go *)
      destruct (Z.eq_dec n 1%Z) as [->|Hn1].
      * exists 0%nat. 
        assert (Hdone : num_ltb 0 (remaining - 1) = false).
        { destruct (num_ltb 0 (remaining - 1)) eqn:E; [|reflexivity].
          apply num_ltb_lt in E. change (inject_Z 1) with 1 in Hhi. lra. }
        destruct fuel as [|fuel]; cbn [nextBusinessDay_loop]; rewrite ?Hdone;
          (split; [subst next'; f_equal; lia|]);
          (replace (next + Z.of_nat 1 * msPerDay)%Z with next' by (subst next'; lia));
          (split; [exact Ew|]); cbn [weekdaysAfter]; fold next'; rewrite Ew; reflexivity.
      * destruct (IH next' (remaining - 1) (n - 1)%Z) as (k & Hrun & Hwk & Hcount).
        -- lia.
        -- rewrite inject_Z_pred. lra.
        -- rewrite inject_Z_pred. lra.
        -- unfold roundsToWeekday in *.
           destruct (getDay next' =? 5)%Z; [|destruct (getDay next' =? 6)%Z];
             destruct (getDay next =? 5)%Z; try destruct (getDay next =? 6)%Z; lia.
        -- exists (S k). rewrite <- Hshift. split; [exact Hrun|]. split; [exact Hwk|].
           cbn [weekdaysAfter] in *. fold next'. rewrite Ew. lia.
    + (* Saturday or Sunday *)
      destruct (IH next' remaining n) as (k & Hrun & Hwk & Hcount);
        [exact Hn | exact Hlo | exact Hhi | |].
      * unfold isWeekday in Ew. rewrite Hday in Ew |- *.
        destruct (Z.eq_dec (getDay next) 5%Z) as [E5|N5].
        -- rewrite E5 in Hfuel |- *.
           change (roundsToWeekday ((5 + 1) mod 7)) with 2%Z.
           change (roundsToWeekday 5) with 3%Z in Hfuel. lia.
        -- destruct (Z.eq_dec (getDay next) 6%Z) as [E6|N6].
           ++ rewrite E6 in Hfuel |- *.
              change (roundsToWeekday ((6 + 1) mod 7)) with 1%Z.
              change (roundsToWeekday 6) with 2%Z in Hfuel. lia.
           ++ exfalso.
              assert (Hsmall : ((getDay next + 1) mod 7 = getDay next + 1)%Z)
                by (apply Z.mod_small; lia).
              rewrite Hsmall in Ew.
              destruct (Z.eqb_spec (getDay next + 1)%Z 0%Z); [lia|].
              destruct (Z.eqb_spec (getDay next + 1)%Z 6%Z); [lia|].
              discriminate Ew.
      * exists (S k). rewrite <- Hshift. split; [exact Hrun|]. split; [exact Hwk|].
        cbn [weekdaysAfter] in *. fold next'. rewrite Ew. lia.
Qed.

End BusinessDays.

(** X7.  For a number of days above 0, [nextBusinessDay] returns the same
    time of day on a later day that is one from Monday to Friday, and
    the weekdays from the day after the date to that day are as many as
    the number of days, rounded up when it is not whole: the result is
    the [addDays]-th business day after the date. *)
Theorem next_business_day (date : Time) (addDays : Q) (Hpos : 0 < addDays) :
  exists k : nat,
    nextBusinessDay date addDays = (date + Z.of_nat (S k) * msPerDay)%Z
    /\ isWeekday (nextBusinessDay date addDays) = true
    /\ Z.of_nat (weekdaysAfter date (S k)) = Qceiling addDays.
Proof.
  unfold nextBusinessDay.
  assert (Hc : (1 <= Qceiling addDays)%Z).
  { assert (H : (0 < Qceiling addDays)%Z).
    { rewrite Zlt_Qlt. eapply Qlt_le_trans; [exact Hpos | apply Qle_ceiling]. }
    lia. }
  destruct (nextBusinessDay_loop_spec (Z.to_nat (7 * Qceiling addDays + 7)) date addDays
              (Qceiling addDays) Hc) as (k & Hrun & Hwk & Hcount).
  - pose proof (Qceiling_lt addDays) as H.
    rewrite inject_Z_pred in H. lra.
  - apply Qle_ceiling.
  - unfold roundsToWeekday.
    destruct (getDay date =? 5)%Z; [|destruct (getDay date =? 6)%Z]; lia.
  - exists k. rewrite Hrun. repeat split; assumption.
Qed.

Lemma next_business_day_witness :
  0 < 2
  /\ getDay 1700259200000%Z = 5%Z
  /\ exists k : nat,
       nextBusinessDay 1700259200000%Z 2 = (1700259200000 + Z.of_nat (S k) * msPerDay)%Z
       /\ isWeekday (nextBusinessDay 1700259200000%Z 2) = true
       /\ Z.of_nat (weekdaysAfter 1700259200000%Z (S k)) = Qceiling 2.
Proof.
  split; [reflexivity|]. split; [reflexivity|].
  apply (next_business_day 1700259200000%Z 2). reflexivity.
Defined.

(** ** The book of positions *)

Section Book.








End Book.



(** ** From the trade to its settlement *)

Section TradeAndSettle.

(** The cash side of [#applyTrade], lines 361-370. *)
Lemma applyTrade_cash (config : BrokerConfig) (account : Account) (order : OrderInput)
    (fillPrice notional fees : Q) (instant : Time) :
  let account' := applyTrade config account order fillPrice notional fees instant in
  let isBuy := sideIsBuy (n_side order) in
  settledCash account' = settledCash account
  /\ reservedCash account'
     = (if isBuy then roundMoney (reservedCash account + notional)
        else reservedCash account)
  /\ unsettledCash account'
     = (if isBuy then unsettledCash account
        else roundMoney (unsettledCash account + notional))
  /\ feesDue account' = roundMoney (feesDue account + fees)
  /\ pendingSettlements account'
     = pendingSettlements account
       ++ [{| s_amount := notional;
              s_direction := if isBuy then DEBIT else CREDIT;
              s_settleAt := nextBusinessDay instant (settlementDaysEquities config);
              s_symbol := n_symbol order |}].
Proof.
  unfold applyTrade. cbv zeta.
  destruct (sideIsBuy (n_side order)); destruct (num_eqb _ 0); repeat split.
Qed.

Lemma num_max_nonneg (x : Q) : 0 <= x -> num_max 0 x = x.
Proof.
  intros H. unfold num_max. apply Qle_bool_iff in H. rewrite H. reflexivity.
Qed.

End TradeAndSettle.

(** X9.  A trade and its settlement.  On an account without pending
    settlements whose balances have at most six decimals, with
    [reservedCash] and [feesDue] not negative, a trade with a notional and
    fees of at most six decimals, the fees not negative, leaves
    [settledCash] alone, reserves the notional of a buy and books the
    proceeds of a sale as unsettled.  The settlement at or after the
    settlement date then takes the notional of a buy from [settledCash]
    and releases the reservation, or moves the proceeds of a sale from
    [unsettledCash] to [settledCash]; it takes the fees due from
    [settledCash], and leaves no pending settlement. *)
Theorem trade_then_settlement
    (config : BrokerConfig) (account : Account) (order : OrderInput)
    (fillPrice notional fees : Q) (tradedAt settledAt : Time)
    (Hpending : pendingSettlements account = [])
    (Hsettled : micro (settledCash account))
    (Hunsettled : micro (unsettledCash account))
    (Hreserved : micro (reservedCash account) /\ 0 <= reservedCash account)
    (Hdue : micro (feesDue account) /\ 0 <= feesDue account)
    (Hnotional : micro notional)
    (Hfees : micro fees /\ 0 <= fees)
    (Hlater : (nextBusinessDay tradedAt (settlementDaysEquities config) <= settledAt)%Z) :
  let traded := applyTrade config account order fillPrice notional fees tradedAt in
  let settled := settleDueEntries settledAt traded in
  settledCash traded = settledCash account
  /\ pendingSettlements settled = []
  /\ feesDue settled == 0
  /\ reservedCash settled == reservedCash account
  /\ unsettledCash settled == unsettledCash account
  /\ (sideIsBuy (n_side order) = true ->
      reservedCash traded == reservedCash account + notional
      /\ settledCash settled
         == settledCash account - notional - (feesDue account + fees))
  /\ (sideIsBuy (n_side order) = false ->
      unsettledCash traded == unsettledCash account + notional
      /\ settledCash settled
         == settledCash account + notional - (feesDue account + fees)).
Proof.
  intros traded settled.
  destruct Hreserved as (Hreserved & Hres0). destruct Hdue as (Hdue & Hdue0).
  destruct Hfees as (Hfees & Hfees0).
  destruct (applyTrade_cash config account order fillPrice notional fees tradedAt)
    as (Tsettled & Treserved & Tunsettled & Tfees & Tpending).
  fold traded in Tsettled, Treserved, Tunsettled, Tfees, Tpending.
  rewrite Hpending in Tpending. cbn [app] in Tpending.
  assert (Efees : feesDue traded == feesDue account + fees).
  { rewrite Tfees. apply roundMoney_micro, micro_plus; assumption. }
  assert (E : settled =
              let applied :=
                fold_left settleEntry
                  (List.filter (fun e => (s_settleAt e <=? settledAt)%Z)
                     (pendingSettlements traded))
                  (set_pendingSettlements
                     (List.filter (fun e => negb (s_settleAt e <=? settledAt)%Z)
                        (pendingSettlements traded))
                     traded) in
              if num_ltb 0 (feesDue applied)
              then set_feesDue 0
                     (set_settledCash
                        (roundMoney (settledCash applied - feesDue applied)) applied)
              else applied).
  { subst settled. unfold settleDueEntries. rewrite splitDue_filter. reflexivity. }
  rewrite Tpending in E. cbn [List.filter s_settleAt] in E.
  apply Z.leb_le in Hlater. rewrite Hlater in E. cbn [negb fold_left] in E.
  set (entry := {| s_amount := notional; s_direction := _; s_settleAt := _;
                   s_symbol := _ |}) in E.
  set (applied := settleEntry (set_pendingSettlements [] traded) entry) in E.
  cbv zeta in E.
  assert (Afees : feesDue applied = feesDue traded).
  { subst applied. unfold settleEntry. destruct (s_direction entry); reflexivity. }
  assert (Apending : pendingSettlements applied = []).
  { subst applied. unfold settleEntry. destruct (s_direction entry); reflexivity. }
  assert (Hdrain : feesDue settled == 0
                   /\ settledCash settled == settledCash applied - (feesDue account + fees)
                   /\ reservedCash settled = reservedCash applied
                   /\ unsettledCash settled = unsettledCash applied
                   /\ pendingSettlements settled = []).
  { rewrite E. destruct (num_ltb 0 (feesDue applied)) eqn:Ef.
    - cbn. split; [reflexivity|]. split; [|repeat split; exact Apending].
      assert (Hm : micro (settledCash applied)).
      { subst applied. unfold settleEntry.
        destruct (s_direction entry); cbn; apply micro_roundMoney. }
      rewrite roundMoney_micro.
      + rewrite Afees, Efees. reflexivity.
      + apply micro_minus; [exact Hm|]. rewrite Afees, Tfees. apply micro_roundMoney.
    - assert (Hz : feesDue applied == 0).
      { assert (~ 0 < feesDue applied)
          by (intros L; apply num_ltb_lt in L; congruence).
        rewrite Afees, Efees in *. lra. }
      split; [exact Hz|]. split; [|repeat split; exact Apending].
      rewrite Afees, Efees in Hz. lra. }
  destruct Hdrain as (D1 & D2 & D3 & D4 & D5).
  split; [exact Tsettled|]. split; [exact D5|]. split; [exact D1|].
  rewrite D3, D4.
  destruct (sideIsBuy (n_side order)) eqn:Eb.
  - (* a buy: the entry is a debit *)
    assert (Er : reservedCash traded == reservedCash account + notional).
    { rewrite Treserved. apply roundMoney_micro, micro_plus; assumption. }
    assert (R : reservedCash applied == reservedCash account).
    { assert (Ra : reservedCash applied
                   = roundMoney (num_max 0 (reservedCash traded - notional)))
        by reflexivity.
      rewrite Ra, num_max_nonneg by lra.
      rewrite roundMoney_micro; [lra|].
      apply micro_minus; [|exact Hnotional].
      rewrite Treserved. apply micro_roundMoney. }
    assert (S : settledCash applied == settledCash account - notional).
    { assert (Sa : settledCash applied = roundMoney (settledCash traded - notional))
        by reflexivity.
      rewrite Sa, Tsettled. apply roundMoney_micro, micro_minus; assumption. }
    split; [exact R|]. split.
    { change (unsettledCash applied) with (unsettledCash traded).
      rewrite Tunsettled. reflexivity. }
    split; [|intros [=]].
    intros _. split; [exact Er|]. rewrite D2, S. ring.
  - (* a sale: the entry is a credit *)
    assert (Eu : unsettledCash traded == unsettledCash account + notional).
    { rewrite Tunsettled. apply roundMoney_micro, micro_plus; assumption. }
    assert (U : unsettledCash applied == unsettledCash account).
    { assert (Ua : unsettledCash applied = roundMoney (unsettledCash traded - notional))
        by reflexivity.
      rewrite Ua, roundMoney_micro; [lra|].
      apply micro_minus; [|exact Hnotional].
      rewrite Tunsettled. apply micro_roundMoney. }
    assert (S : settledCash applied == settledCash account + notional).
    { assert (Sa : settledCash applied = roundMoney (settledCash traded + notional))
        by reflexivity.
      rewrite Sa, Tsettled. apply roundMoney_micro, micro_plus; assumption. }
    split.
    { change (reservedCash applied) with (reservedCash traded).
      rewrite Treserved. reflexivity. }
    split; [exact U|].
    split; [intros [=]|].
    intros _. split; [exact Eu|]. rewrite D2, S. ring.
Qed.

Lemma trade_then_settlement_witness :
  let traded :=
    applyTrade sample_config sample_account (marketOrder "BUY" "AAPL" 10)
      100 1000 (11 # 10) 1700000000000%Z in
  let settled := settleDueEntries 1700200000000%Z traded in
  settledCash traded = settledCash sample_account
  /\ pendingSettlements settled = []
  /\ feesDue settled == 0
  /\ reservedCash settled == 0
  /\ unsettledCash settled == 0
  /\ reservedCash traded == 0 + 1000
  /\ settledCash settled == roundMoney 100000 - 1000 - (0 + (11 # 10)).
Proof.
  cbv zeta.
  destruct (trade_then_settlement sample_config sample_account
              (marketOrder "BUY" "AAPL" 10) 100 1000 (11 # 10)
              1700000000000%Z 1700200000000%Z)
    as (H1 & H2 & H3 & H4 & H5 & H6 & _).
  - reflexivity.
  - apply micro_roundMoney.
  - apply micro_0.
  - split; [apply micro_0 | apply Qle_refl].
  - split; [apply micro_0 | apply Qle_refl].
  - exists 1000000000%Z. reflexivity.
  - split; [exists 1100000%Z; reflexivity | unfold Qle; cbn; lia].
  - vm_compute. discriminate.
  - destruct (H6 eq_refl) as (H7 & H8).
    repeat split; assumption.
Defined.

(** ** The replay of a series *)

Section Replaying.

Variable rt : Runtime.

Lemma SymbolEntry_eta (entry : SymbolEntry) :
  {| e_spreadBps := e_spreadBps entry; e_series := e_series entry;
     e_index := e_index entry |} = entry.
Proof. destruct entry. reflexivity. Qed.

Lemma Replay_eta (svc : ReplayMarketDataService) :
  {| defaultSpreadBps := defaultSpreadBps svc; symbols := symbols svc |} = svc.
Proof. destruct svc. reflexivity. Qed.

(** [m] calls move the cursor of the symbol by [m], around the series, and
    return its prices from the cursor on. *)
Lemma Replay_getQuotes_run (symbol : string) (times : list Time) :
  forall (svc : ReplayMarketDataService) (entry : SymbolEntry),
    symbols svc !! symbol = Some entry ->
    (e_index entry < length (e_series entry))%nat ->
    let n := length (e_series entry) in
    let '(results, svc') := Replay_getQuotes rt svc symbol times in
    svc' = {| defaultSpreadBps := defaultSpreadBps svc;
              symbols :=
                <[symbol :=
                    {| e_spreadBps := e_spreadBps entry;
                       e_series := e_series entry;
                       e_index := (e_index entry + length times) mod n |}]>
                  (symbols svc) |}
    /\ map resultMid results
       = map (fun k => Some (roundMoney (nth ((e_index entry + k) mod n) (e_series entry) 0)))
           (seq 0 (length times)).
Proof.
  induction times as [|t rest IH]; intros svc entry Hentry Hidx n.
  - cbn [Replay_getQuotes length seq map]. split; [|reflexivity].
    rewrite Nat.add_0_r, Nat.mod_small by exact Hidx.
    rewrite SymbolEntry_eta, insert_id by exact Hentry.
    symmetry. apply Replay_eta.
  - cbn [Replay_getQuotes]. unfold Replay_getQuote at 1, Replay_quote at 1.
    rewrite Hentry.
    destruct (nth_error (e_series entry) (e_index entry)) as [mid|] eqn:Emid;
      [|apply nth_error_None in Emid; lia].
    set (entry1 := {| e_spreadBps := e_spreadBps entry; e_series := e_series entry;
                      e_index := (e_index entry + 1) mod length (e_series entry) |}).
    set (svc1 := {| defaultSpreadBps := defaultSpreadBps svc;
                    symbols := <[symbol := entry1]> (symbols svc) |}).
    assert (Hentry1 : symbols svc1 !! symbol = Some entry1) by apply lookup_insert_eq.
    assert (Hidx1 : (e_index entry1 < length (e_series entry1))%nat).
    { cbn. apply Nat.mod_upper_bound. lia. }
    specialize (IH svc1 entry1 Hentry1 Hidx1). cbv zeta in IH.
    destruct (Replay_getQuotes rt svc1 symbol rest) as [results svc2].
    destruct IH as (-> & Hmids).
    cbn [e_series e_index e_spreadBps entry1 svc1 defaultSpreadBps symbols length] in *.
    fold n in Hmids |- *.
    split.
    + f_equal. rewrite insert_insert_eq. f_equal. f_equal.
      rewrite Nat.Div0.add_mod_idemp_l. f_equal. lia.
    + cbn [map seq resultMid q_mid]. f_equal.
      * rewrite Nat.add_0_r, Nat.mod_small by exact Hidx.
        rewrite (nth_error_nth _ _ 0 Emid). reflexivity.
      * rewrite Hmids, <- seq_shift, map_map.
        apply map_ext. intros k.
        rewrite Nat.Div0.add_mod_idemp_l. do 4 f_equal. lia.
Qed.

End Replaying.

(** X10.  The replay provider plays a series round and round.  From a
    cursor that points into the series of a symbol, successive calls of
    [getQuote] return the prices of the series from the cursor on,
    starting again at its first price after the last one; and after as
    many calls as the series has prices the provider is in the state it
    started from. *)
Theorem replay_goes_round
    (rt : Runtime) (svc : ReplayMarketDataService) (symbol : string)
    (entry : SymbolEntry) (times : list Time)
    (Hentry : symbols svc !! symbol = Some entry)
    (Hcursor : (e_index entry < length (e_series entry))%nat) :
  let n := length (e_series entry) in
  map resultMid (fst (Replay_getQuotes rt svc symbol times))
  = map (fun k => Some (roundMoney (nth ((e_index entry + k) mod n) (e_series entry) 0)))
      (seq 0 (length times))
  /\ (length times = n -> snd (Replay_getQuotes rt svc symbol times) = svc).
Proof.
  intros n.
  pose proof (Replay_getQuotes_run rt symbol times svc entry Hentry Hcursor) as H.
  cbv zeta in H. destruct (Replay_getQuotes rt svc symbol times) as [results svc'].
  destruct H as (-> & Hmids). cbn [fst snd]. split; [exact Hmids|].
  intros ->. fold n.
  replace ((e_index entry + n) mod n)%nat with (e_index entry).
  - rewrite SymbolEntry_eta, insert_id by exact Hentry. apply Replay_eta.
  - rewrite <- Nat.Div0.add_mod_idemp_r, Nat.Div0.mod_same, Nat.add_0_r.
    symmetry. apply Nat.mod_small. exact Hcursor.
Qed.

Lemma replay_goes_round_witness :
  map resultMid (fst (Replay_getQuotes sample_rt sample_replay "TSLA" [1; 2; 3]%Z))
  = [Some (roundMoney 200); Some (roundMoney 200); Some (roundMoney 200)]
  /\ snd (Replay_getQuotes sample_rt sample_replay "TSLA" [5; 6]%Z) = sample_replay.
Proof.
  split.
  - apply (replay_goes_round sample_rt sample_replay "TSLA"
             {| e_spreadBps := Some 10; e_series := [200; 200]; e_index := 0 |}
             [1; 2; 3]%Z); [reflexivity | cbn; lia].
  - apply (replay_goes_round sample_rt sample_replay "TSLA"
             {| e_spreadBps := Some 10; e_series := [200; 200]; e_index := 0 |}
             [5; 6]%Z); [reflexivity | cbn; lia | reflexivity].
Defined.

(** ** Orders that are turned away at the door *)

Section Door.

Variable rt : Runtime.
Variable rec : string -> RawOrder -> M Order.

Lemma requireAccount_run (accountId : string) (b : Broker) :
  is_Some (accounts b !! accountId) -> requireAccount accountId b = Ret accountId b.
Proof. intros [a Ha]. unfold requireAccount. rewrite Ha. reflexivity. Qed.

Lemma refresh_needs_account (ref : string) (b b1 : Broker) :
  refreshAccount rt rec ref b = Ret tt b1 -> is_Some (accounts b !! ref).
Proof.
  unfold refreshAccount. intros H.
  bind_inv H. apply now_inv in Hstep as (_ & (_ & _ & Ua)).
  bind_inv H. apply writeAccount_inv in Hstep as (a & Ha & _).
  rewrite Ua in Ha. eauto.
Qed.

(** A quote that cannot be peeked at cannot be taken either. *)
Lemma getQuote_fails (symbol : string) (b : Broker) :
  midOf rt (marketDataService b) symbol = None ->
  exists e, getQuote rt symbol b = Throw e b.
Proof.
  unfold midOf, getQuote, quoteOf.
  destruct (marketDataService b) as [svc|enabled].
  - unfold Replay_quote.
    destruct (symbols svc !! symbol) as [entry|]; [|eauto].
    destruct (nth_error (e_series entry) (e_index entry)); [discriminate | eauto].
  - destruct enabled; eauto.
Qed.

(** Lines 231-252 on a broker whose refresh returns. *)
Lemma intake_door (accountId : string) (rawOrder : RawOrder) (b b1 : Broker)
    (account : Account) :
  refreshAccount rt rec accountId b = Ret tt b1 ->
  accounts b1 !! accountId = Some account ->
  exists b3,
    config b3 = config b1
    /\ marketDataService b3 = marketDataService b1
    /\ accounts b3 = accounts b1
    /\ clockReads b3 = S (S (clockReads b1))
    /\ rngDraws b3 = S (rngDraws b1)
    /\ placeOrder_intake rt rec accountId rawOrder b
       = (let order := normalizeOrderInput rawOrder in
          let bypassMarginCheck := r_bypassMarginCheck rawOrder in
          let baseOrder :=
            baseOrderOf account order (rt_clock rt (clockReads b1))
              (Qfloor (rt_random rt (rngDraws b1) * 10000))
              (rt_clock rt (S (clockReads b1))) in
          match validateOrderByType order with
          | Some validationError =>
              returned (rejectOrder accountId baseOrder validationError)
          | None =>
              config ← getConfig;
              t ← now rt;
              if negb (isMarketOpen config t)
              then returned (rejectOrder accountId baseOrder "market closed")
              else
                quoted ← attempt (getQuote rt (n_symbol order));
                match quoted with
                | inl _ => returned (rejectOrder accountId baseOrder "unknown symbol")
                | inr quote =>
                    deficient ←
                      ((if bypassMarginCheck then mret false
                        else
                          account ← readAccount accountId;
                          metrics ← computeMetrics rt account;
                          mret (hasMaintenanceDeficiency metrics)) : M bool);
                    if (deficient : bool)
                    then returned
                           (rejectOrder accountId baseOrder
                              "margin deficiency: account below maintenance")
                    else
                      let triggerState := evaluateTrigger order quote in
                      match triggerState with
                      | PENDING_TRIGGER => returned (parkOrder accountId baseOrder)
                      | PENDING_LIMIT => returned (parkOrder accountId baseOrder)
                      | _ =>
                          mret (inr {| i_ref := accountId;
                                       i_order := order;
                                       i_bypassMarginCheck := bypassMarginCheck;
                                       i_baseOrder := baseOrder;
                                       i_triggerState := triggerState |})
                      end
                end
          end) b3.
Proof.
  intros Hrefresh Hacc.
  pose proof (refresh_needs_account _ _ _ Hrefresh) as Hsome.
  eexists. 
  split; [|split; [|split; [|split; [|split]]]]; cycle 5.
  - unfold placeOrder_intake.
    rewrite (bind_Ret _ _ _ _ _ (requireAccount_run _ _ Hsome)).
    rewrite (bind_Ret _ _ _ _ _ Hrefresh).
    rewrite (bind_Ret _ _ _ _ _ (readAccount_run _ _ _ Hacc)).
    rewrite now_run, rng_run, now_run. reflexivity.
  - reflexivity.
  - reflexivity.
  - reflexivity.
  - reflexivity.
  - reflexivity.
Qed.

(** What a rejection in lines 254-270 returns and leaves behind. *)
Lemma returned_rejection (accountId : string) (base : Order) (reason : string)
    (b : Broker) (account : Account) :
  accounts b !! accountId = Some account ->
  returned (A := Intake) (rejectOrder accountId base reason) b
  = Ret (inl (rejected base reason))
      (set_accounts (<[accountId := unshiftOrder (rejected base reason) account]> (accounts b))
         b).
Proof.
  intros Ha. unfold returned, rejectOrder.
  rewrite !bind_unfold, (writeAccount_run _ _ _ _ Ha). reflexivity.
Qed.

End Door.

(** X11.  An order that fails the validation, or arrives while the market
    is closed, is rejected before any quote is asked for: [placeOrder]
    returns it REJECTED with the reason of the validation, or with
    'market closed', puts it in front of the order history of the
    account, and leaves the cursors of the quote provider where the
    opening refresh left them. *)
Theorem rejection_before_the_quote
    (rt : Runtime) (rec : string -> RawOrder -> M Order)
    (accountId : string) (rawOrder : RawOrder) (b b1 : Broker) (account : Account)
    (Hrefresh : refreshAccount rt rec accountId b = Ret tt b1)
    (Haccount : accounts b1 !! accountId = Some account)
    (Hturned : validateOrderByType (normalizeOrderInput rawOrder) <> None
               \/ isMarketOpen (config b1) (rt_clock rt (S (S (clockReads b1)))) = false) :
  let reason :=
    match validateOrderByType (normalizeOrderInput rawOrder) with
    | Some validationError => validationError
    | None => "market closed"
    end in
  exists o b',
    placeOrder_body rt rec accountId rawOrder b = Ret o b'
    /\ o_status o = REJECTED
    /\ o_reason o = Some reason
    /\ o_symbol o = toUpperCase (r_symbol rawOrder)
    /\ marketDataService b' = marketDataService b1
    /\ accounts b' = <[accountId := unshiftOrder o account]> (accounts b1).
Proof.
  intros reason.
  destruct (intake_door rt rec accountId rawOrder b b1 account Hrefresh Haccount)
    as (b3 & Hc & Hm & Ha & Hclock & Hrng & Hrun).
  cbv zeta in Hrun.
  assert (Ha3 : accounts b3 !! accountId = Some account) by (rewrite Ha; exact Haccount).
  unfold placeOrder_body. rewrite bind_unfold, Hrun.
  destruct (validateOrderByType (normalizeOrderInput rawOrder)) as [err|] eqn:Ev.
  - rewrite (returned_rejection _ _ _ _ _ Ha3).
    eexists. eexists. split; [reflexivity|].
    cbn. rewrite Ha. repeat split. exact Hm.
  - destruct Hturned as [H|Hclosed]; [congruence|].
    rewrite getConfig_run, now_run, Hc, Hclock, Hclosed. cbn [negb].
    assert (Ha4 : accounts (set_clockReads (S (S (S (clockReads b1)))) b3) !! accountId
                  = Some account) by exact Ha3.
    rewrite (returned_rejection _ _ _ _ _ Ha4).
    eexists. eexists. split; [reflexivity|].
    cbn. rewrite Ha. repeat split. exact Hm.
Qed.

Lemma rejection_before_the_quote_witness :
  exists o b',
    placeOrder_body sample_rt (placeOrder sample_rt 0) "ACC-1"
      (rawMarketOrder "BUY" "AAPL" 1 false) hours_broker = Ret o b'
    /\ o_status o = REJECTED
    /\ o_reason o = Some "market closed"
    /\ marketDataService b' = Replay sample_replay.
Proof.
  let r := eval vm_compute in
    (refreshAccount sample_rt (placeOrder sample_rt 0) "ACC-1" hours_broker) in
  lazymatch r with
  | Ret tt ?b1 =>
      assert (H1 : refreshAccount sample_rt (placeOrder sample_rt 0) "ACC-1" hours_broker
                   = Ret tt b1) by (vm_compute; reflexivity);
      assert (H2 : accounts b1 !! "ACC-1" = Some sample_account)
        by (vm_compute; reflexivity);
      assert (H3 : validateOrderByType
                     (normalizeOrderInput (rawMarketOrder "BUY" "AAPL" 1 false)) <> None
                   \/ isMarketOpen (config b1)
                        (rt_clock sample_rt (S (S (clockReads b1)))) = false)
        by (right; vm_compute; reflexivity);
      destruct (rejection_before_the_quote sample_rt (placeOrder sample_rt 0) "ACC-1"
                  (rawMarketOrder "BUY" "AAPL" 1 false) hours_broker b1 sample_account
                  H1 H2 H3)
        as (o & b' & Hrun & Hs & Hr & _ & Hm & _);
      exists o, b'; repeat split; assumption
  end.
Defined.

Section Exits.

Variable rt : Runtime.
Variable rec : string -> RawOrder -> M Order.

(** The provider after a call that throws is the provider before it. *)
Lemma attempt_getQuote_fails (symbol : string) (b : Broker) :
  midOf rt (marketDataService b) symbol = None ->
  exists e, attempt (getQuote rt symbol) b = Ret (inl e) b.
Proof.
  intros H. destruct (getQuote_fails rt symbol b H) as (e & He).
  exists e. unfold attempt. rewrite He. reflexivity.
Qed.

End Exits.

(** X12.  An order that passes the validation and the market hours, for a
    symbol the provider cannot quote, is rejected with the reason
    'unknown symbol', whatever made the provider fail: a symbol that is
    not configured, a configured symbol with an empty series, or the live
    provider, which never quotes.  The order goes in front of the order
    history and the provider is left as the opening refresh left it. *)
Theorem unquoted_symbol_is_unknown
    (rt : Runtime) (rec : string -> RawOrder -> M Order)
    (accountId : string) (rawOrder : RawOrder) (b b1 : Broker) (account : Account)
    (Hrefresh : refreshAccount rt rec accountId b = Ret tt b1)
    (Haccount : accounts b1 !! accountId = Some account)
    (Hvalid : validateOrderByType (normalizeOrderInput rawOrder) = None)
    (Hopen : isMarketOpen (config b1) (rt_clock rt (S (S (clockReads b1)))) = true)
    (Hquote : midOf rt (marketDataService b1) (toUpperCase (r_symbol rawOrder)) = None) :
  exists o b',
    placeOrder_body rt rec accountId rawOrder b = Ret o b'
    /\ o_status o = REJECTED
    /\ o_reason o = Some "unknown symbol"
    /\ marketDataService b' = marketDataService b1
    /\ accounts b' = <[accountId := unshiftOrder o account]> (accounts b1).
Proof.
  destruct (intake_door rt rec accountId rawOrder b b1 account Hrefresh Haccount)
    as (b3 & Hc & Hm & Ha & Hclock & Hrng & Hrun).
  cbv zeta in Hrun. rewrite Hvalid in Hrun.
  rewrite getConfig_run, now_run, Hc, Hclock, Hopen in Hrun. cbn [negb] in Hrun.
  set (b4 := set_clockReads (S (S (S (clockReads b1)))) b3) in Hrun.
  assert (Hq4 : midOf rt (marketDataService b4) (n_symbol (normalizeOrderInput rawOrder))
                = None) by (cbn; rewrite Hm; exact Hquote).
  destruct (attempt_getQuote_fails rt _ b4 Hq4) as (e & He).
  rewrite (bind_Ret _ _ _ _ _ He) in Hrun.
  assert (Ha4 : accounts b4 !! accountId = Some account) by (cbn; rewrite Ha; exact Haccount).
  rewrite (returned_rejection _ _ _ _ _ Ha4) in Hrun.
  unfold placeOrder_body. rewrite (bind_Ret _ _ _ _ _ Hrun).
  eexists. eexists. split; [reflexivity|].
  cbn. rewrite Ha. repeat split. exact Hm.
Qed.

Lemma unquoted_symbol_is_unknown_witness :
  exists o b',
    placeOrder_body sample_rt (placeOrder sample_rt 0) "ACC-1"
      (rawMarketOrder "BUY" "AAPL" 1 false) live_broker = Ret o b'
    /\ o_status o = REJECTED
    /\ o_reason o = Some "unknown symbol"
    /\ marketDataService b' = Live true.
Proof.
  let r := eval vm_compute in
    (refreshAccount sample_rt (placeOrder sample_rt 0) "ACC-1" live_broker) in
  lazymatch r with
  | Ret tt ?b1 =>
      assert (H1 : refreshAccount sample_rt (placeOrder sample_rt 0) "ACC-1" live_broker
                   = Ret tt b1) by (vm_compute; reflexivity);
      assert (H2 : accounts b1 !! "ACC-1" = Some sample_account)
        by (vm_compute; reflexivity);
      destruct (unquoted_symbol_is_unknown sample_rt (placeOrder sample_rt 0) "ACC-1"
                  (rawMarketOrder "BUY" "AAPL" 1 false) live_broker b1 sample_account
                  H1 H2 eq_refl eq_refl eq_refl)
        as (o & b' & Hrun & Hs & Hr & Hm & _);
      exists o, b'; repeat split; assumption
  end.
Defined.

Section Deficiency.

Variable rt : Runtime.

(** A quote that can be peeked at can be taken; taking it moves the
    cursor of its symbol and reads the clock. *)
Lemma getQuote_runs (symbol : string) (b : Broker) :
  is_Some (midOf rt (marketDataService b) symbol) ->
  exists quote b',
    getQuote rt symbol b = Ret quote b'
    /\ config b' = config b
    /\ accounts b' = accounts b
    /\ marketDataService b' = advanceCursor rt symbol (marketDataService b).
Proof.
  intros [mid Hmid].
  assert (H : exists quote b', getQuote rt symbol b = Ret quote b').
  { unfold midOf in Hmid. unfold getQuote, quoteOf.
    destruct (marketDataService b) as [svc|enabled]; [|discriminate].
    unfold Replay_quote in *.
    destruct (symbols svc !! symbol) as [entry|]; [|discriminate].
    destruct (nth_error (e_series entry) (e_index entry)); [|discriminate].
    eexists. eexists. reflexivity. }
  destruct H as (quote & b' & Hq). exists quote, b'. split; [exact Hq|].
  apply getQuote_inv in Hq. exact Hq.
Qed.

End Deficiency.

(** X13.  An account below its maintenance requirement cannot trade at
    all.  A valid order without the bypass flag, for a symbol that is
    quoted, placed while the equity of the account at the prices after
    the first quote is below the maintenance requirement, is rejected
    with the reason 'margin deficiency: account below maintenance':
    whatever its side, so that an order that would close the position is
    turned away like one that would add to it.  The first quote is used
    up, and the account gets the rejected order and nothing else. *)
Theorem deficient_account_cannot_trade
    (rt : Runtime) (rec : string -> RawOrder -> M Order)
    (accountId : string) (rawOrder : RawOrder) (b b1 : Broker) (account : Account)
    (Hrefresh : refreshAccount rt rec accountId b = Ret tt b1)
    (Haccount : accounts b1 !! accountId = Some account)
    (Hvalid : validateOrderByType (normalizeOrderInput rawOrder) = None)
    (Hopen : isMarketOpen (config b1) (rt_clock rt (S (S (clockReads b1)))) = true)
    (Hbypass : r_bypassMarginCheck rawOrder = false)
    (Hquote : is_Some (midOf rt (marketDataService b1) (toUpperCase (r_symbol rawOrder))))
    (Hquoted : forall p, In p (pos_values (positions account)) ->
                 is_Some (midOf rt
                            (advanceCursor rt (toUpperCase (r_symbol rawOrder))
                               (marketDataService b1))
                            (p_symbol p)))
    (Hdeficient :
       let md := advanceCursor rt (toUpperCase (r_symbol rawOrder)) (marketDataService b1) in
       let values := pos_values (positions account) in
       roundMoney (settledCash account + unsettledCash account
                   + marketValueOf rt md values - feesDue account)
       < roundMoney (maintenanceMarginLong (config b1) * longValueOf rt md values
                     + maintenanceMarginShort (config b1) * shortValueOf rt md values)) :
  exists o b',
    placeOrder_body rt rec accountId rawOrder b = Ret o b'
    /\ o_status o = REJECTED
    /\ o_reason o = Some "margin deficiency: account below maintenance"
    /\ marketDataService b'
       = advanceCursor rt (toUpperCase (r_symbol rawOrder)) (marketDataService b1)
    /\ accounts b' = <[accountId := unshiftOrder o account]> (accounts b1).
Proof.
  destruct (intake_door rt rec accountId rawOrder b b1 account Hrefresh Haccount)
    as (b3 & Hc & Hm & Ha & Hclock & Hrng & Hrun).
  cbv zeta in Hrun, Hdeficient. rewrite Hvalid in Hrun.
  rewrite getConfig_run, now_run, Hc, Hclock, Hopen in Hrun. cbn [negb] in Hrun.
  set (b4 := set_clockReads (S (S (S (clockReads b1)))) b3) in Hrun.
  assert (Hq4 : is_Some (midOf rt (marketDataService b4)
                           (n_symbol (normalizeOrderInput rawOrder))))
    by (cbn; rewrite Hm; exact Hquote).
  destruct (getQuote_runs rt _ b4 Hq4) as (quote & b5 & Hq & Hc5 & Ha5 & Hm5).
  cbn [marketDataService accounts config set_clockReads b4 n_symbol normalizeOrderInput]
    in Hc5, Ha5, Hm5.
  rewrite Hm in Hm5. rewrite Ha in Ha5. rewrite Hc in Hc5.
  assert (Hatt : attempt (getQuote rt (n_symbol (normalizeOrderInput rawOrder))) b4
                 = Ret (inr quote) b5) by (unfold attempt; rewrite Hq; reflexivity).
  rewrite (bind_Ret _ _ _ _ _ Hatt) in Hrun. rewrite Hbypass in Hrun.
  assert (Hacc5 : accounts b5 !! accountId = Some account) by (rewrite Ha5; exact Haccount).
  assert (Hq5 : forall p, In p (pos_values (positions account)) ->
                          is_Some (midOf rt (marketDataService b5) (p_symbol p)))
    by (rewrite Hm5; exact Hquoted).
  destruct (computeMetrics_value rt account b5 Hq5)
    as (metrics & b6 & Hmetrics & (Qc & Qm & Qa & Qr) & _ & _ & _ & Heq & _ & Hmaint & _).
  rewrite Hm5, Hc5 in *.
  assert (Hdef : hasMaintenanceDeficiency metrics = true).
  { unfold hasMaintenanceDeficiency. apply num_ltb_lt. rewrite Heq, Hmaint.
    exact Hdeficient. }
  rewrite bind_unfold in Hrun.
  rewrite (bind_Ret _ _ _ _ _ (readAccount_run _ _ _ Hacc5)) in Hrun.
  rewrite (bind_Ret _ _ _ _ _ Hmetrics) in Hrun.
  change (@mret M M_ret bool (hasMaintenanceDeficiency metrics) b6)
    with (Ret (hasMaintenanceDeficiency metrics) b6) in Hrun.
  rewrite Hdef in Hrun.
  assert (Hacc6 : accounts b6 !! accountId = Some account)
    by (rewrite Qa; exact Hacc5).
  rewrite (returned_rejection _ _ _ _ _ Hacc6) in Hrun.
  unfold placeOrder_body. rewrite (bind_Ret _ _ _ _ _ Hrun).
  eexists. eexists. split; [reflexivity|].
  cbn. rewrite Qa, Ha5, Qm. repeat split.
Qed.

Lemma deficient_account_cannot_trade_witness :
  exists o b',
    placeOrder_body sample_rt (placeOrder sample_rt 0) "ACC-1"
      (rawMarketOrder "BUY_TO_COVER" "TSLA" 10 false) deficient_broker = Ret o b'
    /\ o_status o = REJECTED
    /\ o_reason o = Some "margin deficiency: account below maintenance"
    /\ accounts b' !! "ACC-1" = Some (unshiftOrder o short_account).
Proof.
  let r := eval vm_compute in
    (refreshAccount sample_rt (placeOrder sample_rt 0) "ACC-1" deficient_broker) in
  lazymatch r with
  | Ret tt ?b1 =>
      assert (H1 : refreshAccount sample_rt (placeOrder sample_rt 0) "ACC-1" deficient_broker
                   = Ret tt b1) by (vm_compute; reflexivity);
      assert (H2 : accounts b1 !! "ACC-1" = Some short_account)
        by (vm_compute; reflexivity);
      destruct (deficient_account_cannot_trade sample_rt (placeOrder sample_rt 0) "ACC-1"
                  (rawMarketOrder "BUY_TO_COVER" "TSLA" 10 false) deficient_broker b1
                  short_account H1 H2 eq_refl eq_refl eq_refl)
        as (o & b' & Hrun & Hs & Hr & _ & Ha)
  end.
  - exists (roundMoney 200). vm_compute. reflexivity.
  - intros p [<-|[]]. exists (roundMoney 200). vm_compute. reflexivity.
  - vm_compute. reflexivity.
  - exists o, b'. split; [exact Hrun|]. split; [exact Hs|]. split; [exact Hr|].
    rewrite Ha. apply lookup_insert_eq.
Defined.

(** ** The refresh of an account *)

Section Maintenance.

Variable rt : Runtime.

Lemma now_inv_quiet (b b' : Broker) (t : Time) :
  now rt b = Ret t b' -> t = rt_clock rt (clockReads b) /\ quiet b b'.
Proof. intros [= <- <-]. repeat split. Qed.

Lemma shortValue_loop_quiet (values : list Position) :
  forall acc b r b', shortValue_loop rt values acc b = Ret r b' -> quiet b b'.
Proof.
  induction values as [|p rest IH]; intros acc b r b' H.
  - injection H as _ <-. apply quiet_refl.
  - cbn [shortValue_loop] in H.
    destruct (num_leb 0 (p_quantity p)); [eapply IH; exact H|].
    bind_inv H. apply peekQuote_inv in Hstep as [Hq _].
    apply IH in H. eapply quiet_trans; eassumption.
Qed.

Lemma withValue_loop_quiet (values : list Position) :
  forall b r b', withValue_loop rt values b = Ret r b' ->
                 quiet b b' /\ map fst r = values.
Proof.
  induction values as [|p rest IH]; intros b r b' H.
  - injection H as <- <-. split; [apply quiet_refl | reflexivity].
  - cbn [withValue_loop] in H.
    bind_inv H. apply peekQuote_inv in Hstep as [Hq _].
    bind_inv H. apply IH in Hstep as [Hq' Hmap].
    injection H as <- <-. split; [eapply quiet_trans; eassumption|].
    cbn. rewrite Hmap. reflexivity.
Qed.

Lemma settleEntries_identity (due : list Settlement) (account : Account) :
  id (fold_left settleEntry due account) = id account
  /\ createdAt (fold_left settleEntry due account) = createdAt account
  /\ lastBorrowFeeDate (fold_left settleEntry due account) = lastBorrowFeeDate account.
Proof.
  revert account. induction due as [|e rest IH]; intros account; cbn [fold_left].
  - repeat split.
  - destruct (IH (settleEntry account e)) as (H1 & H2 & H3).
    rewrite H1, H2, H3. unfold settleEntry. destruct (s_direction e); repeat split.
Qed.

Lemma settleDueEntries_book (t : Time) (a : Account) :
  same_book a (settleDueEntries t a)
  /\ lastBorrowFeeDate (settleDueEntries t a) = lastBorrowFeeDate a.
Proof.
  unfold settleDueEntries. rewrite splitDue_filter.
  set (due := List.filter _ _). set (kept := List.filter _ _).
  destruct (settleEntries_identity due (set_pendingSettlements kept a)) as (I1 & I2 & I3).
  destruct (settleEntries_frame due (set_pendingSettlements kept a))
    as (_ & _ & F3 & F4 & F5).
  cbn in I1, I2, I3, F3, F4, F5.
  destruct (num_ltb 0 _); repeat split; cbn; assumption.
Qed.

Lemma set_fee_and_date_same (a : Account) :
  set_lastBorrowFeeDate (lastBorrowFeeDate a) (set_feesDue (feesDue a) a) = a.
Proof. destruct a. reflexivity. Qed.

(** [#applyBorrowFeesIfNeeded] changes nothing of the account but the
    fees due and the date of the last borrow fee, and nothing else of the
    broker but the count of the clock. *)
Lemma applyBorrowFees_inv (ref : string) (b b' : Broker) (u : unit) :
  applyBorrowFeesIfNeeded rt ref b = Ret u b' ->
  config b' = config b
  /\ marketDataService b' = marketDataService b
  /\ rngDraws b' = rngDraws b
  /\ exists a fee date,
       accounts b !! ref = Some a
       /\ accounts b' = <[ref := set_lastBorrowFeeDate date (set_feesDue fee a)]> (accounts b).
Proof.
  unfold applyBorrowFeesIfNeeded. intros H.
  bind_inv H. apply now_inv_quiet in Hstep as (-> & (Uc & Um & Ua & Ur)).
  bind_inv H. apply readAccount_inv in Hstep as (Ha & ->). rename x into a.
  rewrite Ua in Ha.
  destruct (lastBorrowFeeDate a =? _)%Z.
  { injection H as _ <-. repeat split; try assumption.
    exists a, (feesDue a), (lastBorrowFeeDate a). split; [exact Ha|].
    rewrite set_fee_and_date_same, Ua. symmetry. apply insert_id, Ha. }
  destruct (countDays _ _ _ _ <=? 0)%Z.
  { apply writeAccount_inv in H as (a1 & Ha1 & ->).
    rewrite Ua, Ha in Ha1. injection Ha1 as <-.
    cbn. repeat split; try assumption.
    eexists a, (feesDue a), _. split; [exact Ha|]. rewrite Ua.
    reflexivity. }
  bind_inv H. apply shortValue_loop_quiet in Hstep as (Qc & Qm & Qa & Qr).
  bind_inv H. apply getConfig_inv in Hstep as (-> & ->).
  bind_inv H.
  destruct (num_ltb 0 _).
  - apply writeAccount_inv in Hstep as (a1 & Ha1 & ->).
    rewrite Qa, Ua, Ha in Ha1. injection Ha1 as <-.
    apply writeAccount_inv in H as (a2 & Ha2 & ->).
    cbn in Ha2. rewrite lookup_insert_eq in Ha2. injection Ha2 as <-.
    cbn. repeat split; try congruence.
    eexists a, _, _. split; [exact Ha|].
    rewrite insert_insert_eq, Qa, Ua. f_equal.
  - injection Hstep as _ <-.
    apply writeAccount_inv in H as (a1 & Ha1 & ->).
    rewrite Qa, Ua, Ha in Ha1. injection Ha1 as <-.
    cbn. repeat split; try congruence.
    eexists a, (feesDue a), _. split; [exact Ha|]. rewrite Qa, Ua.
    reflexivity.
Qed.

End Maintenance.

Section Refreshing.

Variable rt : Runtime.
Variable rec : string -> RawOrder -> M Order.

(** The refresh of an account under a configuration that does not
    liquidate. *)
Lemma refresh_disabled_inv (ref : string) (b b' : Broker) (u : unit) :
  refreshAccount rt rec ref b = Ret u b' ->
  forceLiquidationEnabled (config b) = false ->
  config b' = config b
  /\ marketDataService b' = marketDataService b
  /\ rngDraws b' = rngDraws b
  /\ exists a fee date,
       accounts b !! ref = Some a
       /\ accounts b'
          = <[ref := set_lastBorrowFeeDate date
                       (set_feesDue fee (settleDueEntries (rt_clock rt (clockReads b)) a))]>
              (accounts b).
Proof.
  unfold refreshAccount. intros H Hoff.
  bind_inv H. apply now_inv_quiet in Hstep as (-> & (Uc & Um & Ua & Ur)).
  bind_inv H. apply writeAccount_inv in Hstep as (a & Ha & ->).
  bind_inv H. apply applyBorrowFees_inv in Hstep as (Bc & Bm & Br & a1 & fee & date & Ha1 & Ba).
  cbn in Bc, Bm, Br, Ha1, Ba. rewrite lookup_insert_eq in Ha1. injection Ha1 as <-.
  bind_inv H. apply getConfig_inv in Hstep as (-> & ->).
  rewrite Bc, Uc, Hoff in H. injection H as _ <-.
  split; [congruence|]. split; [congruence|]. split; [congruence|].
  exists a, fee, date. rewrite Ua in Ha. split; [exact Ha|].
  rewrite Ba, insert_insert_eq, Ua. reflexivity.
Qed.

End Refreshing.

(** X14.  Under a configuration without forced liquidation, the refresh
    of an account is the settlement at the instant it reads from the
    clock, followed by a change of nothing but the fees due and the date
    of the last borrow fee: identifier, positions, orders and fills of the
    account, all other accounts, the quote provider and the random
    generator are left alone. *)
Theorem refresh_without_liquidation
    (rt : Runtime) (rec : string -> RawOrder -> M Order) (ref : string) (b b' : Broker)
    (Hrun : refreshAccount rt rec ref b = Ret tt b')
    (Hoff : forceLiquidationEnabled (config b) = false) :
  config b' = config b
  /\ marketDataService b' = marketDataService b
  /\ rngDraws b' = rngDraws b
  /\ exists a a' fee date,
       accounts b !! ref = Some a
       /\ accounts b' = <[ref := a']> (accounts b)
       /\ a' = set_lastBorrowFeeDate date
                 (set_feesDue fee (settleDueEntries (rt_clock rt (clockReads b)) a))
       /\ same_book a a'.
Proof.
  destruct (refresh_disabled_inv rt rec ref b b' tt Hrun Hoff)
    as (Hc & Hm & Hr & a & fee & date & Ha & Hacc).
  split; [exact Hc|]. split; [exact Hm|]. split; [exact Hr|].
  exists a. eexists. exists fee, date.
  split; [exact Ha|]. split; [exact Hacc|]. split; [reflexivity|].
  destruct (settleDueEntries_book (rt_clock rt (clockReads b)) a) as (Hbook & _).
  exact Hbook.
Qed.

Lemma refresh_without_liquidation_witness :
  exists b',
    refreshAccount sample_rt (placeOrder sample_rt 0) "ACC-1" long_broker = Ret tt b'
    /\ marketDataService b' = marketDataService long_broker
    /\ exists a', accounts b' = <["ACC-1" := a']> (accounts long_broker)
                  /\ same_book long_account a'.
Proof.
  let r := eval vm_compute in
    (refreshAccount sample_rt (placeOrder sample_rt 0) "ACC-1" long_broker) in
  lazymatch r with
  | Ret tt ?b1 =>
      assert (H1 : refreshAccount sample_rt (placeOrder sample_rt 0) "ACC-1" long_broker
                   = Ret tt b1) by (vm_compute; reflexivity);
      destruct (refresh_without_liquidation sample_rt (placeOrder sample_rt 0) "ACC-1"
                  long_broker b1 H1 eq_refl)
        as (_ & Hm & _ & a & a' & fee & date & Ha & Hacc & _ & Hbook);
      exists b1; split; [exact H1|]; split; [exact Hm|];
      exists a'; split; [exact Hacc|]
  end.
  assert (E : a = long_account).
  { assert (L : accounts long_broker !! "ACC-1" = Some long_account) by reflexivity.
    rewrite L in Ha. injection Ha as <-. reflexivity. }
  rewrite <- E. exact Hbook.
Defined.

(** ** The borrow fee *)

Section BorrowFee.

Variable rt : Runtime.



Lemma set_lastBorrowFeeDate_same (a : Account) :
  set_lastBorrowFeeDate (lastBorrowFeeDate a) a = a.
Proof. destruct a. reflexivity. Qed.

End BorrowFee.



(** ** What [placeOrder] returns *)

Section Cases.

Variable rt : Runtime.
Variable rec : string -> RawOrder -> M Order.

Lemma validate_reason (order : OrderInput) (reason : string) :
  validateOrderByType order = Some reason -> In reason REJECT_REASONS.
Proof.
  unfold validateOrderByType, REJECT_REASONS.
  repeat match goal with
         | |- (if ?c then _ else _) = _ -> _ =>
             destruct c; [intros [= <-]; cbn; tauto|]
         end.
  discriminate.
Qed.

(** The trigger state of a validated order. *)
Lemma trigger_cases (order : OrderInput) (quote : Quote) :
  validateOrderByType order = None ->
  match evaluateTrigger order quote with
  | NOT_REQUIRED => n_type order = "MARKET" \/ n_type order = "LIMIT"
  | PENDING_TRIGGER => n_type order = "STOP" \/ n_type order = "STOP_LIMIT"
  | PENDING_LIMIT => False
  | TRIGGERED_TO_MARKET => n_type order = "STOP"
  | TRIGGERED_TO_LIMIT => n_type order = "STOP_LIMIT"
  end.
Proof.
  intros Hv. unfold evaluateTrigger.
  destruct (validate_types order Hv) as [E|[E|[E|E]]]; rewrite E; cbn;
    try (left; reflexivity); try (right; reflexivity);
    destruct (negb _); cbn; tauto.
Qed.

(** Lines 231-281, by cases on what they return. *)
Lemma intake_cases (accountId : string) (rawOrder : RawOrder) (b b' : Broker)
    (r : Order + Intake) :
  placeOrder_intake rt rec accountId rawOrder b = Ret r b' ->
  exists b1 account,
    refreshAccount rt rec accountId b = Ret tt b1
    /\ accounts b1 !! accountId = Some account
    /\ config b' = config b1
    /\ let order := normalizeOrderInput rawOrder in
       let base :=
         baseOrderOf account order (rt_clock rt (clockReads b1))
           (Qfloor (rt_random rt (rngDraws b1) * 10000))
           (rt_clock rt (S (clockReads b1))) in
       match r with
       | inl o =>
           accounts b' = <[accountId := unshiftOrder o account]> (accounts b1)
           /\ ((exists reason, In reason REJECT_REASONS /\ o = rejected base reason)
               \/ (o = base
                   /\ validateOrderByType order = None
                   /\ (n_type order = "STOP" \/ n_type order = "STOP_LIMIT")))
       | inr ctx =>
           accounts b' = accounts b1
           /\ validateOrderByType order = None
           /\ i_ref ctx = accountId
           /\ i_order ctx = order
           /\ i_bypassMarginCheck ctx = r_bypassMarginCheck rawOrder
           /\ i_baseOrder ctx = base
           /\ match i_triggerState ctx with
              | NOT_REQUIRED => n_type order = "MARKET" \/ n_type order = "LIMIT"
              | TRIGGERED_TO_MARKET => n_type order = "STOP"
              | TRIGGERED_TO_LIMIT => n_type order = "STOP_LIMIT"
              | _ => False
              end
       end.
Proof.
  intros H.
  destruct (placeOrder_intake_inv rt rec accountId rawOrder b b' r H)
    as (b1 & account & base0 & Hrefresh & Hacc & _ & Hcfg & _).
  exists b1, account. split; [exact Hrefresh|]. split; [exact Hacc|].
  split; [exact Hcfg|].
  destruct (intake_door rt rec accountId rawOrder b b1 account Hrefresh Hacc)
    as (b3 & Hc & Hm & Ha & Hclock & Hrng & Hrun).
  rewrite Hrun in H. clear Hrun. cbv zeta in H |- *.
  set (order := normalizeOrderInput rawOrder) in *.
  set (base := baseOrderOf account order _ _ _) in *.
  assert (Hrej : forall reason bb o bb',
             In reason REJECT_REASONS ->
             accounts bb = accounts b1 ->
             rejectOrder accountId base reason bb = Ret o bb' ->
             accounts bb' = <[accountId := unshiftOrder o account]> (accounts b1)
             /\ ((exists reason, In reason REJECT_REASONS /\ o = rejected base reason)
                 \/ (o = base
                     /\ validateOrderByType order = None
                     /\ (n_type order = "STOP" \/ n_type order = "STOP_LIMIT")))).
  { intros reason bb o bb' Hin Hab Hr.
    apply rejectOrder_inv in Hr as (-> & a & Hl & ->).
    rewrite Hab, Hacc in Hl. injection Hl as <-.
    cbn. rewrite Hab. split; [reflexivity|]. left.
    exists reason. split; [exact Hin | reflexivity]. }
  destruct (validateOrderByType order) as [err|] eqn:Ev.
  { apply returned_inv in H as (o & -> & H).
    eapply Hrej; [eapply validate_reason; exact Ev | exact Ha | exact H]. }
  bind_inv H. apply getConfig_inv in Hstep as (-> & ->).
  bind_inv H. apply now_inv in Hstep as (-> & (Uc4 & Um4 & Ua4)).
  destruct (negb (isMarketOpen (config b3) _)).
  { apply returned_inv in H as (o & -> & H).
    eapply Hrej; [| |exact H]; [cbn; tauto | congruence]. }
  bind_inv H. rename x into quoted. apply attempt_inv in Hstep.
  destruct quoted as [e|quote].
  { apply getQuote_throw in Hstep as ->.
    apply returned_inv in H as (o & -> & H).
    eapply Hrej; [| |exact H]; [cbn; tauto | congruence]. }
  apply getQuote_inv in Hstep as (Uc5 & Ua5 & Um5).
  bind_inv H. rename x into deficient.
  assert (U6 : unchanged b2 b4).
  { destruct (r_bypassMarginCheck rawOrder).
    - injection Hstep as _ <-. apply unchanged_refl.
    - bind_inv Hstep. apply readAccount_inv in Hstep0 as (_ & ->).
      bind_inv Hstep. apply computeMetrics_inv in Hstep0.
      injection Hstep as _ <-. apply quiet_unchanged, Hstep0. }
  destruct U6 as (Uc6 & Um6 & Ua6).
  destruct deficient.
  { apply returned_inv in H as (o & -> & H).
    eapply Hrej; [| |exact H]; [cbn; tauto | congruence]. }
  pose proof (trigger_cases order quote Ev) as Ht.
  destruct (evaluateTrigger order quote) eqn:Et.
  - injection H as <- <-. cbn. repeat split; try congruence. exact Ht.
  - apply returned_inv in H as (o & -> & H).
    apply parkOrder_inv in H as (-> & a & Hl & ->).
    assert (Hab : accounts b4 = accounts b1) by congruence.
    rewrite Hab, Hacc in Hl. injection Hl as <-.
    cbn. rewrite Hab. split; [reflexivity|]. right. repeat split. exact Ht.
  - contradiction.
  - injection H as <- <-. cbn. repeat split; try congruence. exact Ht.
  - injection H as <- <-. cbn. repeat split; try congruence. exact Ht.
Qed.

End Cases.

Section FillCases.

Variable rt : Runtime.
Variable rec : string -> RawOrder -> M Order.

(** What [#applyTrade] leaves alone. *)
Lemma applyTrade_fields (config : BrokerConfig) (account : Account) (order : OrderInput)
    (fillPrice notional fees : Q) (instant : Time) :
  let account' := applyTrade config account order fillPrice notional fees instant in
  id account' = id account
  /\ createdAt account' = createdAt account
  /\ orders account' = orders account
  /\ fills account' = fills account
  /\ lastBorrowFeeDate account' = lastBorrowFeeDate account.
Proof.
  unfold applyTrade. cbv zeta.
  destruct (sideIsBuy (n_side order)); destruct (num_eqb _ 0); repeat split.
Qed.

(** Lines 283-290, by cases on what they return. *)
Lemma match_cases (ctx : Intake) (b b' : Broker) (r : Order + Matched)
    (account : Account) :
  placeOrder_match rt ctx b = Ret r b' ->
  accounts b !! i_ref ctx = Some account ->
  config b' = config b
  /\ match r with
     | inl o =>
         o = i_baseOrder ctx
         /\ accounts b' = <[i_ref ctx := unshiftOrder o account]> (accounts b)
         /\ effectiveTypeOf (i_triggerState ctx) (n_type (i_order ctx)) <> "MARKET"
     | inr matched =>
         accounts b' = accounts b
         /\ x_effectiveType matched
            = effectiveTypeOf (i_triggerState ctx) (n_type (i_order ctx))
     end.
Proof.
  unfold placeOrder_match. intros H Ha.
  bind_inv H. apply getQuote_inv in Hstep as (Uc & Ua & _).
  destruct (evaluateFillCondition _ _ _) eqn:Ef; cbn [negb] in H.
  - injection H as <- <-. split; [exact Uc|]. split; [exact Ua | reflexivity].
  - apply returned_inv in H as (o & -> & H).
    apply parkOrder_inv in H as (-> & a & Hl & ->).
    rewrite Ua, Ha in Hl. injection Hl as <-.
    split; [exact Uc|]. split; [reflexivity|]. split; [cbn; rewrite Ua; reflexivity|].
    intros E. unfold evaluateFillCondition in Ef. rewrite E in Ef. discriminate.
Qed.

Lemma applyTradeTo_run (ref : string) (order : OrderInput) (fillPrice notional fees : Q)
    (b : Broker) (account : Account) :
  accounts b !! ref = Some account ->
  applyTradeTo rt ref order fillPrice notional fees b
  = Ret tt
      (set_accounts
         (<[ref := applyTrade (config b) account order fillPrice notional fees
                     (rt_clock rt (clockReads b))]> (accounts b))
         (set_clockReads (S (clockReads b)) b)).
Proof.
  intros Ha. unfold applyTradeTo. rewrite getConfig_run, now_run.
  assert (Ha' : accounts (set_clockReads (S (clockReads b)) b) !! ref = Some account)
    by exact Ha.
  rewrite (writeAccount_run _ _ _ _ Ha'). reflexivity.
Qed.

(** Lines 308-330 put the filled order and one fill in front of their
    histories; the closing refresh follows. *)
Lemma record_run (ctx : Intake) (matched : Matched) (fillPrice notional fees : Q)
    (b : Broker) (a : Account) :
  accounts b !! i_ref ctx = Some a ->
  exists filledAt fill b5,
    let o := filled (i_baseOrder ctx) filledAt fillPrice fees (i_triggerState ctx)
               (x_effectiveType matched) in
    placeOrder_record rt rec ctx matched fillPrice notional fees b
    = (refreshAccount rt rec (i_ref ctx) ≫= fun _ => mret o) b5
    /\ accounts b5
       = <[i_ref ctx := set_fills (fill :: fills a) (unshiftOrder o a)]> (accounts b)
    /\ f_orderId fill = o_id o
    /\ f_accountId fill = id a
    /\ f_symbol fill = n_symbol (i_order ctx)
    /\ f_side fill = n_side (i_order ctx)
    /\ f_quantity fill = orderQuantity (i_order ctx)
    /\ f_price fill = fillPrice
    /\ f_notional fill = notional
    /\ f_fees fill = fees
    /\ config b5 = config b
    /\ marketDataService b5 = marketDataService b.
Proof.
  intros Ha. eexists _, _, _. cbv zeta.
  split.
  { unfold placeOrder_record. rewrite now_run.
    assert (Ha1 : accounts (set_clockReads (S (clockReads b)) b) !! i_ref ctx = Some a)
      by exact Ha.
    rewrite (bind_Ret _ _ _ _ _ (writeAccount_run _ _ _ _ Ha1)).
    rewrite now_run, rng_run, now_run.
    rewrite bind_unfold. unfold readAccount at 1.
    cbn [accounts set_clockReads set_rngDraws set_accounts].
    rewrite lookup_insert_eq.
    rewrite bind_unfold. unfold writeAccount at 1.
    cbn [accounts set_clockReads set_rngDraws set_accounts].
    rewrite lookup_insert_eq.
    reflexivity. }
  split.
  { cbn. rewrite insert_insert_eq. reflexivity. }
  repeat split.
Qed.

(** Lines 292-332, by cases on what they return: the order rejected by
    the simulation, or the trade, the filled order and the fill, followed
    by the closing refresh. *)
Lemma fill_cases (ctx : Intake) (matched : Matched) (b b' : Broker) (o : Order)
    (account : Account) :
  placeOrder_fill rt rec ctx matched b = Ret o b' ->
  accounts b !! i_ref ctx = Some account ->
  let order := i_order ctx in
  let slippageBps :=
    slippageBpsOf rt (config b) (orderQuantity order)
      (q_volatilityProxy (x_executionQuote matched)) (rt_random rt (rngDraws b)) in
  let fillPrice := fillPriceOf ctx matched slippageBps in
  let notional := notionalOf ctx fillPrice in
  let fees := calcFees (config b) notional in
  (i_bypassMarginCheck ctx = false
   /\ o = rejected (i_baseOrder ctx) insufficient
   /\ accounts b' = <[i_ref ctx := unshiftOrder o account]> (accounts b)
   /\ config b' = config b)
  \/ (exists tradedAt filledAt fill b5,
        let traded := applyTrade (config b) account order fillPrice notional fees tradedAt in
        o = filled (i_baseOrder ctx) filledAt fillPrice fees (i_triggerState ctx)
              (x_effectiveType matched)
        /\ f_orderId fill = o_id o
        /\ f_accountId fill = id account
        /\ f_symbol fill = n_symbol order
        /\ f_side fill = n_side order
        /\ f_quantity fill = orderQuantity order
        /\ f_price fill = fillPrice
        /\ f_notional fill = notional
        /\ f_fees fill = fees
        /\ config b5 = config b
        /\ accounts b5
           = <[i_ref ctx := set_fills (fill :: fills traded) (unshiftOrder o traded)]>
               (accounts b)
        /\ refreshAccount rt rec (i_ref ctx) b5 = Ret tt b').
Proof.
  intros H Ha order slippageBps fillPrice notional fees.
  unfold placeOrder_fill, calcSlippageBps in H.
  bind_inv H. apply getConfig_inv in Hstep as (-> & ->).
  bind_inv H. bind_inv Hstep. apply rng_inv in Hstep0 as (-> & (Uc & Um & Ua)).
  injection Hstep as <- <-.
  fold order slippageBps fillPrice notional fees in H.
  unfold placeOrder_settle in H.
  bind_inv H. rename x into simulation.
  assert (Hsim : unchanged b1 b0
                 /\ (sim_ok simulation = false ->
                     i_bypassMarginCheck ctx = false
                     /\ sim_reason simulation = Some insufficient)).
  { destruct (i_bypassMarginCheck ctx).
    - injection Hstep as <- <-. split; [apply unchanged_refl | discriminate].
    - apply simulatePostTrade_inv in Hstep as (U & Hr). split; [exact U|]. auto. }
  clear Hstep.
  destruct Hsim as ((Sc & Sm & Sa) & Hbad).
  assert (Ha0 : accounts b0 !! i_ref ctx = Some account) by (rewrite Sa, Ua; exact Ha).
  assert (Hc0 : config b0 = config b) by congruence.
  assert (Hacc0 : accounts b0 = accounts b) by congruence.
  destruct (sim_ok simulation); cbn [negb] in H.
  - right.
    rewrite (bind_Ret _ _ _ _ _ (applyTradeTo_run _ _ _ _ _ _ _ Ha0)) in H.
    set (traded := applyTrade (config b0) account (i_order ctx) fillPrice notional fees
                     (rt_clock rt (clockReads b0))) in H.
    set (bT := set_accounts _ _) in H.
    assert (HaT : accounts bT !! i_ref ctx = Some traded) by apply lookup_insert_eq.
    destruct (record_run ctx matched fillPrice notional fees bT traded HaT)
      as (filledAt & fill & b5 & Hrun & Fa & F1 & F2 & F3 & F4 & F5 & F6 & F7 & F8 & Fc & _).
    cbv zeta in F1, Fa, Hrun. rewrite Hrun in H. clear Hrun.
    bind_inv H. destruct x. injection H as <- <-.
    exists (rt_clock rt (clockReads b0)), filledAt, fill, b5. cbv zeta.
    rewrite <- Hc0. fold traded.
    split; [reflexivity|].
    split; [exact F1|].
    split; [rewrite F2; apply applyTrade_fields|].
    split; [exact F3|]. split; [exact F4|]. split; [exact F5|].
    split; [exact F6|]. split; [exact F7|]. split; [exact F8|].
    split; [exact Fc|].
    split; [|exact Hstep].
    rewrite Fa. subst bT. cbn. rewrite insert_insert_eq, Hacc0. reflexivity.
  - left. destruct (Hbad eq_refl) as (Hb & Hr). rewrite Hr in H.
    apply rejectOrder_inv in H as (-> & a & Hl & ->).
    rewrite Ha0 in Hl. injection Hl as <-.
    split; [exact Hb|]. split; [reflexivity|]. cbn. rewrite Hacc0.
    split; [reflexivity | exact Hc0].
Qed.

End FillCases.





(** ** One account at a time *)

Section Touch.

Variable rt : Runtime.

Lemma touches_refl (ref : string) (b : Broker) : touches_only ref b b.
Proof.
  split; [reflexivity|]. split; [reflexivity|].
  destruct (accounts b !! ref); [split; reflexivity | exact I].
Qed.

Lemma touches_trans (ref : string) (b1 b2 b3 : Broker) :
  touches_only ref b1 b2 -> touches_only ref b2 b3 -> touches_only ref b1 b3.
Proof.
  intros (C1 & O1 & A1) (C2 & O2 & A2).
  split; [congruence|]. split.
  - intros other Hne. rewrite (O2 other Hne). apply O1, Hne.
  - destruct (accounts b1 !! ref), (accounts b2 !! ref), (accounts b3 !! ref);
      try contradiction; try exact I.
    destruct A1, A2. split; congruence.
Qed.

Lemma touches_same (ref : string) (b b' : Broker) :
  config b' = config b -> accounts b' = accounts b -> touches_only ref b b'.
Proof.
  intros Hc Ha. split; [exact Hc|]. split; [intros; rewrite Ha; reflexivity|].
  rewrite Ha. destruct (accounts b !! ref); [split; reflexivity | exact I].
Qed.

Lemma touches_unchanged (ref : string) (b b' : Broker) :
  unchanged b b' -> touches_only ref b b'.
Proof. intros (Hc & _ & Ha). apply touches_same; assumption. Qed.

Lemma touches_insert (ref : string) (b b' : Broker) (a a' : Account) :
  accounts b !! ref = Some a ->
  config b' = config b ->
  accounts b' = <[ref := a']> (accounts b) ->
  id a' = id a -> createdAt a' = createdAt a ->
  touches_only ref b b'.
Proof.
  intros Ha Hc Hacc Hid Hcr. split; [exact Hc|]. split.
  - intros other Hne. rewrite Hacc. apply lookup_insert_ne. congruence.
  - rewrite Ha, Hacc, lookup_insert_eq. split; assumption.
Qed.

Lemma keyed_touches (ref : string) (b b' : Broker) :
  keyed b -> touches_only ref b b' -> keyed b'.
Proof.
  intros Hk (_ & Ho & Ha) k a Hl.
  destruct (String.eqb_spec k ref) as [->|Hne].
  - rewrite Hl in Ha. destruct (accounts b !! ref) as [a0|] eqn:E; [|contradiction].
    destruct Ha as (Hid & _). rewrite Hid. apply (Hk ref a0 E).
  - rewrite (Ho k Hne) in Hl. apply (Hk k a Hl).
Qed.

Lemma touches_write (ref : string) (f : Account -> Account) (b b' : Broker) (u : unit) :
  (forall a, id (f a) = id a /\ createdAt (f a) = createdAt a) ->
  writeAccount ref f b = Ret u b' ->
  touches_only ref b b'.
Proof.
  intros Hf H. apply writeAccount_inv in H as (a & Ha & ->).
  eapply touches_insert; [exact Ha | reflexivity | reflexivity | apply Hf | apply Hf].
Qed.

Lemma unshiftOrder_identity (o : Order) (a : Account) :
  id (unshiftOrder o a) = id a /\ createdAt (unshiftOrder o a) = createdAt a.
Proof. split; reflexivity. Qed.

Variable rec : string -> RawOrder -> M Order.
Hypothesis Hrec :
  forall accountId rawOrder b o b',
    keyed b -> rec accountId rawOrder b = Ret o b' -> touches_only accountId b b'.

Lemma forceLiquidate_touches (ref : string) (b b' : Broker) (u : unit) :
  keyed b ->
  forceLiquidateLargestPosition rt rec ref b = Ret u b' ->
  touches_only ref b b'.
Proof.
  intros Hk H. unfold forceLiquidateLargestPosition in H.
  bind_inv H. apply readAccount_inv in Hstep as (Ha & ->). rename x into account.
  pose proof (Hk ref account Ha) as Hid.
  destruct (length _ =? 0)%nat.
  { injection H as _ <-. apply touches_refl. }
  bind_inv H. apply withValue_loop_quiet in Hstep as (Hq & _).
  apply quiet_unchanged, (touches_unchanged ref) in Hq.
  destruct (sortByValue x) as [|[target value] others]; [discriminate|].
  bind_inv H. rename x0 into forced.
  rewrite Hid in Hstep.
  pose proof (keyed_touches ref b b0 Hk Hq) as Hk0.
  apply (Hrec ref _ b0 forced b1 Hk0) in Hstep.
  assert (T1 : touches_only ref b b1) by (eapply touches_trans; eassumption).
  destruct (o_status forced); try (injection H as _ <-; exact T1).
  bind_inv H. apply now_inv in Hstep0 as (_ & U1).
  bind_inv H. apply now_inv in Hstep0 as (_ & U2).
  apply (touches_write ref) in H; [|intros a; apply unshiftOrder_identity].
  eapply touches_trans; [exact T1|].
  eapply touches_trans; [apply touches_unchanged, U1|].
  eapply touches_trans; [apply touches_unchanged, U2 | exact H].
Qed.

Lemma refresh_touches (ref : string) (b b' : Broker) (u : unit) :
  keyed b ->
  refreshAccount rt rec ref b = Ret u b' ->
  touches_only ref b b'.
Proof.
  intros Hk H. unfold refreshAccount in H.
  apply bind_Ret_inv in H as (t & s1 & Hnow & H).
  apply now_inv in Hnow as (_ & U1). apply (touches_unchanged ref) in U1.
  apply bind_Ret_inv in H as (u2 & s2 & Hsettle & H).
  apply (touches_write ref) in Hsettle;
    [|intros a; destruct (settleDueEntries_book t a) as ((? & ? & _) & _); split; assumption].
  apply bind_Ret_inv in H as (u3 & s3 & Hborrow & H).
  assert (T3 : touches_only ref s2 s3).
  { apply applyBorrowFees_inv in Hborrow as (Bc & _ & _ & a & fee & date & Ha & Hacc).
    eapply touches_insert; [exact Ha | exact Bc | exact Hacc | reflexivity | reflexivity]. }
  assert (T : touches_only ref b s3)
    by (eapply touches_trans; [exact U1|]; eapply touches_trans; eassumption).
  apply bind_Ret_inv in H as (c & s4 & Hcfg & H).
  apply getConfig_inv in Hcfg as (-> & ->).
  destruct (forceLiquidationEnabled (config s3)); [|injection H as _ <-; exact T].
  apply bind_Ret_inv in H as (account & s5 & Hread & H).
  apply readAccount_inv in Hread as (_ & ->).
  apply bind_Ret_inv in H as (metrics & s6 & Hmetrics & H).
  apply computeMetrics_inv, quiet_unchanged, (touches_unchanged ref) in Hmetrics.
  assert (T4 : touches_only ref b s6) by (eapply touches_trans; eassumption).
  destruct (hasMaintenanceDeficiency _); [|injection H as _ <-; exact T4].
  eapply touches_trans; [exact T4|].
  eapply forceLiquidate_touches; [|exact H].
  eapply keyed_touches; eassumption.
Qed.

Lemma body_touches (accountId : string) (rawOrder : RawOrder) (b b' : Broker) (o : Order) :
  keyed b ->
  placeOrder_body rt rec accountId rawOrder b = Ret o b' ->
  touches_only accountId b b'.
Proof.
  intros Hk H. unfold placeOrder_body in H.
  apply bind_Ret_inv in H as (intake & b2 & Hintake & H).
  destruct (intake_cases rt rec accountId rawOrder b b2 intake Hintake)
    as (b1 & account & Hrefresh & Hacc & Hcfg & Hcase).
  cbv zeta in Hcase.
  pose proof (refresh_touches accountId b b1 tt Hk Hrefresh) as T1.
  eapply touches_trans; [exact T1|].
  destruct intake as [early|ctx].
  { injection H as _ <-. destruct Hcase as (Ha2 & Hshape).
    eapply touches_insert; [exact Hacc | exact Hcfg | exact Ha2 | reflexivity | reflexivity]. }
  destruct Hcase as (Ha2 & Hv & Href & Horder & Hbypass & Hbase & Hts).
  assert (T2 : touches_only accountId b1 b2) by (apply touches_same; assumption).
  eapply touches_trans; [exact T2|].
  assert (Hacc2 : accounts b2 !! i_ref ctx = Some account) by (rewrite Href, Ha2; exact Hacc).
  apply bind_Ret_inv in H as (matching & b3 & Hmatch & H).
  destruct (match_cases rt ctx b2 b3 matching account Hmatch Hacc2) as (Hc3 & Hm).
  destruct matching as [parked|matched].
  { injection H as _ <-. destruct Hm as (_ & Ha3 & _). rewrite Href in *.
    eapply touches_insert; [exact Hacc2 | exact Hc3 | exact Ha3 | reflexivity | reflexivity]. }
  destruct Hm as (Ha3 & _).
  eapply touches_trans; [apply touches_same; [exact Hc3 | exact Ha3]|].
  assert (Hacc3 : accounts b3 !! i_ref ctx = Some account) by (rewrite Ha3; exact Hacc2).
  destruct (fill_cases rt rec ctx matched b3 b' o account H Hacc3)
    as [(_ & _ & Ha' & Hc')
       |(tradedAt & filledAt & fill & b5 & _ & _ & _ & _ & _ & _ & _ & _ & _
         & Hc5 & Ha5 & Hclosing)].
  - rewrite Href in *.
    eapply touches_insert; [exact Hacc3 | exact Hc' | exact Ha' | reflexivity | reflexivity].
  - cbv zeta in Ha5. rewrite Href in *.
    assert (T5 : touches_only accountId b3 b5).
    { eapply touches_insert; [exact Hacc3 | exact Hc5 | exact Ha5 | |];
        cbn [id createdAt set_fills unshiftOrder set_orders]; apply applyTrade_fields. }
    eapply touches_trans; [exact T5|].
    eapply refresh_touches; [|exact Hclosing].
    eapply keyed_touches; [exact Hk|].
    eapply touches_trans; [exact T1|]. eapply touches_trans; [exact T2|].
    eapply touches_trans; [apply touches_same; [exact Hc3 | exact Ha3]|]. exact T5.
Qed.

End Touch.

Lemma placeOrder_touches (rt : Runtime) (fuel : nat) :
  forall accountId rawOrder b o b',
    keyed b -> placeOrder rt fuel accountId rawOrder b = Ret o b' ->
    touches_only accountId b b'.
Proof.
  induction fuel as [|fuel IH]; intros accountId rawOrder b o b' Hk H.
  - discriminate.
  - change (placeOrder rt (S fuel)) with (placeOrder_body rt (placeOrder rt fuel)) in H.
    eapply body_touches; [exact IH | exact Hk | exact H].
Qed.

(** X18.  The broker works on one account at a time.  In a broker whose
    accounts are stored under their identifiers, a call of [placeOrder],
    however deep the forced liquidation takes it, leaves the
    configuration and every other account as they are, and the account
    keeps its identifier and its time of creation; the accounts are still
    stored under their identifiers afterwards.  The same is true of
    [getAccount], [getPositions], [getOrders] and [getFills], which
    change their account only by its refresh. *)
Theorem one_account_at_a_time
    (rt : Runtime) (fuel : nat) (accountId : string) (b : Broker)
    (Hkeyed : keyed b) :
  (forall rawOrder o b',
      placeOrder rt fuel accountId rawOrder b = Ret o b' ->
      touches_only accountId b b' /\ keyed b')
  /\ (forall view b',
        getAccount rt fuel accountId b = Ret view b' ->
        touches_only accountId b b' /\ keyed b')
  /\ (forall rows b',
        getPositions rt fuel accountId b = Ret rows b' ->
        touches_only accountId b b' /\ keyed b')
  /\ (forall status found b',
        getOrders rt fuel accountId status b = Ret found b' ->
        touches_only accountId b b' /\ keyed b')
  /\ (forall found b',
        getFills rt fuel accountId b = Ret found b' ->
        touches_only accountId b b' /\ keyed b').
Proof.
  assert (Hboth : forall b', touches_only accountId b b' ->
                             touches_only accountId b b' /\ keyed b').
  { intros b' T. split; [exact T | eapply keyed_touches; eassumption]. }
  assert (Hrefresh : forall r b1 b2,
             requireAccount accountId b = Ret r b1 ->
             forall u, refreshAccount rt (placeOrder rt fuel) r b1 = Ret u b2 ->
             touches_only accountId b b2).
  { intros r b1 b2 Hreq u Hr.
    apply requireAccount_inv in Hreq as (-> & -> & _).
    eapply refresh_touches; [apply placeOrder_touches | exact Hkeyed | exact Hr]. }
  split; [|split; [|split; [|split]]].
  - intros rawOrder o b' H. apply Hboth. eapply placeOrder_touches; eassumption.
  - intros view b' H. apply Hboth. unfold getAccount in H.
    apply bind_Ret_inv in H as (r & s1 & Hreq & H).
    apply bind_Ret_inv in H as (u & s2 & Href & H).
    apply bind_Ret_inv in H as (account & s3 & Hread & H).
    apply readAccount_inv in Hread as (_ & ->).
    unfold toAccountView in H.
    apply bind_Ret_inv in H as (metrics & s4 & Hmetrics & H).
    apply computeMetrics_inv, quiet_unchanged, (touches_unchanged accountId) in Hmetrics.
    injection H as _ <-.
    eapply touches_trans; [eapply Hrefresh; eassumption | exact Hmetrics].
  - intros rows b' H. apply Hboth. unfold getPositions in H.
    apply bind_Ret_inv in H as (r & s1 & Hreq & H).
    apply bind_Ret_inv in H as (u & s2 & Href & H).
    apply bind_Ret_inv in H as (account & s3 & Hread & H).
    apply readAccount_inv in Hread as (_ & ->).
    eapply touches_trans; [eapply Hrefresh; eassumption|].
    clear -H. revert rows s2 b' H.
    induction (pos_values (positions account)) as [|p rest IH]; intros rows s2 b' H.
    + injection H as _ <-. apply touches_refl.
    + cbn [getPositions_loop] in H.
      apply bind_Ret_inv in H as (quote & s3 & Hpeek & H).
      apply peekQuote_inv in Hpeek as (Hq & _).
      apply bind_Ret_inv in H as (others & s4 & Hrest & H).
      apply IH in Hrest. injection H as _ <-.
      eapply touches_trans; [apply touches_unchanged, quiet_unchanged, Hq | exact Hrest].
  - intros status found b' H. apply Hboth. unfold getOrders in H.
    apply bind_Ret_inv in H as (r & s1 & Hreq & H).
    apply bind_Ret_inv in H as (u & s2 & Href & H).
    apply bind_Ret_inv in H as (account & s3 & Hread & H).
    apply readAccount_inv in Hread as (_ & ->).
    assert (b' = s2).
    { destruct status as [s|]; [destruct (String.eqb s "")|]; injection H as _ <-;
        reflexivity. }
    subst b'. eapply Hrefresh; eassumption.
  - intros found b' H. apply Hboth. unfold getFills in H.
    apply bind_Ret_inv in H as (r & s1 & Hreq & H).
    apply bind_Ret_inv in H as (u & s2 & Href & H).
    apply bind_Ret_inv in H as (account & s3 & Hread & H).
    apply readAccount_inv in Hread as (_ & ->).
    injection H as _ <-. eapply Hrefresh; eassumption.
Qed.

Lemma one_account_at_a_time_witness :
  keyed twin_broker
  /\ exists o b',
       placeOrder sample_rt 1 "ACC-1" (rawMarketOrder "BUY" "AAPL" 10 false) twin_broker
       = Ret o b'
       /\ o_status o = FILLED
       /\ accounts b' !! "ACC-2" = accounts twin_broker !! "ACC-2"
       /\ keyed b'.
Proof.
  assert (Hk : keyed twin_broker).
  { intros k a H. unfold twin_broker in H. cbn [accounts] in H.
    apply lookup_insert_Some in H as [[<- <-]|[_ H]]; [reflexivity|].
    apply lookup_singleton_Some in H as [<- <-]. reflexivity. }
  split; [exact Hk|].
  let r := eval vm_compute in
    (placeOrder sample_rt 1 "ACC-1" (rawMarketOrder "BUY" "AAPL" 10 false) twin_broker) in
  lazymatch r with
  | Ret ?o ?b' =>
      assert (H1 : placeOrder sample_rt 1 "ACC-1" (rawMarketOrder "BUY" "AAPL" 10 false)
                     twin_broker = Ret o b') by (vm_compute; reflexivity);
      destruct (one_account_at_a_time sample_rt 1 "ACC-1" twin_broker Hk) as (Hplace & _);
      destruct (Hplace _ _ _ H1) as ((_ & Hother & _) & Hk');
      exists o, b'; split; [exact H1|]; split; [reflexivity|];
      split; [apply Hother; discriminate | exact Hk']
  end.
Defined.

(** ** A new account *)

Section Idle.

Variable rt : Runtime.
Variable rec : string -> RawOrder -> M Order.

(** Without positions there is nothing to borrow: the date of the last
    borrow fee is the only thing that may change. *)
Lemma applyBorrowFees_flat (ref : string) (b : Broker) (a : Account) :
  accounts b !! ref = Some a ->
  positions a = [] ->
  exists b' today,
    applyBorrowFeesIfNeeded rt ref b = Ret tt b'
    /\ marketDataService b' = marketDataService b
    /\ accounts b' = <[ref := set_lastBorrowFeeDate today a]> (accounts b).
Proof.
  intros Ha Hpos. unfold applyBorrowFeesIfNeeded. rewrite now_run.
  set (today := toIsoDate (rt_clock rt (clockReads b))).
  set (b1 := set_clockReads (S (clockReads b)) b).
  assert (Ha1 : accounts b1 !! ref = Some a) by exact Ha.
  rewrite (bind_Ret _ _ _ _ _ (readAccount_run _ _ _ Ha1)).
  destruct (Z.eqb_spec (lastBorrowFeeDate a) today) as [Esame|Hother].
  { exists b1, today. split; [reflexivity|]. split; [reflexivity|].
    rewrite <- Esame, set_lastBorrowFeeDate_same. symmetry. apply insert_id, Ha. }
  destruct (_ <=? 0)%Z.
  { rewrite (writeAccount_run _ _ _ _ Ha1).
    exists (set_accounts (<[ref := set_lastBorrowFeeDate today a]> (accounts b1)) b1), today.
    split; [reflexivity|]. split; reflexivity. }
  rewrite Hpos. cbn [pos_values map shortValue_loop].
  rewrite bind_unfold. cbn [mret M_ret ret]. rewrite getConfig_run.
  rewrite (roundMoney_comp _ 0) by ring.
  change (num_ltb 0 (roundMoney 0)) with false. cbv iota.
  rewrite bind_unfold. cbn [mret M_ret ret].
  rewrite (writeAccount_run _ _ _ _ Ha1).
  exists (set_accounts (<[ref := set_lastBorrowFeeDate today a]> (accounts b1)) b1), today.
  split; [reflexivity|]. split; reflexivity.
Qed.

(** The refresh of an account without positions, pending settlements and
    fees only sets the date of the last borrow fee. *)
Lemma refresh_idle (ref : string) (b : Broker) (a : Account) :
  accounts b !! ref = Some a ->
  positions a = [] -> pendingSettlements a = [] -> feesDue a = 0 ->
  exists b' date,
    refreshAccount rt rec ref b = Ret tt b'
    /\ config b' = config b
    /\ marketDataService b' = marketDataService b
    /\ accounts b' = <[ref := set_lastBorrowFeeDate date a]> (accounts b).
Proof.
  intros Ha Hpos Hpend Hfee.
  unfold refreshAccount. rewrite now_run.
  set (t := rt_clock rt (clockReads b)).
  set (s1 := set_clockReads (S (clockReads b)) b).
  assert (Ha1 : accounts s1 !! ref = Some a) by exact Ha.
  rewrite (bind_Ret _ _ _ _ _ (writeAccount_run _ _ _ _ Ha1)).
  assert (Hsettle : settleDueEntries t a = a).
  { unfold settleDueEntries. rewrite Hpend. cbn [splitDue fold_left].
    cbn [feesDue set_pendingSettlements]. rewrite Hfee.
    change (num_ltb 0 0) with false. cbv iota.
    rewrite <- Hpend at 1. apply set_pendingSettlements_same. }
  rewrite Hsettle.
  set (s2 := set_accounts _ s1).
  assert (Ha2 : accounts s2 !! ref = Some a) by apply lookup_insert_eq.
  destruct (applyBorrowFees_flat ref s2 a Ha2 Hpos) as (s3 & today & Hborrow & Hm3 & Hacc3).
  rewrite (bind_Ret _ _ _ _ _ Hborrow), getConfig_run.
  assert (Hc3 : config s3 = config b).
  { apply applyBorrowFees_inv in Hborrow as (Hc & _). exact Hc. }
  assert (Hfinal : accounts s3 = <[ref := set_lastBorrowFeeDate today a]> (accounts b)).
  { rewrite Hacc3. subst s2. cbn [accounts set_accounts]. apply insert_insert_eq. }
  destruct (forceLiquidationEnabled (config s3)).
  - assert (Ha3 : accounts s3 !! ref = Some (set_lastBorrowFeeDate today a))
      by (rewrite Hfinal; apply lookup_insert_eq).
    rewrite (bind_Ret _ _ _ _ _ (readAccount_run _ _ _ Ha3)).
    assert (Hmetrics : exists metrics,
               computeMetrics rt (set_lastBorrowFeeDate today a) s3 = Ret metrics s3).
    { unfold computeMetrics. cbn [positions set_lastBorrowFeeDate]. rewrite Hpos.
      eexists. reflexivity. }
    destruct Hmetrics as (metrics & Hmetrics).
    rewrite (bind_Ret _ _ _ _ _ Hmetrics).
    destruct (hasMaintenanceDeficiency metrics).
    + unfold forceLiquidateLargestPosition.
      rewrite (bind_Ret _ _ _ _ _ (readAccount_run _ _ _ Ha3)).
      cbn [positions set_lastBorrowFeeDate]. rewrite Hpos.
      exists s3, today. split; [reflexivity|]. split; [exact Hc3|].
      split; [exact Hm3 | exact Hfinal].
    + exists s3, today. split; [reflexivity|]. split; [exact Hc3|].
      split; [exact Hm3 | exact Hfinal].
  - exists s3, today. split; [reflexivity|]. split; [exact Hc3|].
    split; [exact Hm3 | exact Hfinal].
Qed.

End Idle.

(** X19.  A new account shows its capital.  [createAccount] always
    returns: it stores the account under its identifier, leaves the
    other accounts alone, and keeps the accounts stored under their
    identifiers.  [getAccount] on the new account returns, however the
    clock has moved and whether or not the forced liquidation is
    enabled, and shows the initial capital, rounded to six places, as
    settled cash, as available cash, as equity and as margin excess, with
    nothing unsettled, reserved or due, no exposure, no requirement, no
    position and no order. *)
Theorem new_account_shows_its_capital
    (rt : Runtime) (fuel : nat) (initialCapital : option Q) (b : Broker) :
  let capital :=
    roundMoney (match initialCapital with Some c => c | None => 100000 end) in
  exists account b1 view b2,
    createAccount rt initialCapital b = Ret account b1
    /\ accounts b1 !! id account = Some account
    /\ (forall other, other <> id account -> accounts b1 !! other = accounts b !! other)
    /\ (keyed b -> keyed b1)
    /\ getAccount rt fuel (id account) b1 = Ret view b2
    /\ v_id view = id account
    /\ v_settledCash view = capital
    /\ v_availableCash view = capital
    /\ v_equity view = capital
    /\ v_marginExcess view = capital
    /\ v_unsettledCash view == 0
    /\ v_reservedCash view == 0
    /\ v_feesDue view == 0
    /\ v_longValue view == 0
    /\ v_shortValue view == 0
    /\ v_initialRequired view == 0
    /\ v_maintenanceRequired view == 0
    /\ v_openPositions view = 0%nat
    /\ v_openOrders view = 0%nat.
Proof.
  intros capital.
  set (c0 := match initialCapital with Some c => c | None => 100000 end) in *.
  set (ms := rt_clock rt (clockReads b)).
  set (t := rt_clock rt (S (clockReads b))).
  set (accountId :=
         String.append "ACC-"
           (String.append (showZ ms)
              (String.append "-" (showZ (Qfloor (rt_random rt (rngDraws b) * 10000)))))).
  set (account := newAccount accountId t c0).
  assert (Hcreate : exists b1,
             createAccount rt initialCapital b = Ret account b1
             /\ config b1 = config b
             /\ accounts b1 = <[accountId := account]> (accounts b)).
  { eexists. split; [unfold createAccount; rewrite now_run, rng_run, now_run; reflexivity|].
    split; reflexivity. }
  destruct Hcreate as (b1 & Hcreate & Hc1 & Hacc1).
  assert (Ha1 : accounts b1 !! accountId = Some account)
    by (rewrite Hacc1; apply lookup_insert_eq).
  destruct (refresh_idle rt (placeOrder rt fuel) accountId b1 account Ha1
              eq_refl eq_refl eq_refl)
    as (b2 & date & Hrefresh & Hc2 & Hm2 & Hacc2).
  set (account' := set_lastBorrowFeeDate date account) in *.
  assert (Ha2 : accounts b2 !! accountId = Some account')
    by (rewrite Hacc2; apply lookup_insert_eq).
  assert (Hview : exists view,
             toAccountView rt account' b2 = Ret view b2
             /\ v_id view = accountId
             /\ v_settledCash view = roundMoney (roundMoney c0)
             /\ v_availableCash view = roundMoney (roundMoney (roundMoney c0 - 0 - 0))
             /\ v_equity view = roundMoney (roundMoney c0 + 0 + 0 - 0)
             /\ v_marginExcess view
                = roundMoney (roundMoney (roundMoney c0 + 0 + 0 - 0)
                              - (maintenanceMarginLong (config b2) * 0
                                 + maintenanceMarginShort (config b2) * 0))
             /\ v_unsettledCash view = roundMoney 0
             /\ v_reservedCash view = roundMoney 0
             /\ v_feesDue view = roundMoney 0
             /\ v_longValue view = roundMoney 0
             /\ v_shortValue view = roundMoney 0
             /\ v_initialRequired view
                = roundMoney (initialMarginLong (config b2) * 0
                              + initialMarginShort (config b2) * 0)
             /\ v_maintenanceRequired view
                = roundMoney (maintenanceMarginLong (config b2) * 0
                              + maintenanceMarginShort (config b2) * 0)
             /\ v_openPositions view = 0%nat
             /\ v_openOrders view = 0%nat).
  { eexists. split; [reflexivity|]. repeat split. }
  destruct Hview as (view & Hview & V1 & V2 & V3 & V4 & V5 & V6 & V7 & V8 & V9 & V10
                     & V11 & V12 & V13 & V14).
  assert (R1 : roundMoney (roundMoney c0 - 0 - 0) = roundMoney c0)
    by (rewrite (roundMoney_comp _ (roundMoney c0)) by ring; apply roundMoney_idem).
  assert (R2 : roundMoney (roundMoney c0 + 0 + 0 - 0) = roundMoney c0)
    by (rewrite (roundMoney_comp _ (roundMoney c0)) by ring; apply roundMoney_idem).
  exists account, b1, view, b2.
  split; [exact Hcreate|]. split; [exact Ha1|].
  split; [intros other Hne; rewrite Hacc1; apply lookup_insert_ne;
          intros E; apply Hne; symmetry; exact E|].
  split.
  { intros Hk k a Hl. rewrite Hacc1 in Hl.
    apply lookup_insert_Some in Hl as [[<- <-]|[_ Hl]]; [reflexivity | apply (Hk k a Hl)]. }
  split.
  { unfold getAccount.
    assert (Hsome : is_Some (accounts b1 !! accountId)) by eauto.
    change (id account) with accountId.
    rewrite (bind_Ret _ _ _ _ _ (requireAccount_run _ _ Hsome)).
    rewrite (bind_Ret _ _ _ _ _ Hrefresh).
    rewrite (bind_Ret _ _ _ _ _ (readAccount_run _ _ _ Ha2)).
    exact Hview. }
  split; [exact V1|].
  split; [rewrite V2; apply roundMoney_idem|].
  split; [rewrite V3, R1; apply roundMoney_idem|].
  split; [rewrite V4; exact R2|].
  split.
  { rewrite V5, R2. rewrite (roundMoney_comp _ (roundMoney c0)) by ring.
    apply roundMoney_idem. }
  split; [rewrite V6; reflexivity|]. split; [rewrite V7; reflexivity|].
  split; [rewrite V8; reflexivity|]. split; [rewrite V9; reflexivity|].
  split; [rewrite V10; reflexivity|].
  split; [rewrite V11, (roundMoney_comp _ 0) by ring; reflexivity|].
  split; [rewrite V12, (roundMoney_comp _ 0) by ring; reflexivity|].
  split; [exact V13 | exact V14].
Qed.

(** ** The reports of an account *)

Section Reports.

Variable rt : Runtime.


End Reports.



(** ** Letter case *)

Section LetterCase.




End LetterCase.


(** ** The histories of an account *)



(** ** The average price of a position *)



(** ** The limit price and the fill *)



(** ** Margin requirements *)

Section Requirements.

Variable rt : Runtime.
Variable md : MarketDataService.

Lemma exposures_nonneg (values : list Position) :
  (forall p, In p values ->
     exists mid, midOf rt md (p_symbol p) = Some mid /\ 0 <= mid) ->
  0 <= longValueOf rt md values /\ 0 <= shortValueOf rt md values.
Proof.
  induction values as [|p rest IH]; intros Hq.
  - split; apply Qle_refl.
  - destruct IH as (IL & IS); [intros p0 Hin; apply Hq; right; exact Hin|].
    destruct (Hq p (or_introl eq_refl)) as (mid & Hmid & Hpos).
    cbn [longValueOf shortValueOf fold_right].
    fold (longValueOf rt md rest). fold (shortValueOf rt md rest).
    unfold midOr0. rewrite Hmid.
    split.
    + destruct (num_ltb 0 (p_quantity p)) eqn:E; [|lra].
      apply num_ltb_lt in E.
      assert (0 <= p_quantity p * mid) by (apply Qmult_le_0_compat; lra). lra.
    + destruct (num_ltb (p_quantity p) 0) eqn:E; [|lra].
      assert (0 <= Qabs (p_quantity p) * mid)
        by (apply Qmult_le_0_compat; [apply Qabs_nonneg | exact Hpos]).
      lra.
Qed.

End Requirements.

(** X25.  The initial requirement covers the maintenance requirement.
    When the positions of an account are quoted at prices that are not
    negative and each maintenance margin of the configuration is at most
    the initial margin of its side, [#computeMetrics] returns exposures
    that are not negative and a maintenance requirement that is at most
    the initial requirement; so an account whose equity meets the initial
    requirement, as the simulation of an order demands of the account
    after the trade, is not in a maintenance deficiency. *)
Theorem initial_margin_covers_maintenance
    (rt : Runtime) (account : Account) (b : Broker)
    (Hquoted : forall p, In p (pos_values (positions account)) ->
                 exists mid, midOf rt (marketDataService b) (p_symbol p) = Some mid
                             /\ 0 <= mid)
    (Hlong : maintenanceMarginLong (config b) <= initialMarginLong (config b))
    (Hshort : maintenanceMarginShort (config b) <= initialMarginShort (config b)) :
  exists metrics b',
    computeMetrics rt account b = Ret metrics b'
    /\ 0 <= m_longValue metrics
    /\ 0 <= m_shortValue metrics
    /\ m_maintenanceRequired metrics <= m_initialRequired metrics
    /\ (m_initialRequired metrics <= m_equity metrics ->
        hasMaintenanceDeficiency metrics = false).
Proof.
  assert (Hsome : forall p, In p (pos_values (positions account)) ->
                            is_Some (midOf rt (marketDataService b) (p_symbol p))).
  { intros p Hin. destruct (Hquoted p Hin) as (mid & Hmid & _). eauto. }
  destruct (computeMetrics_value rt account b Hsome)
    as (metrics & b' & Hrun & _ & Hl & Hs & _ & _ & Hi & Hm & _).
  destruct (exposures_nonneg rt (marketDataService b) _ Hquoted) as (L0 & S0).
  set (L := longValueOf rt (marketDataService b) (pos_values (positions account))) in *.
  set (S := shortValueOf rt (marketDataService b) (pos_values (positions account))) in *.
  assert (Hle : m_maintenanceRequired metrics <= m_initialRequired metrics).
  { rewrite Hi, Hm. apply roundMoney_mono.
    assert (maintenanceMarginLong (config b) * L <= initialMarginLong (config b) * L)
      by (apply Qmult_le_compat_r; assumption).
    assert (maintenanceMarginShort (config b) * S <= initialMarginShort (config b) * S)
      by (apply Qmult_le_compat_r; assumption).
    lra. }
  exists metrics, b'. split; [exact Hrun|].
  split; [rewrite Hl; apply roundMoney_nonneg, L0|].
  split; [rewrite Hs; apply roundMoney_nonneg, S0|].
  split; [exact Hle|].
  intros Heq. unfold hasMaintenanceDeficiency.
  destruct (num_ltb _ _) eqn:E; [|reflexivity].
  apply num_ltb_lt in E. lra.
Qed.

Lemma initial_margin_covers_maintenance_witness :
  exists metrics b',
    computeMetrics sample_rt long_account long_broker = Ret metrics b'
    /\ 0 <= m_longValue metrics
    /\ m_maintenanceRequired metrics <= m_initialRequired metrics
    /\ hasMaintenanceDeficiency metrics = false.
Proof.
  destruct (initial_margin_covers_maintenance sample_rt long_account long_broker)
    as (metrics & b' & Hrun & Hl & _ & Hle & Hok).
  - intros p [<-|[]]. exists (roundMoney 100). split; [reflexivity|].
    apply roundMoney_nonneg. unfold Qle. cbn. lia.
  - unfold Qle. cbn. lia.
  - unfold Qle. cbn. lia.
  - exists metrics, b'. split; [exact Hrun|]. split; [exact Hl|]. split; [exact Hle|].
    apply Hok.
    assert (E : computeMetrics sample_rt long_account long_broker = Ret metrics b')
      by exact Hrun.
    vm_compute in E. injection E as <- _. vm_compute. discriminate.
Defined.

(** ** The equity across a trade *)

Section Values.

Variable rt : Runtime.
Variable md : MarketDataService.

Let value (ps : list (string * Position)) : Q := marketValueOf rt md (pos_values ps).

Let held (symbol : string) (ps : list (string * Position)) : Q :=
  match pos_get symbol ps with
  | Some p => p_quantity p
  | None => 0
  end.

Lemma pos_get_absent (symbol : string) (ps : list (string * Position)) :
  ~ In symbol (map fst ps) -> pos_get symbol ps = None.
Proof.
  induction ps as [|[k p] rest IH]; intros Hn; [reflexivity|].
  cbn [pos_get]. destruct (String.eqb_spec k symbol) as [->|Hk].
  - exfalso. apply Hn. left. reflexivity.
  - apply IH. intros Hin. apply Hn. right. exact Hin.
Qed.

Lemma tidy_tail (k : string) (p : Position) (rest : list (string * Position)) :
  tidy_positions ((k, p) :: rest) ->
  p_symbol p = k /\ ~ In k (map fst rest) /\ tidy_positions rest.
Proof.
  intros (Hnd & Hall). inversion Hnd as [|? ? Hk Hrest]; subst.
  split; [apply (Hall k p); left; reflexivity|].
  split; [intros Hin; apply Hk, list_elem_of_In, Hin|].
  split; [exact Hrest|]. intros k0 p0 Hin. apply Hall. right. exact Hin.
Qed.

Lemma value_cons (k : string) (p : Position) (rest : list (string * Position)) :
  value ((k, p) :: rest) = p_quantity p * midOr0 rt md (p_symbol p) + value rest.
Proof. reflexivity. Qed.

Lemma value_pos_set (symbol : string) (p : Position) (ps : list (string * Position)) :
  tidy_positions ps -> p_symbol p = symbol ->
  value (pos_set symbol p ps)
  == value ps + (p_quantity p - held symbol ps) * midOr0 rt md symbol.
Proof.
  intros Htidy Hp.
  induction ps as [|[k p0] rest IH].
  - unfold held. cbn [pos_set pos_get]. rewrite value_cons, Hp.
    change (value []) with 0. ring.
  - destruct (tidy_tail k p0 rest Htidy) as (Hk & Hfresh & Hrest).
    unfold held. cbn [pos_set pos_get]. destruct (String.eqb_spec k symbol) as [->|Hne].
    + rewrite !value_cons, Hp, Hk. ring.
    + rewrite !value_cons, (IH Hrest). unfold held. ring.
Qed.

Lemma value_pos_delete (symbol : string) (ps : list (string * Position)) :
  tidy_positions ps ->
  value (pos_delete symbol ps) == value ps - held symbol ps * midOr0 rt md symbol.
Proof.
  intros Htidy.
  induction ps as [|[k p0] rest IH].
  - unfold held. cbn [pos_get]. change (pos_delete symbol []) with (@nil (string * Position)).
    change (value []) with 0. ring.
  - destruct (tidy_tail k p0 rest Htidy) as (Hk & Hfresh & Hrest).
    assert (Hd : pos_delete symbol ((k, p0) :: rest)
                 = if String.eqb k symbol then pos_delete symbol rest
                   else (k, p0) :: pos_delete symbol rest).
    { unfold pos_delete. cbn [List.filter fst]. destruct (String.eqb k symbol); reflexivity. }
    rewrite Hd. unfold held. cbn [pos_get].
    destruct (String.eqb_spec k symbol) as [->|Hne].
    + rewrite (pos_delete_absent symbol rest (pos_get_absent symbol rest Hfresh)).
      rewrite value_cons, Hk. ring.
    + rewrite !value_cons, (IH Hrest). unfold held. ring.
Qed.

End Values.

(** X26.  The equity across a trade.  On a tidy book, a trade changes the
    market value of the positions by the change of the quantity held in
    the symbol times its mid, and leaves [settledCash] as it is.  A buy
    leaves [unsettledCash] too, so that the equity of [#computeMetrics]
    (settled and unsettled cash plus market value less fees due) rises
    by the value of what was bought, less the fees: the notional is only
    reserved and stays in [settledCash] until the settlement.  A sale
    adds its notional to [unsettledCash], so that the equity changes by
    the notional less the value of what was sold, less the fees. *)
Theorem equity_across_a_trade
    (rt : Runtime) (md : MarketDataService)
    (config : BrokerConfig) (account : Account) (order : OrderInput)
    (fillPrice notional fees : Q) (instant : Time)
    (Htidy : tidy_positions (positions account)) :
  let account' := applyTrade config account order fillPrice notional fees instant in
  let mid := midOr0 rt md (n_symbol order) in
  let held a :=
    match pos_get (n_symbol order) (positions a) with
    | Some p => p_quantity p
    | None => 0
    end in
  let value a := marketValueOf rt md (pos_values (positions a)) in
  let equityOf a := settledCash a + unsettledCash a + value a - feesDue a in
  value account' == value account + (held account' - held account) * mid
  /\ settledCash account' = settledCash account
  /\ (sideIsBuy (n_side order) = true ->
      unsettledCash account' = unsettledCash account
      /\ equityOf account'
         == equityOf account + (held account' - held account) * mid
            - (feesDue account' - feesDue account))
  /\ (sideIsBuy (n_side order) = false ->
      unsettledCash account' = roundMoney (unsettledCash account + notional)
      /\ equityOf account'
         == equityOf account + (held account' - held account) * mid
            + (unsettledCash account' - unsettledCash account)
            - (feesDue account' - feesDue account)).
Proof.
  intros account' mid held value equityOf.
  destruct (applyTrade_cash config account order fillPrice notional fees instant)
    as (Cs & _ & Cu & _ & _).
  fold account' in Cs, Cu.
  assert (Hvalue : value account' == value account + (held account' - held account) * mid).
  { subst value held account' mid. cbv beta. rewrite applyTrade_positions. cbv zeta.
    set (updated := updateSignedPosition _ _ _).
    destruct (num_eqb (quantity updated) 0) eqn:E.
    - pose proof (value_pos_delete rt md (n_symbol order) (positions account) Htidy) as Hv.
      cbv zeta in Hv. rewrite Hv, pos_get_delete. ring.
    - pose proof (value_pos_set rt md (n_symbol order)
                    {| p_symbol := n_symbol order;
                       p_quantity := quantity updated;
                       p_avgPrice := avgPrice updated |}
                    (positions account) Htidy eq_refl) as Hv.
      cbv zeta in Hv. cbn [p_quantity] in Hv. rewrite Hv, pos_get_set.
      cbn [p_quantity]. ring. }
  split; [exact Hvalue|]. split; [exact Cs|].
  split; intros Hside; rewrite Hside in Cu; (split; [exact Cu|]);
    subst equityOf; cbv beta; rewrite Hvalue, Cs, ?Cu; ring.
Qed.

Lemma equity_across_a_trade_witness :
  let account' :=
    applyTrade sample_config sample_account (marketOrder "BUY" "AAPL" 10)
      100 1000 (11 # 10) 1700000000000%Z in
  let value a := marketValueOf sample_rt (Replay sample_replay) (pos_values (positions a)) in
  let equityOf a := settledCash a + unsettledCash a + value a - feesDue a in
  equityOf sample_account == 100000
  /\ equityOf account' == 100000 + 1000 - (11 # 10)
  /\ settledCash account' = settledCash sample_account.
Proof.
  cbv zeta.
  destruct (equity_across_a_trade sample_rt (Replay sample_replay) sample_config
              sample_account (marketOrder "BUY" "AAPL" 10) 100 1000 (11 # 10)
              1700000000000%Z)
    as (_ & Hs & Hbuy & _).
  - split; [constructor | intros k p []].
  - destruct (Hbuy eq_refl) as (_ & He). cbv zeta in He, Hs.
    split; [vm_compute; reflexivity|]. split; [|exact Hs].
    rewrite He. vm_compute. reflexivity.
Defined.

(** ** The account behind a reference is never lost *)

Section Keeps.

Variable rt : Runtime.
Variable ref : string.

Lemma keeps_ret {A} (a : A) (post : A -> Prop) : post a -> keeps ref (mret a) post.
Proof. intros Hp b Hk Hs. cbn. auto. Qed.

Lemma keeps_bind {A B} (m : M A) (k : A -> M B) (mid : A -> Prop) (post : B -> Prop) :
  keeps ref m mid ->
  (forall a, mid a -> keeps ref (k a) post) ->
  keeps ref (m ≫= k) post.
Proof.
  intros Hm Hk b Hkeyed Hs. rewrite bind_unfold.
  specialize (Hm b Hkeyed Hs).
  destruct (m b) as [a b'|e b'|]; [|exact Hm|exact I].
  destruct Hm as (Hk' & Hs' & Ha). exact (Hk a Ha b' Hk' Hs').
Qed.

Lemma keeps_state {A} (m : M A) (post : A -> Prop) :
  (forall b, exists a b', m b = Ret a b' /\ accounts b' = accounts b /\ post a) ->
  keeps ref m post.
Proof.
  intros H b Hk Hs. destruct (H b) as (a & b' & -> & Ha & Hp).
  split; [|split; [rewrite Ha; exact Hs | exact Hp]].
  intros k acc. rewrite Ha. apply Hk.
Qed.

Lemma keeps_now : keeps ref (now rt) (fun _ => True).
Proof. apply keeps_state. intros b. eexists _, _. repeat split. Qed.

Lemma keeps_rng : keeps ref (rng rt) (fun _ => True).
Proof. apply keeps_state. intros b. eexists _, _. repeat split. Qed.

Lemma keeps_getConfig : keeps ref getConfig (fun _ => True).
Proof. apply keeps_state. intros b. eexists _, _. repeat split. Qed.

Lemma keeps_readAccount : keeps ref (readAccount ref) (fun account => id account = ref).
Proof.
  intros b Hk [a Ha]. unfold readAccount. rewrite Ha.
  split; [exact Hk|]. split; [eauto|]. apply (Hk ref a Ha).
Qed.

Lemma keeps_requireAccount : keeps ref (requireAccount ref) (fun r => r = ref).
Proof.
  intros b Hk [a Ha]. unfold requireAccount. rewrite Ha.
  split; [exact Hk|]. split; [eauto|reflexivity].
Qed.

Lemma keeps_writeAccount (f : Account -> Account) :
  (forall a, id (f a) = id a) ->
  keeps ref (writeAccount ref f) (fun _ => True).
Proof.
  intros Hf b Hk [a Ha]. unfold writeAccount. rewrite Ha. cbn [accounts set_accounts].
  split; [|split; [rewrite lookup_insert_eq; eauto | exact I]].
  intros k a' Hl. cbn [accounts set_accounts] in Hl.
  apply lookup_insert_Some in Hl as [[<- <-]|[_ Hl]].
  - rewrite Hf. apply (Hk ref a Ha).
  - apply (Hk k a' Hl).
Qed.

Lemma keeps_quoteOf (symbol : string) (advance : bool) :
  keeps ref (quoteOf rt symbol advance) (fun _ => True).
Proof.
  intros b Hk Hs. unfold quoteOf.
  destruct (marketDataService b) as [svc|enabled].
  - unfold Replay_quote.
    destruct (symbols svc !! symbol) as [entry|]; [|reflexivity].
    destruct (nth_error (e_series entry) (e_index entry)); [|reflexivity].
    destruct advance; (split; [exact Hk | split; [exact Hs | exact I]]).
  - destruct enabled; reflexivity.
Qed.

Lemma keeps_attempt_getQuote (symbol : string) :
  keeps ref (attempt (getQuote rt symbol)) (fun _ => True).
Proof.
  intros b Hk Hs. unfold attempt.
  pose proof (keeps_quoteOf symbol true b Hk Hs) as H. fold (getQuote rt symbol) in H.
  destruct (getQuote rt symbol b) as [q b'|e b'|] eqn:E; [| |exact I].
  - destruct H as (Hk' & Hs' & _). auto.
  - apply getQuote_throw in E as ->. auto.
Qed.

(** The loops over the positions only peek at quotes. *)
Lemma keeps_computeMetrics_loop (values : list Position) :
  forall acc, keeps ref (computeMetrics_loop rt values acc) (fun _ => True).
Proof.
  induction values as [|position rest IH]; intros acc; cbn [computeMetrics_loop].
  - apply keeps_ret. exact I.
  - eapply keeps_bind; [apply keeps_quoteOf|]. intros quote _.
    destruct acc as [[longValue shortValue] marketValue].
    destruct (num_ltb 0 (p_quantity position)); [apply IH|].
    destruct (num_ltb (p_quantity position) 0); apply IH.
Qed.

Lemma keeps_computeMetrics (account : Account) :
  keeps ref (computeMetrics rt account) (fun _ => True).
Proof.
  unfold computeMetrics.
  eapply keeps_bind; [apply keeps_computeMetrics_loop|].
  intros [[longValue shortValue] marketValue] _.
  eapply keeps_bind; [apply keeps_getConfig|]. intros config _.
  destruct (calculateMarginRequirements config longValue shortValue).
  apply keeps_ret. exact I.
Qed.

Lemma keeps_shortValue_loop (values : list Position) :
  forall shortValue, keeps ref (shortValue_loop rt values shortValue) (fun _ => True).
Proof.
  induction values as [|position rest IH]; intros shortValue; cbn [shortValue_loop].
  - apply keeps_ret. exact I.
  - destruct (num_leb 0 (p_quantity position)); [apply IH|].
    eapply keeps_bind; [apply keeps_quoteOf|]. intros quote _. apply IH.
Qed.

Lemma keeps_withValue_loop (values : list Position) :
  keeps ref (withValue_loop rt values) (fun _ => True).
Proof.
  induction values as [|position rest IH]; cbn [withValue_loop].
  - apply keeps_ret. exact I.
  - eapply keeps_bind; [apply keeps_quoteOf|]. intros quote _.
    eapply keeps_bind; [apply IH|]. intros others _. apply keeps_ret. exact I.
Qed.

Lemma keeps_getPositions_loop (values : list Position) :
  keeps ref (getPositions_loop rt values) (fun _ => True).
Proof.
  induction values as [|position rest IH]; cbn [getPositions_loop].
  - apply keeps_ret. exact I.
  - eapply keeps_bind; [apply keeps_quoteOf|]. intros quote _.
    eapply keeps_bind; [apply IH|]. intros others _. apply keeps_ret. exact I.
Qed.

Lemma keeps_applyBorrowFees :
  keeps ref (applyBorrowFeesIfNeeded rt ref) (fun _ => True).
Proof.
  unfold applyBorrowFeesIfNeeded.
  eapply keeps_bind; [apply keeps_now|]. intros t _. cbv zeta.
  eapply keeps_bind; [apply keeps_readAccount|]. intros account _.
  destruct (lastBorrowFeeDate account =? toIsoDate t)%Z; [apply keeps_ret; exact I|].
  destruct (_ <=? 0)%Z; [apply keeps_writeAccount; reflexivity|].
  eapply keeps_bind; [apply keeps_shortValue_loop|]. intros shortValue _.
  eapply keeps_bind; [apply keeps_getConfig|]. intros config _.
  eapply keeps_bind.
  - destruct (num_ltb 0 _); [apply keeps_writeAccount; reflexivity|].
    apply (keeps_ret tt (fun _ => True)). exact I.
  - intros _ _. apply keeps_writeAccount. reflexivity.
Qed.

Lemma keeps_rejectOrder (baseOrder : Order) (reason : string) :
  keeps ref (rejectOrder ref baseOrder reason) (fun _ => True).
Proof.
  unfold rejectOrder. cbv zeta.
  eapply keeps_bind; [apply keeps_writeAccount; reflexivity|]. intros _ _.
  apply keeps_ret. exact I.
Qed.

Lemma keeps_parkOrder (baseOrder : Order) :
  keeps ref (parkOrder ref baseOrder) (fun _ => True).
Proof.
  unfold parkOrder.
  eapply keeps_bind; [apply keeps_writeAccount; reflexivity|]. intros _ _.
  apply keeps_ret. exact I.
Qed.

Lemma keeps_returned {A} (m : M Order) (post : Order + A -> Prop) :
  (forall order, post (inl order)) ->
  keeps ref m (fun _ => True) -> keeps ref (returned (A := A) m) post.
Proof.
  intros Hp Hm. unfold returned.
  eapply keeps_bind; [exact Hm|]. intros order _. apply keeps_ret. apply Hp.
Qed.

Lemma keeps_simulatePostTrade (order : OrderInput) (fillPrice notional fees : Q) :
  keeps ref (simulatePostTrade rt ref order fillPrice notional fees) (fun _ => True).
Proof.
  unfold simulatePostTrade.
  eapply keeps_bind; [apply keeps_readAccount|]. intros account _.
  eapply keeps_bind; [apply keeps_getConfig|]. intros config _.
  eapply keeps_bind; [apply keeps_now|]. intros t _. cbv zeta.
  eapply keeps_bind; [apply keeps_computeMetrics|]. intros metrics _.
  destruct (num_ltb _ 0); [apply keeps_ret; exact I|].
  destruct (num_ltb _ _); apply keeps_ret; exact I.
Qed.

Lemma keeps_applyTradeTo (order : OrderInput) (fillPrice notional fees : Q) :
  keeps ref (applyTradeTo rt ref order fillPrice notional fees) (fun _ => True).
Proof.
  unfold applyTradeTo.
  eapply keeps_bind; [apply keeps_getConfig|]. intros config _.
  eapply keeps_bind; [apply keeps_now|]. intros t _.
  apply keeps_writeAccount. intros a.
  apply (applyTrade_fields config a order fillPrice notional fees t).
Qed.

Variable rec : string -> RawOrder -> M Order.
Hypothesis Hrec : forall rawOrder, keeps ref (rec ref rawOrder) (fun _ => True).

Lemma keeps_forceLiquidate :
  keeps ref (forceLiquidateLargestPosition rt rec ref) (fun _ => True).
Proof.
  unfold forceLiquidateLargestPosition.
  eapply keeps_bind; [apply keeps_readAccount|]. intros account Hid. cbv zeta.
  destruct (length _ =? 0)%nat; [apply keeps_ret; exact I|].
  eapply keeps_bind; [apply keeps_withValue_loop|]. intros withValue _.
  destruct (sortByValue withValue) as [|[target value] others].
  { intros b _ _. reflexivity. }
  rewrite Hid.
  eapply keeps_bind; [apply Hrec|]. intros forced _.
  destruct (o_status forced); try (apply keeps_ret; exact I).
  eapply keeps_bind; [apply keeps_now|]. intros ms _.
  eapply keeps_bind; [apply keeps_now|]. intros createdAt _.
  apply keeps_writeAccount. reflexivity.
Qed.

Lemma keeps_refreshAccount : keeps ref (refreshAccount rt rec ref) (fun _ => True).
Proof.
  unfold refreshAccount.
  eapply keeps_bind; [apply keeps_now|]. intros t _.
  eapply keeps_bind.
  { apply keeps_writeAccount. intros a.
    destruct (settleDueEntries_book t a) as ((Hid & _) & _). exact Hid. }
  intros _ _.
  eapply keeps_bind; [apply keeps_applyBorrowFees|]. intros _ _.
  eapply keeps_bind; [apply keeps_getConfig|]. intros config _.
  destruct (forceLiquidationEnabled config); [|apply keeps_ret; exact I].
  eapply keeps_bind; [apply keeps_readAccount|]. intros account _.
  eapply keeps_bind; [apply keeps_computeMetrics|]. intros metrics _.
  destruct (hasMaintenanceDeficiency metrics); [apply keeps_forceLiquidate|].
  apply keeps_ret. exact I.
Qed.

Lemma keeps_intake (rawOrder : RawOrder) :
  keeps ref (placeOrder_intake rt rec ref rawOrder) (goes_on ref).
Proof.
  assert (Hback : forall m, keeps ref m (fun _ => True) ->
                            keeps ref (returned (A := Intake) m) (goes_on ref)).
  { intros m. apply keeps_returned. intros order. exact I. }
  unfold placeOrder_intake.
  eapply keeps_bind; [apply keeps_requireAccount|]. intros r ->.
  eapply keeps_bind; [apply keeps_refreshAccount|]. intros _ _. cbv zeta.
  eapply keeps_bind; [apply keeps_readAccount|]. intros account _.
  eapply keeps_bind; [apply keeps_now|]. intros ms _.
  eapply keeps_bind; [apply keeps_rng|]. intros r _.
  eapply keeps_bind; [apply keeps_now|]. intros createdAt _.
  destruct (validateOrderByType _); [apply Hback, keeps_rejectOrder|].
  eapply keeps_bind; [apply keeps_getConfig|]. intros config _.
  eapply keeps_bind; [apply keeps_now|]. intros t _.
  destruct (negb _); [apply Hback, keeps_rejectOrder|].
  eapply keeps_bind; [apply keeps_attempt_getQuote|]. intros [e|quote] _;
    [apply Hback, keeps_rejectOrder|].
  eapply keeps_bind.
  { destruct (r_bypassMarginCheck rawOrder).
    - apply (keeps_ret false (fun _ => True)). exact I.
    - eapply keeps_bind; [apply keeps_readAccount|]. intros account' _.
      eapply keeps_bind; [apply keeps_computeMetrics|]. intros metrics _.
      apply keeps_ret. exact I. }
  intros [|] _; [apply Hback, keeps_rejectOrder|].
  destruct (evaluateTrigger _ quote);
    first [apply Hback, keeps_parkOrder | apply keeps_ret; reflexivity].
Qed.

Lemma keeps_match (ctx : Intake) :
  i_ref ctx = ref -> keeps ref (placeOrder_match rt ctx) (fun _ => True).
Proof.
  intros Hctx. unfold placeOrder_match.
  eapply keeps_bind; [apply keeps_quoteOf|]. intros executionQuote _. cbv zeta.
  destruct (negb _); [|apply keeps_ret; exact I].
  apply keeps_returned; [intros; exact I|]. rewrite Hctx. apply keeps_parkOrder.
Qed.

Lemma keeps_record (ctx : Intake) (matched : Matched) (fillPrice notional fees : Q) :
  i_ref ctx = ref ->
  keeps ref (placeOrder_record rt rec ctx matched fillPrice notional fees) (fun _ => True).
Proof.
  intros Hctx. unfold placeOrder_record. rewrite Hctx. cbv zeta.
  eapply keeps_bind; [apply keeps_now|]. intros filledAt _.
  eapply keeps_bind; [apply keeps_writeAccount; reflexivity|]. intros _ _.
  eapply keeps_bind; [apply keeps_now|]. intros ms _.
  eapply keeps_bind; [apply keeps_rng|]. intros r _.
  eapply keeps_bind; [apply keeps_now|]. intros timestamp _.
  eapply keeps_bind; [apply keeps_readAccount|]. intros account _.
  eapply keeps_bind; [apply keeps_writeAccount; reflexivity|]. intros _ _.
  eapply keeps_bind; [apply keeps_refreshAccount|]. intros _ _.
  apply keeps_ret. exact I.
Qed.

Lemma keeps_settle (ctx : Intake) (matched : Matched) (fillPrice notional fees : Q) :
  i_ref ctx = ref ->
  keeps ref (placeOrder_settle rt rec ctx matched fillPrice notional fees) (fun _ => True).
Proof.
  intros Hctx. unfold placeOrder_settle. rewrite Hctx. cbv zeta.
  eapply keeps_bind.
  { destruct (i_bypassMarginCheck ctx).
    - apply (keeps_ret _ (fun _ => True)). exact I.
    - apply keeps_simulatePostTrade. }
  intros simulation _.
  destruct (negb _); [apply keeps_rejectOrder|].
  eapply keeps_bind; [apply keeps_applyTradeTo|]. intros _ _.
  apply keeps_record. exact Hctx.
Qed.

Lemma keeps_fill (ctx : Intake) (matched : Matched) :
  i_ref ctx = ref -> keeps ref (placeOrder_fill rt rec ctx matched) (fun _ => True).
Proof.
  intros Hctx. unfold placeOrder_fill.
  eapply keeps_bind; [apply keeps_getConfig|]. intros config _.
  eapply keeps_bind.
  { unfold calcSlippageBps. eapply keeps_bind; [apply keeps_rng|]. intros random _.
    apply (keeps_ret _ (fun _ => True)). exact I. }
  intros slippageBps _. cbv zeta. apply keeps_settle. exact Hctx.
Qed.

Lemma keeps_body (rawOrder : RawOrder) :
  keeps ref (placeOrder_body rt rec ref rawOrder) (fun _ => True).
Proof.
  unfold placeOrder_body.
  eapply keeps_bind; [apply keeps_intake|]. intros [order|ctx] Hctx.
  { apply keeps_ret. exact I. }
  eapply keeps_bind; [apply keeps_match; exact Hctx|]. intros [order|matched] _.
  { apply keeps_ret. exact I. }
  apply keeps_fill. exact Hctx.
Qed.

End Keeps.

Lemma keeps_placeOrder (rt : Runtime) (ref : string) (fuel : nat) :
  forall rawOrder, keeps ref (placeOrder rt fuel ref rawOrder) (fun _ => True).
Proof.
  induction fuel as [|fuel IH]; intros rawOrder.
  - intros b _ _. exact I.
  - change (placeOrder rt (S fuel)) with (placeOrder_body rt (placeOrder rt fuel)).
    apply keeps_body. exact IH.
Qed.

Section Routes.

Variable rt : Runtime.

(** A route of an account, from what its method does without the account
    and with it. *)
Lemma answer_answersFor {A} (accountId : string) (m : M A) (status : A -> Z)
    (statuses : list Z) (b : Broker) :
  keyed b ->
  (accounts b !! accountId = None -> m b = Throw (AccountNotFound accountId) b) ->
  keeps accountId m (fun _ => True) ->
  (forall a, In (status a) statuses) ->
  In 500%Z statuses ->
  answersFor accountId statuses (answer m status) b.
Proof.
  intros Hk Hnone Hkeeps Hstatus H500. unfold answersFor, answer.
  rewrite bind_unfold. unfold attempt.
  destruct (accounts b !! accountId) as [account|] eqn:E.
  - assert (Hs : is_Some (accounts b !! accountId)) by (rewrite E; eauto).
    specialize (Hkeeps b Hk Hs).
    destruct (m b) as [a b'|e b'|]; [| |exact I].
    + apply Hstatus.
    + rewrite Hkeeps. exact H500.
  - rewrite (Hnone eq_refl). reflexivity.
Qed.

Lemma requireAccount_unknown {A} (accountId : string) (k : string -> M A) (b : Broker) :
  accounts b !! accountId = None ->
  (requireAccount accountId ≫= k) b = Throw (AccountNotFound accountId) b.
Proof. intros E. rewrite bind_unfold. unfold requireAccount. rewrite E. reflexivity. Qed.

Lemma keeps_refreshed {A} (fuel : nat) (accountId : string) (k : Account -> M A) :
  (forall account, keeps accountId (k account) (fun _ => True)) ->
  keeps accountId
    (ref ← requireAccount accountId;
     refreshAccount rt (placeOrder rt fuel) ref;;
     account ← readAccount ref;
     k account)
    (fun _ => True).
Proof.
  intros Hk.
  eapply keeps_bind; [apply keeps_requireAccount|]. intros r ->.
  eapply keeps_bind; [apply keeps_refreshAccount, keeps_placeOrder|]. intros _ _.
  eapply keeps_bind; [apply keeps_readAccount|]. intros account _. apply Hk.
Qed.

End Routes.

(** X27.  404 means that the account does not exist, and nothing else.
    On a broker whose accounts are stored under their identifiers, each
    of the five routes of an account answers 404, with the error
    'account_not_found' and the broker left as it was, when no account is
    stored under the identifier.  When one is, no route answers 404, and
    none lets an error escape: the reports answer 200, the order route
    201 or 400, and a failure of the quote provider in the middle of a
    method is answered 500. *)
Theorem not_found_means_unknown_account
    (rt : Runtime) (fuel : nat) (accountId : string) (b : Broker)
    (Hkeyed : keyed b) :
  answersFor accountId [200; 500]%Z (getAccountRoute rt fuel accountId) b
  /\ answersFor accountId [200; 500]%Z (getPositionsRoute rt fuel accountId) b
  /\ (forall status,
        answersFor accountId [200; 500]%Z (getOrdersRoute rt fuel accountId status) b)
  /\ answersFor accountId [200; 500]%Z (getFillsRoute rt fuel accountId) b
  /\ (forall rawOrder,
        answersFor accountId [201; 400; 500]%Z
          (postOrdersRoute rt (S fuel) accountId rawOrder) b).
Proof.
  assert (H200 : forall A (a : A), In ((fun _ : A => 200%Z) a) [200; 500]%Z)
    by (intros; left; reflexivity).
  assert (H500 : In 500%Z [200; 500]%Z) by (right; left; reflexivity).
  split; [|split; [|split; [|split]]].
  - apply answer_answersFor; [exact Hkeyed | | | apply H200 | exact H500].
    + apply requireAccount_unknown.
    + apply keeps_refreshed. intros account. unfold toAccountView.
      eapply keeps_bind; [apply keeps_computeMetrics|]. intros metrics _.
      apply keeps_ret. exact I.
  - apply answer_answersFor; [exact Hkeyed | | | apply H200 | exact H500].
    + apply requireAccount_unknown.
    + apply keeps_refreshed. intros account. apply keeps_getPositions_loop.
  - intros status.
    apply answer_answersFor; [exact Hkeyed | | | apply H200 | exact H500].
    + apply requireAccount_unknown.
    + apply keeps_refreshed. intros account.
      destruct status as [status|]; [|apply keeps_ret; exact I].
      destruct (String.eqb status ""); apply keeps_ret; exact I.
  - apply answer_answersFor; [exact Hkeyed | | | apply H200 | exact H500].
    + apply requireAccount_unknown.
    + apply keeps_refreshed. intros account. apply keeps_ret. exact I.
  - intros rawOrder. apply answer_answersFor; [exact Hkeyed | | | | ].
    + intros E.
      change (placeOrder rt (S fuel)) with (placeOrder_body rt (placeOrder rt fuel)).
      unfold placeOrder_body, placeOrder_intake.
      rewrite bind_unfold, (requireAccount_unknown _ _ _ E). reflexivity.
    + apply keeps_placeOrder.
    + intros order. destruct (o_status order); cbn; auto.
    + cbn. auto.
Qed.

Lemma not_found_means_unknown_account_witness :
  keyed sample_broker
  /\ getFillsRoute sample_rt 1 "ACC-9" sample_broker
     = Ret (Failure 404 (AccountNotFound "ACC-9")) sample_broker
  /\ answersFor "ACC-1" [201; 400; 500]%Z
       (postOrdersRoute sample_rt 2 "ACC-1" (rawMarketOrder "BUY" "AAPL" 10 false))
       sample_broker.
Proof.
  assert (Hk : keyed sample_broker).
  { intros k a H. unfold sample_broker in H. cbn [accounts] in H.
    apply lookup_singleton_Some in H as [<- <-]. reflexivity. }
  split; [exact Hk|]. split.
  - destruct (not_found_means_unknown_account sample_rt 1 "ACC-9" sample_broker Hk)
      as (_ & _ & _ & Hfills & _).
    unfold answersFor in Hfills.
    assert (E : accounts sample_broker !! "ACC-9" = None) by (vm_compute; reflexivity).
    rewrite E in Hfills. exact Hfills.
  - destruct (not_found_means_unknown_account sample_rt 1 "ACC-1" sample_broker Hk)
      as (_ & _ & _ & _ & Hpost).
    apply Hpost.
Defined.

